(** * CamPay mobile-money client: status polling, input validation, error decoding

    The repository holds two variants of one command-line program
    ([src/main.go], lines 1-377 and lines 378-761).  Both authenticate
    against the CamPay gateway, read a phone number, an amount and a
    description from standard input, start a collection and poll the
    transaction until it is settled.  They are embedded here as the modules
    [Main60] (the variant polling at most 60 times) and [Main40] (the
    variant polling at most 40 times), over a common model of the outside
    world: standard input, standard output, the HTTP gateway and the clock. *)

From Stdlib Require Import ZArith List String Ascii Bool Lia Arith.
From Stdlib Require Import SpecFloat.
Import ListNotations.

Set Warnings "-register-all".

#[local] Open Scope bool_scope.
#[local] Open Scope string_scope.
#[local] Open Scope Z_scope.

(** ** Bytes and strings

    A Go [string] is a sequence of bytes; [len], indexing, [HasPrefix] and
    [==] work on those bytes.  It is modelled by Rocq's [string], whose
    characters are the 256 byte values. *)

Definition byte_val (c : ascii) : Z := Z.of_N (N_of_ascii c).

Definition len (s : string) : Z := Z.of_nat (String.length s).

(** The double-quote character, written by its code. *)
Definition dquote : string := String (ascii_of_nat 34) "".

(** The line feed ['\n']. *)
Definition LF : string := String (ascii_of_nat 10) "".

Definition quoted (s : string) : string := dquote ++ s ++ dquote.

Fixpoint Contains (s sub : string) : bool :=
  String.prefix sub s ||
  match s with
  | EmptyString => false
  | String _ s' => Contains s' sub
  end.

(** ** Package [strings]

    [TrimSpace] and [ToUpper] work on the runes of UTF-8 text, by the
    tables of package [unicode]: the white space cut off includes U+0085,
    U+00A0, U+2000 to U+200A, U+3000 and more, every letter that has an
    upper-case form is mapped to it, and a byte that is no UTF-8 is
    rewritten to U+FFFD by [ToUpper].  Those tables are no part of the
    repository, and the two functions are parameters of the development
    (the class [Unicode]).  What is laid down for them is what Go does on
    text that is ASCII throughout (no byte from [utf8.RuneSelf], 128,
    upwards), where the tables play no part: the white space cut off is
    tab, line feed, vertical tab, form feed, carriage return and space
    ([asciiSpace]), and the letters a-z are mapped to A-Z. *)
Module strings.

(** The bytes set in the table [asciiSpace]. *)
Definition isSpace (c : ascii) : bool :=
  let n := byte_val c in
  ((9 <=? n) && (n <=? 13)) || (n =? 32).

Fixpoint TrimLeft (s : string) : string :=
  match s with
  | EmptyString => EmptyString
  | String c s' => if isSpace c then TrimLeft s' else s
  end.

Fixpoint TrimRight (s : string) : string :=
  match s with
  | EmptyString => EmptyString
  | String c s' =>
      match TrimRight s' with
      | EmptyString => if isSpace c then EmptyString else String c EmptyString
      | t => String c t
      end
  end.

(** [TrimSpace] on ASCII text. *)
Definition trimASCII (s : string) : string := TrimRight (TrimLeft s).

Definition upperByte (c : ascii) : ascii :=
  let n := byte_val c in
  if (97 <=? n) && (n <=? 122) then ascii_of_N (Z.to_N (n - 32)) else c.

(** [ToUpper] on ASCII text. *)
Fixpoint upperASCII (s : string) : string :=
  match s with
  | EmptyString => EmptyString
  | String c s' => String (upperByte c) (upperASCII s')
  end.

(** No byte of [s] is [utf8.RuneSelf] or above. *)
Fixpoint isASCII (s : string) : bool :=
  match s with
  | EmptyString => true
  | String c s' => (byte_val c <? 128) && isASCII s'
  end.

Class Unicode := {
  TrimSpace : string -> string;
  ToUpper : string -> string;
  TrimSpace_ASCII : forall s, isASCII s = true -> TrimSpace s = trimASCII s;
  ToUpper_ASCII : forall s, isASCII s = true -> ToUpper s = upperASCII s
}.

Definition HasPrefix (s prefix : string) : bool := String.prefix prefix s.

(** [dropBytes n s] is [s[n:]] (the empty string when [s] is shorter). *)
Fixpoint dropBytes (n : nat) (s : string) : string :=
  match n, s with
  | O, _ => s
  | S n', String _ s' => dropBytes n' s'
  | S _, EmptyString => EmptyString
  end.

(** [ReplaceAll s old new] for a non-empty [old]: scanning from the left,
    each occurrence of [old] that does not overlap the previous one is
    replaced.  [skip] counts the bytes of the occurrence being dropped.
    (With an empty [old] Go inserts [new] around every character; the
    programs never do that, and the model then returns [s].) *)
Fixpoint replaceFrom (skip : nat) (s old new : string) : string :=
  match s with
  | EmptyString => EmptyString
  | String c s' =>
      match skip with
      | S k => replaceFrom k s' old new
      | O =>
          if String.prefix old s
          then new ++ replaceFrom (Nat.pred (String.length old)) s' old new
          else String c (replaceFrom O s' old new)
      end
  end.

Definition ReplaceAll (s old new : string) : string :=
  match old with
  | EmptyString => s
  | _ => replaceFrom O s old new
  end.

Fixpoint Repeat (s : string) (count : nat) : string :=
  match count with
  | O => EmptyString
  | S count' => s ++ Repeat s count'
  end.

End strings.

(** ** Package [strconv] *)
Module strconv.

Inductive NumError := ErrSyntax | ErrRange.

(** [int] has 64 bits on the platforms the programs are built for
    (the README builds for GOARCH=amd64). *)
Definition intSize : Z := 64.
Definition maxInt : Z := 2 ^ (intSize - 1) - 1.
Definition minInt : Z := - 2 ^ (intSize - 1).
Definition maxUint64 : Z := 2 ^ 64 - 1.

Definition isDigit (c : ascii) : bool :=
  (48 <=? byte_val c) && (byte_val c <=? 57).

Definition digitVal (c : ascii) : Z := byte_val c - 48.

(** The loop of [ParseUint(s, 10, 64)] over the bytes of [s], with [n] the
    value read so far: a byte that is no decimal digit is a syntax error,
    and a value that leaves the unsigned 64-bit range a range error. *)
Fixpoint parseUintFrom (s : string) (n : Z) : Z * option NumError :=
  match s with
  | EmptyString => (n, None)
  | String c s' =>
      if negb (isDigit c) then (0, Some ErrSyntax)
      else if n >=? maxUint64 / 10 + 1 then (maxUint64, Some ErrRange)
      else
        let n1 := n * 10 + digitVal c in
        if n1 >? maxUint64 then (maxUint64, Some ErrRange)
        else parseUintFrom s' n1
  end.

Definition ParseUint (s : string) : Z * option NumError :=
  match s with
  | EmptyString => (0, Some ErrSyntax)
  | _ => parseUintFrom s 0
  end.

(** [ParseInt(s, 10, 0)]: an optional sign, then [ParseUint]; the value
    must fit a signed [int]. *)
Definition ParseInt (s : string) : Z * option NumError :=
  match s with
  | EmptyString => (0, Some ErrSyntax)
  | String c s' =>
      let neg := (byte_val c =? 45) in
      let signed := neg || (byte_val c =? 43) in
      let body := if signed then s' else s in
      match ParseUint body with
      | (_, Some ErrSyntax) => (0, Some ErrSyntax)
      | (un, _) =>
          let cutoff := 2 ^ (intSize - 1) in
          if negb neg && (un >=? cutoff) then (cutoff - 1, Some ErrRange)
          else if neg && (un >? cutoff) then (- cutoff, Some ErrRange)
          else (if neg then - un else un, None)
      end
  end.

(** [Atoi]: its fast path for short strings computes what [ParseInt]
    computes. *)
Definition Atoi (s : string) : Z * option NumError := ParseInt s.

(** The decimal digits of a natural number, most significant first, in
    front of [acc]. *)
Fixpoint digitsFrom (fuel : nat) (n : Z) (acc : string) : string :=
  let acc' := String (ascii_of_N (Z.to_N (48 + n mod 10))) acc in
  match fuel with
  | O => acc'
  | S fuel' => if n <? 10 then acc' else digitsFrom fuel' (n / 10) acc'
  end.

(** [Itoa], also what [fmt] prints for the verb [%d]. *)
Definition Itoa (n : Z) : string :=
  if n <? 0
  then "-" ++ digitsFrom (Z.to_nat (Z.log2 (- n))) (- n) ""
  else digitsFrom (Z.to_nat (Z.log2 n)) n "".

End strconv.

(** ** Package [time]: durations in nanoseconds and how [%v] prints them *)
Module time.

Definition Duration := Z.
Definition Nanosecond : Duration := 1.
Definition Microsecond : Duration := 1000 * Nanosecond.
Definition Millisecond : Duration := 1000 * Microsecond.
Definition Second : Duration := 1000 * Millisecond.

(** [fmtFrac v prec]: the fraction of [v / 10^prec] without trailing
    zeros (with its leading dot, or empty), and [v / 10^prec]. *)
Fixpoint fmtFrac (prec : nat) (v : Z) (printing : bool) (acc : string) : string * Z :=
  match prec with
  | O => ((if printing then "." ++ acc else acc), v)
  | S prec' =>
      let digit := v mod 10 in
      let printing' := printing || negb (digit =? 0) in
      fmtFrac prec' (v / 10) printing'
        (if printing' then String (ascii_of_N (Z.to_N (48 + digit))) acc else acc)
  end.

Definition Duration_String (d : Duration) : string :=
  let neg := d <? 0 in
  let u := Z.abs d in
  let body :=
    if u <? Second then
      if u =? 0 then "0s"
      else if u <? Microsecond then strconv.Itoa u ++ "ns"
      else if u <? Millisecond then
        let (frac, v) := fmtFrac 3 u false "" in strconv.Itoa v ++ frac ++ "µs"
      else
        let (frac, v) := fmtFrac 6 u false "" in strconv.Itoa v ++ frac ++ "ms"
    else
      let (frac, secs) := fmtFrac 9 u false "" in
      let s := strconv.Itoa (secs mod 60) ++ frac ++ "s" in
      let mins := secs / 60 in
      if mins >? 0 then
        let m := strconv.Itoa (mins mod 60) ++ "m" in
        let hours := mins / 60 in
        if hours >? 0 then strconv.Itoa hours ++ "h" ++ m ++ s else m ++ s
      else s
  in
  if neg then "-" ++ body else body.

End time.

(** ** Errors

    A Go [error] is modelled by its message, an absent one ([nil]) by
    [None].  [fmt.Errorf("...: %w", err)] builds the message that ends in
    the message of [err]. *)
Definition error := string.

Definition isNil {A : Type} (e : option A) : bool :=
  match e with
  | None => true
  | Some _ => false
  end.

(** What a function of the programs returns that ends in [(T, error)]: a
    value with a [nil] error, or an error (whose companion value, a zero
    value or [nil], no caller reads). *)
Inductive result (A : Type) : Type :=
| Ok (a : A)
| Err (e : error).

Arguments Ok {A} a.
Arguments Err {A} e.

(** ** Request and response models

    The response structs are declared alike in both programs
    ([src/main.go], lines 18-67 and 399-442); [CollectRequest] differs and
    is declared with each program. *)
Definition float64 := spec_float.

Module TokenRequest.
Record t := mk { Username : string; Password : string }.
End TokenRequest.

Module TokenResponse.
Record t := mk { Token : string }.
Definition zero : t := mk "".
End TokenResponse.

Module CollectResponse.
Record t := mk {
  Reference : string;
  ExternalReference : string;
  Status : string;
  Amount : Z;
  Currency : string;
  Operator : string;
  Code : string;
  OperatorReference : string
}.
Definition zero : t := mk "" "" "" 0 "" "" "" "".
End CollectResponse.

Module TransactionResponse.
Record t := mk {
  Reference : string;
  ExternalReference : string;
  Status : string;
  Amount : float64;
  Currency : string;
  Operator : string;
  Code : string;
  OperatorReference : string;
  Description : string
}.
Definition zero : t := mk "" "" "" (S754_zero false) "" "" "" "" "".
End TransactionResponse.

Module ErrorResponse.
Record t := mk { Code : string; Message : string }.
Definition zero : t := mk "" "".
End ErrorResponse.

(** A field of a struct handed to [json.Marshal]: its [json] tag and its
    value. *)
Inductive GoValue :=
| GoString (s : string)
| GoInt (n : Z).

(** ** The outside world *)

(** An HTTP request as [http.NewRequest] and [Header.Set] build it. *)
Record Request := mkRequest {
  Method : string;
  URL : string;
  Header : list (string * string);
  Payload : option string
}.

Fixpoint Header_assign (h : list (string * string)) (key value : string)
  : list (string * string) :=
  match h with
  | [] => [(key, value)]
  | (k, v) :: h' =>
      if String.eqb k key then (key, value) :: h'
      else (k, v) :: Header_assign h' key value
  end.

Definition Header_Set (req : Request) (key value : string) : Request :=
  mkRequest (Method req) (URL req) (Header_assign (Header req) key value) (Payload req).

(** What one round trip gives: [client.Do] fails, or a response arrives
    with its status code and what [io.ReadAll] reads of its body (the bytes
    read, and the error that ended the reading, if any). *)
Inductive HttpOutcome :=
| DoError (e : error)
| Response (StatusCode : Z) (body : string) (readErr : option error).

(** What the program does to the world, in the order it does it. *)
Inductive Event :=
| EvStdout (s : string)
| EvRequest (req : Request)
| EvSleep (d : time.Duration).

(** The surroundings of one run, which the program reads and cannot change:
    the environment after a [.env] file, if any, was loaded; whether the
    file exists and what loading it returned; the outcome of the n-th HTTP
    round trip of the run; the clock. *)
Record Outside := mkOutside {
  Getenv : string -> string;
  dotenv : option (option error);
  roundTrip : nat -> HttpOutcome;
  unixNow : Z
}.

(** The state a run threads: the lines still to be read from standard
    input (each the result of one [ReadString('\n')]: the text with its
    line end, or the text before the end of the input and the error), the
    number of HTTP round trips made, and the events so far. *)
Record World := mkWorld {
  stdin : list (string * option error);
  requests : nat;
  trace : list Event
}.

Definition IO (A : Type) : Type := World -> A * World.

Definition ret {A : Type} (a : A) : IO A := fun w => (a, w).

Definition bind {A B : Type} (m : IO A) (k : A -> IO B) : IO B :=
  fun w => let (a, w') := m w in k a w'.

Declare Scope io_scope.
Delimit Scope io_scope with io.

Notation "x <- m ;; k" := (bind m (fun x => k))
  (at level 100, m at next level, right associativity) : io_scope.
Notation "' p <- m ;; k" := (bind m (fun x => let p := x in k))
  (at level 100, p pattern, m at next level, right associativity) : io_scope.
Notation "m ;; k" := (bind m (fun _ => k))
  (at level 100, right associativity) : io_scope.

#[local] Open Scope io_scope.

Definition emit (e : Event) : IO unit :=
  fun w => (tt, mkWorld (stdin w) (requests w) (trace w ++ [e])).

(** [fmt.Print], and [fmt.Printf] once its verbs are filled in. *)
Definition fmt_Print (s : string) : IO unit := emit (EvStdout s).

Definition fmt_Println (s : string) : IO unit := emit (EvStdout (s ++ LF)).

Definition time_Sleep (d : time.Duration) : IO unit := emit (EvSleep d).

(** The end of the input as [ReadString] reports it. *)
Definition EOF : error := "EOF".

(** [bufio.NewReader(os.Stdin).ReadString('\n')]: the next line of the
    input, as when the lines are typed at a terminal.  (Each call makes a
    reader of its own; what such a reader reads ahead of its line on a
    piped input, and so loses for the next one, is not modelled.) *)
Definition ReadString : IO (string * option error) :=
  fun w =>
    match stdin w with
    | [] => (("", Some EOF), w)
    | line :: rest => (line, mkWorld rest (requests w) (trace w))
    end.

(** [client.Do(req)] followed by [io.ReadAll(resp.Body)]. *)
Definition client_Do (out : Outside) (req : Request) : IO HttpOutcome :=
  fun w =>
    (roundTrip out (requests w),
     mkWorld (stdin w) (S (requests w)) (trace w ++ [EvRequest req])).

(** ** The Go library behind the programs

    What the programs take from [strings]' Unicode functions,
    [encoding/json], [net/http] and [fmt]'s floating-point verb is a
    parameter of the development: [TrimSpace] and [ToUpper], decoding a
    body into each response struct (the struct after the call, which
    started from its zero value, and the error), encoding a struct given by
    its tagged fields, whether [http.NewRequest] accepts a method and URL,
    and the text of [%.0f]. *)
Class GoLibrary := {
  unicode :: strings.Unicode;
  json_Unmarshal_ErrorResponse : string -> ErrorResponse.t * option error;
  json_Unmarshal_TokenResponse : string -> TokenResponse.t * option error;
  json_Unmarshal_CollectResponse : string -> CollectResponse.t * option error;
  json_Unmarshal_TransactionResponse : string -> TransactionResponse.t * option error;
  json_Marshal : list (string * GoValue) -> string * option error;
  http_NewRequest_error : string -> string -> option error;
  fmt_float0 : float64 -> string
}.

Definition http_NewRequest `{GoLibrary} (method url : string) (payload : option string)
  : result Request :=
  match http_NewRequest_error method url with
  | Some e => Err e
  | None => Ok (mkRequest method url [] payload)
  end.

Definition StatusOK : Z := 200.

(** ** The first program: [src/main.go], lines 1-377 *)
Module Main60.

(** [CollectRequest], with the amount as the text the user typed. *)
Module CollectRequest.
Record t := mk {
  Amount : string;
  Currency : string;
  From : string;
  Description : string;
  ExternalReference : string
}.
Definition fields (c : t) : list (string * GoValue) :=
  [("amount", GoString (Amount c));
   ("currency", GoString (Currency c));
   ("from", GoString (From c));
   ("description", GoString (Description c));
   ("external_reference", GoString (ExternalReference c))].
End CollectRequest.

Definition TokenRequest_fields (r : TokenRequest.t) : list (string * GoValue) :=
  [("username", GoString (TokenRequest.Username r));
   ("password", GoString (TokenRequest.Password r))].

Section Program.
Context {lib : GoLibrary} (out : Outside).

(** [getAuthToken] authenticates with CamPay and returns the access
    token. *)
Definition getAuthToken (baseURL username password : string) : IO (result string) :=
  let tokenReq := TokenRequest.mk username password in
  let (jsonData, err) := json_Marshal (TokenRequest_fields tokenReq) in
  match err with
  | Some e => ret (Err ("failed to marshal token request: " ++ e))
  | None =>
  let url := baseURL ++ "/token/" in
  match http_NewRequest "POST" url (Some jsonData) with
  | Err e => ret (Err ("failed to create request: " ++ e))
  | Ok req =>
  let req := Header_Set req "Content-Type" "application/json" in
  resp <- client_Do out req ;;
  match resp with
  | DoError e => ret (Err ("failed to send request: " ++ e))
  | Response StatusCode body readErr =>
  match readErr with
  | Some e => ret (Err ("failed to read response: " ++ e))
  | None =>
  if negb (StatusCode =? StatusOK) then
    let (errResp, _) := json_Unmarshal_ErrorResponse body in
    ret (Err ("authentication failed (status " ++ strconv.Itoa StatusCode ++ "): "
              ++ ErrorResponse.Code errResp ++ " - " ++ ErrorResponse.Message errResp))
  else
  let (tokenResp, err) := json_Unmarshal_TokenResponse body in
  match err with
  | Some e => ret (Err ("failed to parse token response: " ++ e))
  | None => ret (Ok (TokenResponse.Token tokenResp))
  end end end end end.

(** [promptUser] displays a prompt and reads user input. *)
Definition promptUser (prompt : string) : IO (result string) :=
  fmt_Print prompt ;;
  '(input, err) <- ReadString ;;
  match err with
  | Some e => ret (Err ("failed to read input: " ++ e))
  | None => ret (Ok (strings.TrimSpace input))
  end.

(** [collectPayment] initiates a payment collection from the user's
    mobile money account. *)
Definition collectPayment (baseURL token : string) (collect : CollectRequest.t)
  : IO (result string) :=
  let (jsonData, err) := json_Marshal (CollectRequest.fields collect) in
  match err with
  | Some e => ret (Err ("failed to marshal collect request: " ++ e))
  | None =>
  let url := baseURL ++ "/collect/" in
  match http_NewRequest "POST" url (Some jsonData) with
  | Err e => ret (Err ("failed to create request: " ++ e))
  | Ok req =>
  let req := Header_Set req "Content-Type" "application/json" in
  let req := Header_Set req "Authorization" ("Token " ++ token) in
  resp <- client_Do out req ;;
  match resp with
  | DoError e => ret (Err ("failed to send request: " ++ e))
  | Response StatusCode body readErr =>
  match readErr with
  | Some e => ret (Err ("failed to read response: " ++ e))
  | None =>
  if negb (StatusCode =? StatusOK) then
    let (errResp, _) := json_Unmarshal_ErrorResponse body in
    ret (Err ("collect request failed (status " ++ strconv.Itoa StatusCode ++ "): "
              ++ ErrorResponse.Code errResp ++ " - " ++ ErrorResponse.Message errResp))
  else
  let (collectResp, err) := json_Unmarshal_CollectResponse body in
  match err with
  | Some e => ret (Err ("failed to parse collect response: " ++ e))
  | None => ret (Ok (CollectResponse.Reference collectResp))
  end end end end end.

(** [checkTransactionStatus] makes a single API call to check the
    transaction status. *)
Definition checkTransactionStatus (baseURL token reference : string)
  : IO (result TransactionResponse.t) :=
  let url := baseURL ++ "/transaction/" ++ reference ++ "/" in
  match http_NewRequest "GET" url None with
  | Err e => ret (Err ("failed to create request: " ++ e))
  | Ok req =>
  let req := Header_Set req "Authorization" ("Token " ++ token) in
  resp <- client_Do out req ;;
  match resp with
  | DoError e => ret (Err ("failed to send request: " ++ e))
  | Response StatusCode body readErr =>
  match readErr with
  | Some e => ret (Err ("failed to read response: " ++ e))
  | None =>
  if negb (StatusCode =? StatusOK) then
    let (errResp, _) := json_Unmarshal_ErrorResponse body in
    ret (Err ("status check failed (status " ++ strconv.Itoa StatusCode ++ "): "
              ++ ErrorResponse.Code errResp ++ " - " ++ ErrorResponse.Message errResp))
  else
  let (txnResp, err) := json_Unmarshal_TransactionResponse body in
  match err with
  | Some e => ret (Err ("failed to parse transaction response: " ++ e))
  | None => ret (Ok txnResp)
  end end end end.

Definition maxAttempts : Z := 60.
Definition interval : time.Duration := 5 * time.Second.

(** The loop of [pollTransactionStatus]: [attempt] is the loop variable
    and [remaining] the number of values it still takes below
    [maxAttempts]. *)
Fixpoint pollLoop (remaining : nat) (attempt : Z) (baseURL token reference : string)
  : IO (result TransactionResponse.t) :=
  match remaining with
  | O =>
      ret (Err ("transaction status check timed out after "
                ++ strconv.Itoa maxAttempts ++ " attempts"))
  | S remaining' =>
      r <- checkTransactionStatus baseURL token reference ;;
      match r with
      | Err e => ret (Err e)
      | Ok status =>
          let tag := strings.ToUpper (TransactionResponse.Status status) in
          if String.eqb tag "SUCCESSFUL" then ret (Ok status)
          else if String.eqb tag "FAILED" then ret (Ok status)
          else
            (if String.eqb tag "PENDING" then
               fmt_Print (" Status: PENDING (attempt " ++ strconv.Itoa (attempt + 1)
                          ++ "/" ++ strconv.Itoa maxAttempts ++ ", checking again in "
                          ++ time.Duration_String interval ++ "...)" ++ LF)
             else
               fmt_Print (" Status: " ++ TransactionResponse.Status status
                          ++ " (checking again in "
                          ++ time.Duration_String interval ++ "...)" ++ LF)) ;;
            time_Sleep interval ;;
            pollLoop remaining' (attempt + 1) baseURL token reference
      end
  end.

(** [pollTransactionStatus] continuously checks the transaction status
    until it is complete. *)
Definition pollTransactionStatus (baseURL token reference : string)
  : IO (result TransactionResponse.t) :=
  pollLoop (Z.to_nat maxAttempts) 0 baseURL token reference.

(** [displayFinalStatus] prints the final transaction status. *)
Definition displayFinalStatus (status : TransactionResponse.t) : IO unit :=
  fmt_Println (LF ++ strings.Repeat "=" 60) ;;
  fmt_Println "           TRANSACTION FINAL STATUS" ;;
  fmt_Println (strings.Repeat "=" 60) ;;
  fmt_Print ("Reference:           " ++ TransactionResponse.Reference status ++ LF) ;;
  fmt_Print ("External Reference:  " ++ TransactionResponse.ExternalReference status ++ LF) ;;
  fmt_Print ("Status:              " ++ TransactionResponse.Status status ++ LF) ;;
  fmt_Print ("Amount:              " ++ fmt_float0 (TransactionResponse.Amount status)
             ++ " " ++ TransactionResponse.Currency status ++ LF) ;;
  fmt_Print ("Operator:            " ++ TransactionResponse.Operator status ++ LF) ;;
  fmt_Print ("Description:         " ++ TransactionResponse.Description status ++ LF) ;;
  fmt_Print ("Transaction Code:    " ++ TransactionResponse.Code status ++ LF) ;;
  fmt_Print ("Operator Reference:  " ++ TransactionResponse.OperatorReference status ++ LF) ;;
  fmt_Println (strings.Repeat "=" 60) ;;
  let tag := strings.ToUpper (TransactionResponse.Status status) in
  if String.eqb tag "SUCCESSFUL" then
    fmt_Println "Payment completed successfully!" ;;
    fmt_Println (LF ++ " Thank you for using CamPay!")
  else if String.eqb tag "FAILED" then
    fmt_Println "❌ Payment failed or was cancelled" ;;
    fmt_Println (LF ++ " Please try again or contact support if the issue persists")
  else
    fmt_Print ("  Payment status: " ++ TransactionResponse.Status status ++ LF).

(** The environment name [run] works with: [DEV] when the variable is
    not set. *)
Definition environment : string :=
  let environment := Getenv out "ENVIRONMENT" in
  if String.eqb environment "" then "DEV" else environment.

(** The API base URL [run] determines from the environment. *)
Definition apiBaseURL : string :=
  if String.eqb environment "PROD"
  then "https://www.campay.net/api"
  else "https://demo.campay.net/api".

(** [run] is embedded in parts, which follow one another in the source.
    The last part, lines 145-181: the collection request, the polling
    and the display of the final status. *)
Definition run_payment (token phoneNumber amountStr description : string)
  : IO (option error) :=
  let externalRef := "TXN-" ++ strconv.Itoa (unixNow out) in
  let collectReq := CollectRequest.mk amountStr "XAF" phoneNumber description externalRef in
  fmt_Println (LF ++ " Initiating payment collection...") ;;
  r <- collectPayment apiBaseURL token collectReq ;;
  match r with
  | Err e => ret (Some ("failed to initiate payment: " ++ e))
  | Ok reference =>
  fmt_Print (LF ++ "✓ Payment collection initiated successfully!") ;;
  fmt_Print (LF ++ "Transaction Reference: " ++ reference ++ LF) ;;
  fmt_Print ("External Reference: " ++ externalRef ++ LF) ;;
  fmt_Println (LF ++ " Please check your phone for USSD prompt...") ;;
  fmt_Println " Enter your mobile money PIN to complete the payment..." ;;
  fmt_Println (LF ++ "Waiting for transaction completion...") ;;
  r <- pollTransactionStatus apiBaseURL token reference ;;
  match r with
  | Err e => ret (Some ("failed to get transaction status: " ++ e))
  | Ok finalStatus =>
  displayFinalStatus finalStatus ;;
  ret None
  end end.

(** The description, lines 140-143. *)
Definition run_description (token phoneNumber amountStr : string) : IO (option error) :=
  r <- promptUser " Enter description: " ;;
  match r with
  | Err e => ret (Some e)
  | Ok description =>
  run_payment token phoneNumber amountStr description
  end.

(** The amount and its validation, lines 129-138. *)
Definition run_amount (token phoneNumber : string) : IO (option error) :=
  r <- promptUser " Enter amount (XAF, no decimals): " ;;
  match r with
  | Err e => ret (Some e)
  | Ok amountStr =>
  let (amount, err) := strconv.Atoi amountStr in
  if negb (isNil err) || (amount <=? 0) then
    ret (Some "invalid amount. Must be a positive integer")
  else
  run_description token phoneNumber amountStr
  end.

(** The phone number and its validation, lines 118-127. *)
Definition run_input (token : string) : IO (option error) :=
  r <- promptUser " Enter mobile money number (e.g., 237670123456): " ;;
  match r with
  | Err e => ret (Some e)
  | Ok phoneNumber =>
  if negb (strings.HasPrefix phoneNumber "237") || negb (len phoneNumber =? 12) then
    ret (Some "invalid phone number format. Must start with 237 and be 12 digits total")
  else
  run_amount token phoneNumber
  end.

(** The first part, lines 78-116: the configuration and the
    authentication. *)
Definition run : IO (option error) :=
  match dotenv out with
  | Some (Some e) => ret (Some ("failed to load .env file: " ++ e))
  | _ =>
  let username := Getenv out "APP_USERNAME" in
  let password := Getenv out "APP_PASSWORD" in
  if String.eqb username "" || String.eqb password "" then
    ret (Some "APP_USERNAME and APP_PASSWORD must be set in .env file")
  else
  fmt_Println "===  CamPay Mobile Money Payment System ===" ;;
  fmt_Print ("Environment: " ++ environment ++ LF ++ LF) ;;
  fmt_Println " Authenticating with CamPay..." ;;
  r <- getAuthToken apiBaseURL username password ;;
  match r with
  | Err e => ret (Some ("authentication failed: " ++ e))
  | Ok token =>
  fmt_Println "✓ Authentication successful!" ;;
  run_input token
  end end.

(** [main]: the exit status of the process. *)
Definition main : IO Z :=
  err <- run ;;
  match err with
  | Some e => fmt_Println ("❌ Error: " ++ e) ;; ret 1
  | None => ret 0
  end.

End Program.
End Main60.

(** ** The second program: [src/main.go], lines 378-761 *)
Module Main40.

(** [CollectRequest], with the amount as an [int]. *)
Module CollectRequest.
Record t := mk {
  Amount : Z;
  Currency : string;
  From : string;
  Description : string;
  ExternalReference : string
}.
Definition fields (c : t) : list (string * GoValue) :=
  [("amount", GoInt (Amount c));
   ("currency", GoString (Currency c));
   ("from", GoString (From c));
   ("description", GoString (Description c));
   ("external_reference", GoString (ExternalReference c))].
End CollectRequest.

Definition TokenRequest_fields (r : TokenRequest.t) : list (string * GoValue) :=
  [("username", GoString (TokenRequest.Username r));
   ("password", GoString (TokenRequest.Password r))].

Definition normalizeStatus `{strings.Unicode} (s : string) : string :=
  strings.ToUpper (strings.TrimSpace s).

Section Program.
Context {lib : GoLibrary} (out : Outside).

Definition formatAPIError (status : Z) (body : string) : error :=
  let (er, err) := json_Unmarshal_ErrorResponse body in
  if isNil err && negb (String.eqb (ErrorResponse.Message er) "") then
    "API error (" ++ strconv.Itoa status ++ "): "
    ++ ErrorResponse.Code er ++ " - " ++ ErrorResponse.Message er
  else
    "API error (" ++ strconv.Itoa status ++ "): " ++ body.

Definition getAuthToken (baseURL username password : string) : IO (result string) :=
  let (reqBody, _) := json_Marshal (TokenRequest_fields (TokenRequest.mk username password)) in
  match http_NewRequest "POST" (baseURL ++ "/token/") (Some reqBody) with
  | Err e => ret (Err e)
  | Ok req =>
  let req := Header_Set req "Content-Type" "application/json" in
  resp <- client_Do out req ;;
  match resp with
  | DoError e => ret (Err e)
  | Response StatusCode body _ =>
  if negb (StatusCode =? 200) then ret (Err (formatAPIError StatusCode body))
  else
  let (tokenResp, err) := json_Unmarshal_TokenResponse body in
  match err with
  | Some e => ret (Err e)
  | None => ret (Ok (TokenResponse.Token tokenResp))
  end end end.

(** [promptUser] calls itself for as long as the line read is empty
    once trimmed.  Every such call has taken one line off the input, so
    [fuel] calls after the first suffice when [fuel] lines are left;
    the case of no fuel is never reached ([promptUser_unfold]). *)
Fixpoint promptUserFrom (fuel : nat) (prompt : string) : IO (result string) :=
  fmt_Print prompt ;;
  '(input, err) <- ReadString ;;
  match err with
  | Some e => ret (Err e)
  | None =>
      let input := strings.TrimSpace input in
      if String.eqb input "" then
        match fuel with
        | S fuel' => promptUserFrom fuel' prompt
        | O => ret (Err EOF)
        end
      else ret (Ok input)
  end.

Definition promptUser (prompt : string) : IO (result string) :=
  fun w => promptUserFrom (List.length (stdin w)) prompt w.

Definition promptPhone : IO (result string) :=
  r <- promptUser "Enter mobile money number (e.g., 670123456 or 237670123456): " ;;
  match r with
  | Err e => ret (Err e)
  | Ok phone =>
  let phone := strings.TrimSpace phone in
  let phone := strings.ReplaceAll phone " " "" in
  let phone :=
    if (len phone =? 9) &&
       match String.get 0 phone with
       | Some c => Ascii.eqb c "6"
       | None => false
       end
    then "237" ++ phone else phone in
  if negb (strings.HasPrefix phone "237") || negb (len phone =? 12) then
    ret (Err "invalid phone number format")
  else ret (Ok phone)
  end.

Definition promptAmount : IO (result Z) :=
  r <- promptUser "Enter amount (XAF): " ;;
  match r with
  | Err e => ret (Err e)
  | Ok amtStr =>
  let (amount, err) := strconv.Atoi amtStr in
  if negb (isNil err) || (amount <=? 0) then
    ret (Err "amount must be a positive integer")
  else ret (Ok amount)
  end.

Definition collectPayment (baseURL token : string) (collect : CollectRequest.t)
  : IO (result string) :=
  let (reqBody, _) := json_Marshal (CollectRequest.fields collect) in
  match http_NewRequest "POST" (baseURL ++ "/collect/") (Some reqBody) with
  | Err e => ret (Err e)
  | Ok req =>
  let req := Header_Set req "Content-Type" "application/json" in
  let req := Header_Set req "Authorization" ("Token " ++ token) in
  resp <- client_Do out req ;;
  match resp with
  | DoError e => ret (Err e)
  | Response StatusCode body _ =>
  if negb (StatusCode =? 200) then ret (Err (formatAPIError StatusCode body))
  else
  let (collectResp, err) := json_Unmarshal_CollectResponse body in
  match err with
  | Some e => ret (Err e)
  | None => ret (Ok (CollectResponse.Reference collectResp))
  end end end.

Definition checkTransactionStatus (baseURL token reference : string)
  : IO (result TransactionResponse.t) :=
  match http_NewRequest "GET" (baseURL ++ "/transaction/" ++ reference ++ "/") None with
  | Err e => ret (Err e)
  | Ok req =>
  let req := Header_Set req "Authorization" ("Token " ++ token) in
  resp <- client_Do out req ;;
  match resp with
  | DoError e => ret (Err e)
  | Response StatusCode body _ =>
  if negb (StatusCode =? 200) then ret (Err (formatAPIError StatusCode body))
  else
  let (txn, err) := json_Unmarshal_TransactionResponse body in
  match err with
  | Some e => ret (Err e)
  | None => ret (Ok txn)
  end end end.

Definition maxAttempts : Z := 40.
Definition interval : time.Duration := 5 * time.Second.

(** The loop of [pollTransactionStatus]: [attempt] is the loop variable
    and [remaining] the number of values it still takes up to
    [maxAttempts]. *)
Fixpoint pollLoop (remaining : nat) (attempt : Z) (baseURL token reference : string)
  : IO (result TransactionResponse.t) :=
  match remaining with
  | O => ret (Err "transaction polling timed out")
  | S remaining' =>
      r <- checkTransactionStatus baseURL token reference ;;
      match r with
      | Err e => ret (Err e)
      | Ok status =>
          let s := normalizeStatus (TransactionResponse.Status status) in
          if String.eqb s "SUCCESSFUL" || String.eqb s "FAILED" then ret (Ok status)
          else
            fmt_Print ("Status: " ++ s ++ " (attempt " ++ strconv.Itoa attempt
                       ++ "/" ++ strconv.Itoa maxAttempts ++ ")" ++ LF) ;;
            time_Sleep interval ;;
            pollLoop remaining' (attempt + 1) baseURL token reference
      end
  end.

Definition pollTransactionStatus (baseURL token reference : string)
  : IO (result TransactionResponse.t) :=
  pollLoop (Z.to_nat maxAttempts) 1 baseURL token reference.

Definition displayFinalStatus (s : TransactionResponse.t) : IO unit :=
  fmt_Println (LF ++ "============================================================") ;;
  fmt_Println "                 TRANSACTION FINAL STATUS" ;;
  fmt_Println "============================================================" ;;
  fmt_Print ("Reference:           " ++ TransactionResponse.Reference s ++ LF) ;;
  fmt_Print ("External Reference:  " ++ TransactionResponse.ExternalReference s ++ LF) ;;
  fmt_Print ("Status:              " ++ TransactionResponse.Status s ++ LF) ;;
  fmt_Print ("Amount:              " ++ fmt_float0 (TransactionResponse.Amount s)
             ++ " " ++ TransactionResponse.Currency s ++ LF) ;;
  fmt_Print ("Operator:            " ++ TransactionResponse.Operator s ++ LF) ;;
  fmt_Print ("Description:         " ++ TransactionResponse.Description s ++ LF) ;;
  fmt_Print ("Code:                " ++ TransactionResponse.Code s ++ LF) ;;
  fmt_Print ("Operator Reference:  " ++ TransactionResponse.OperatorReference s ++ LF) ;;
  fmt_Println "============================================================" ;;
  let tag := normalizeStatus (TransactionResponse.Status s) in
  if String.eqb tag "SUCCESSFUL" then fmt_Println "🎉 Payment successful!"
  else if String.eqb tag "FAILED" then fmt_Println "❌ Payment failed"
  else fmt_Println ("⚠ Unknown status: " ++ TransactionResponse.Status s).

(** The environment name [run] works with: [DEV] when the variable is
    not set. *)
Definition env : string :=
  let env := Getenv out "ENVIRONMENT" in
  if String.eqb env "" then "DEV" else env.

(** The API base URL: the entry of the two-entry map that [run] looks
    up under [env == "PROD"]. *)
Definition apiBaseURL : string :=
  (fun key : bool =>
     if key then "https://www.campay.net/api" else "https://demo.campay.net/api")
    (String.eqb env "PROD").

(** [run] is embedded in parts, which follow one another in the source.
    The last part, lines 506-534: the collection request, the polling
    and the display of the final status. *)
Definition run_payment (token phone : string) (amount : Z) (description : string)
  : IO (option error) :=
  let externalRef := "TXN-" ++ strconv.Itoa (unixNow out) in
  let collectReq := CollectRequest.mk amount "XAF" phone description externalRef in
  fmt_Println (LF ++ "📲 Initiating payment...") ;;
  r <- collectPayment apiBaseURL token collectReq ;;
  match r with
  | Err e => ret (Some e)
  | Ok reference =>
  fmt_Print (LF ++ "✓ Payment initiated" ++ LF ++ "Reference: " ++ reference ++ LF) ;;
  fmt_Println "Please check your phone for USSD popup..." ;;
  r <- pollTransactionStatus apiBaseURL token reference ;;
  match r with
  | Err e => ret (Some e)
  | Ok finalStatus =>
  displayFinalStatus finalStatus ;;
  ret None
  end end.

(** The description, lines 501-504. *)
Definition run_description (token phone : string) (amount : Z) : IO (option error) :=
  r <- promptUser "Enter description: " ;;
  match r with
  | Err e => ret (Some e)
  | Ok description =>
  run_payment token phone amount description
  end.

(** The amount, lines 496-499. *)
Definition run_amount (token phone : string) : IO (option error) :=
  r <- promptAmount ;;
  match r with
  | Err e => ret (Some e)
  | Ok amount =>
  run_description token phone amount
  end.

(** The phone number, lines 490-494. *)
Definition run_input (token : string) : IO (option error) :=
  r <- promptPhone ;;
  match r with
  | Err e => ret (Some e)
  | Ok phone =>
  run_amount token phone
  end.

(** The first part, lines 455-488: the configuration and the
    authentication. *)
Definition run : IO (option error) :=
  match dotenv out with
  | Some (Some e) => ret (Some ("failed to load .env: " ++ e))
  | _ =>
  let username := Getenv out "APP_USERNAME" in
  let password := Getenv out "APP_PASSWORD" in
  if String.eqb username "" || String.eqb password "" then
    ret (Some "APP_USERNAME and APP_PASSWORD must be set")
  else
  fmt_Println "=== CamPay Mobile Money Payment System ===" ;;
  fmt_Print ("Environment: " ++ env ++ LF ++ LF) ;;
  fmt_Println "🔐 Authenticating..." ;;
  r <- getAuthToken apiBaseURL username password ;;
  match r with
  | Err e => ret (Some e)
  | Ok token =>
  fmt_Println "✓ Authentication successful" ;;
  run_input token
  end end.

(** [main]: the exit status of the process. *)
Definition main : IO Z :=
  err <- run ;;
  match err with
  | Some e => fmt_Println ("❌ Error: " ++ e) ;; ret 1
  | None => ret 0
  end.

End Program.
End Main40.

(** ** A reference library

    An executable instance of [GoLibrary], on which the programs can be run
    on concrete inputs.  It reads JSON by the grammar of RFC 8259 and fills
    structs the way [encoding/json] does: members are matched to fields by
    their tag, exactly or else without regard to ASCII letter case; members
    that match no field are skipped; [null] leaves a field as it is; a
    value of the wrong kind is skipped and reported once decoding is done;
    a text that is not JSON leaves the struct untouched.  It does not
    replace invalid UTF-8 by U+FFFD, knows no letter case outside ASCII and
    has no limit on nesting.  The messages of its errors are its own. *)
Module Reference.

Inductive Value :=
| Null
| Bool (b : bool)
| Number (lit : string)
| Str (s : string)
| Array (elements : list Value)
| Object (members : list (string * Value)).

Definition isWS (c : ascii) : bool :=
  let n := byte_val c in (n =? 32) || (n =? 9) || (n =? 10) || (n =? 13).

Fixpoint skipWS (s : string) : string :=
  match s with
  | String c s' => if isWS c then skipWS s' else s
  | EmptyString => EmptyString
  end.

Definition hexVal (c : ascii) : option Z :=
  let n := byte_val c in
  if (48 <=? n) && (n <=? 57) then Some (n - 48)
  else if (97 <=? n) && (n <=? 102) then Some (n - 87)
  else if (65 <=? n) && (n <=? 70) then Some (n - 55)
  else None.

Definition hex4 (a b c d : ascii) : option Z :=
  match hexVal a, hexVal b, hexVal c, hexVal d with
  | Some x, Some y, Some z, Some w => Some (((x * 16 + y) * 16 + z) * 16 + w)
  | _, _, _, _ => None
  end.

Definition byte_of (n : Z) : ascii := ascii_of_N (Z.to_N n).

(** The UTF-8 encoding of a code point. *)
Definition utf8 (cp : Z) : string :=
  if cp <? 128 then String (byte_of cp) ""
  else if cp <? 2048 then
    String (byte_of (192 + cp / 64)) (String (byte_of (128 + cp mod 64)) "")
  else if cp <? 65536 then
    String (byte_of (224 + cp / 4096))
      (String (byte_of (128 + (cp / 64) mod 64)) (String (byte_of (128 + cp mod 64)) ""))
  else
    String (byte_of (240 + cp / 262144))
      (String (byte_of (128 + (cp / 4096) mod 64))
         (String (byte_of (128 + (cp / 64) mod 64)) (String (byte_of (128 + cp mod 64)) ""))).

Definition simpleEscape (c : ascii) : option string :=
  let n := byte_val c in
  if n =? 34 then Some dquote
  else if n =? 92 then Some "\"
  else if n =? 47 then Some "/"
  else if n =? 98 then Some (String (byte_of 8) "")
  else if n =? 102 then Some (String (byte_of 12) "")
  else if n =? 110 then Some (String (byte_of 10) "")
  else if n =? 114 then Some (String (byte_of 13) "")
  else if n =? 116 then Some (String (byte_of 9) "")
  else None.

Definition consResult (pre : string) (r : option (string * string))
  : option (string * string) :=
  match r with
  | Some (text, rest) => Some (pre ++ text, rest)
  | None => None
  end.

(** The text of a string literal whose opening quote has been read, and
    what follows its closing quote. *)
Fixpoint scanString (s : string) : option (string * string) :=
  match s with
  | EmptyString => None
  | String c r =>
      if byte_val c =? 34 then Some ("", r)
      else if byte_val c <? 32 then None
      else if byte_val c =? 92 then
        match r with
        | String e r1 =>
            if byte_val e =? 117 then
              match r1 with
              | String h1 (String h2 (String h3 (String h4 r2))) =>
                  match hex4 h1 h2 h3 h4 with
                  | None => None
                  | Some hi =>
                      if (55296 <=? hi) && (hi <? 56320) then
                        match r2 with
                        | String b (String u (String l1 (String l2 (String l3 (String l4 r3))))) =>
                            match (if (byte_val b =? 92) && (byte_val u =? 117)
                                   then hex4 l1 l2 l3 l4 else None) with
                            | Some lo =>
                                if (56320 <=? lo) && (lo <? 57344)
                                then consResult
                                       (utf8 (65536 + (hi - 55296) * 1024 + (lo - 56320)))
                                       (scanString r3)
                                else consResult (utf8 65533) (scanString r2)
                            | None => consResult (utf8 65533) (scanString r2)
                            end
                        | _ => consResult (utf8 65533) (scanString r2)
                        end
                      else if (56320 <=? hi) && (hi <? 57344)
                      then consResult (utf8 65533) (scanString r2)
                      else consResult (utf8 hi) (scanString r2)
                  end
              | _ => None
              end
            else
              match simpleEscape e with
              | Some text => consResult text (scanString r1)
              | None => None
              end
        | EmptyString => None
        end
      else consResult (String c "") (scanString r)
  end.

Fixpoint spanDigits (s : string) : string * string :=
  match s with
  | String c s' =>
      if strconv.isDigit c
      then let (ds, rest) := spanDigits s' in (String c ds, rest)
      else ("", s)
  | EmptyString => ("", "")
  end.

(** A number literal at the head of [s]: sign, integer part, fraction and
    exponent as texts, and what follows. *)
Definition scanNumber (s : string) : option (string * string) :=
  let (sign, s1) :=
    match s with
    | String c r => if byte_val c =? 45 then ("-", r) else ("", s)
    | EmptyString => ("", s)
    end in
  let (int, s2) := spanDigits s1 in
  if String.eqb int "" then None
  else if (1 <? len int) && String.prefix "0" int then None
  else
    let fracPart :=
      match s2 with
      | String c r =>
          if byte_val c =? 46 then
            let (frac, s3) := spanDigits r in
            if String.eqb frac "" then None else Some ("." ++ frac, s3)
          else Some ("", s2)
      | EmptyString => Some ("", s2)
      end in
    match fracPart with
    | None => None
    | Some (frac, s3) =>
        match s3 with
        | String c r =>
            if (byte_val c =? 101) || (byte_val c =? 69) then
              let (esign, r') :=
                match r with
                | String d r'' =>
                    if (byte_val d =? 43) || (byte_val d =? 45)
                    then (String d "", r'') else ("", r)
                | EmptyString => ("", r)
                end in
              let (digits, s4) := spanDigits r' in
              if String.eqb digits "" then None
              else Some (sign ++ int ++ frac ++ String c esign ++ digits, s4)
            else Some (sign ++ int ++ frac, s3)
        | EmptyString => Some (sign ++ int ++ frac, s3)
        end
    end.

Definition literal (word : string) (v : Value) (s : string) : option (Value * string) :=
  if String.prefix word s
  then Some (v, strings.dropBytes (String.length word) s)
  else None.

Fixpoint parseValue (fuel : nat) (s : string) {struct fuel} : option (Value * string) :=
  match fuel with
  | O => None
  | S fuel' =>
      match skipWS s with
      | EmptyString => None
      | String c r =>
          let n := byte_val c in
          if n =? 123 then
            match skipWS r with
            | String c' r' =>
                if byte_val c' =? 125 then Some (Object [], r')
                else
                  match parseMembers fuel' (skipWS r) with
                  | Some (ms, rest) => Some (Object ms, rest)
                  | None => None
                  end
            | EmptyString => None
            end
          else if n =? 91 then
            match skipWS r with
            | String c' r' =>
                if byte_val c' =? 93 then Some (Array [], r')
                else
                  match parseElements fuel' r with
                  | Some (vs, rest) => Some (Array vs, rest)
                  | None => None
                  end
            | EmptyString => None
            end
          else if n =? 34 then
            match scanString r with
            | Some (text, rest) => Some (Str text, rest)
            | None => None
            end
          else if n =? 116 then literal "true" (Bool true) (String c r)
          else if n =? 102 then literal "false" (Bool false) (String c r)
          else if n =? 110 then literal "null" Null (String c r)
          else
            match scanNumber (String c r) with
            | Some (lit, rest) => Some (Number lit, rest)
            | None => None
            end
      end
  end
with parseElements (fuel : nat) (s : string) {struct fuel}
  : option (list Value * string) :=
  match fuel with
  | O => None
  | S fuel' =>
      match parseValue fuel' s with
      | None => None
      | Some (v, rest) =>
          match skipWS rest with
          | String c r =>
              if byte_val c =? 44 then
                match parseElements fuel' r with
                | Some (vs, rest') => Some (v :: vs, rest')
                | None => None
                end
              else if byte_val c =? 93 then Some ([v], r)
              else None
          | EmptyString => None
          end
      end
  end
with parseMembers (fuel : nat) (s : string) {struct fuel}
  : option (list (string * Value) * string) :=
  match fuel with
  | O => None
  | S fuel' =>
      match s with
      | String q r =>
          if byte_val q =? 34 then
            match scanString r with
            | None => None
            | Some (key, rest) =>
                match skipWS rest with
                | String colon r1 =>
                    if byte_val colon =? 58 then
                      match parseValue fuel' r1 with
                      | None => None
                      | Some (v, rest1) =>
                          match skipWS rest1 with
                          | String c r2 =>
                              if byte_val c =? 44 then
                                match parseMembers fuel' (skipWS r2) with
                                | Some (ms, rest2) => Some ((key, v) :: ms, rest2)
                                | None => None
                                end
                              else if byte_val c =? 125 then Some ([(key, v)], r2)
                              else None
                          | EmptyString => None
                          end
                      end
                    else None
                | EmptyString => None
                end
            end
          else None
      | EmptyString => None
      end
  end.

(** The JSON value a text holds, when it is one JSON value between
    optional white space. *)
Definition parse (data : string) : option Value :=
  match parseValue (2 * String.length data + 4) data with
  | Some (v, rest) =>
      match skipWS rest with
      | EmptyString => Some v
      | _ => None
      end
  | None => None
  end.

(** *** Numbers *)

(** A number literal as sign, digits and power of ten: the literal
    denotes [(-1)^sign * digits * 10^exponent]. *)
Definition decimalOf (lit : string) : bool * Z * Z :=
  let (neg, s1) :=
    match lit with
    | String c r => if byte_val c =? 45 then (true, r) else (false, lit)
    | EmptyString => (false, lit)
    end in
  let (int, s2) := spanDigits s1 in
  let (frac, s3) :=
    match s2 with
    | String c r => if byte_val c =? 46 then spanDigits r else ("", s2)
    | EmptyString => ("", s2)
    end in
  let exponent :=
    match s3 with
    | String _ r =>
        match r with
        | String d r' =>
            if byte_val d =? 45 then - fst (strconv.parseUintFrom r' 0)
            else if byte_val d =? 43 then fst (strconv.parseUintFrom r' 0)
            else fst (strconv.parseUintFrom r 0)
        | EmptyString => 0
        end
    | EmptyString => 0
    end in
  let digits := fold_left (fun n c => n * 10 + strconv.digitVal c)
                  (list_ascii_of_string (int ++ frac)) 0 in
  (neg, digits, exponent - len frac).

(** [strconv.ParseFloat(lit, 64)]: the double nearest to the number
    (ties to even), or nothing when it is out of range. *)
Definition ParseFloat (lit : string) : option float64 :=
  let '(neg, digits, exponent) := decimalOf lit in
  let f :=
    if digits =? 0 then S754_zero neg
    else if 0 <=? exponent then
      binary_round_aux 53 1024 neg (digits * 10 ^ exponent) 0 loc_Exact
    else
      let '(m, e, l) := SFdiv_core_binary 53 1024 digits 0 (10 ^ (- exponent)) 0 in
      binary_round_aux 53 1024 neg m e l in
  match f with
  | S754_infinity _ => None
  | _ => Some f
  end.

(** What [fmt] prints for the verb [%.0f]: the nearest integer, ties to
    even, with the sign of the number. *)
Definition float0 (f : float64) : string :=
  match f with
  | S754_nan => "NaN"
  | S754_infinity s => if s then "-Inf" else "+Inf"
  | S754_zero s => if s then "-0" else "0"
  | S754_finite s m e =>
      let m := Zpos m in
      let n :=
        if 0 <=? e then m * 2 ^ e
        else
          let d := 2 ^ (- e) in
          let q := m / d in
          let r := m mod d in
          if (2 * r >? d) || ((2 * r =? d) && Z.odd q) then q + 1 else q in
      (if s then "-" else "") ++ strconv.Itoa n
  end.

(** *** Filling structs *)

Definition lowerByte (c : ascii) : ascii :=
  let n := byte_val c in
  if (65 <=? n) && (n <=? 90) then byte_of (n + 32) else c.

Fixpoint ToLower (s : string) : string :=
  match s with
  | EmptyString => EmptyString
  | String c s' => String (lowerByte c) (ToLower s')
  end.

(** The tag a member key selects: the tag equal to it, or else the first
    that equals it up to letter case. *)
Definition fieldFor (tags : list string) (key : string) : option string :=
  match find (String.eqb key) tags with
  | Some t => Some t
  | None => find (fun t => String.eqb (ToLower t) (ToLower key)) tags
  end.

Definition typeError (kind tag : string) : error :=
  "json: cannot unmarshal value into Go struct field " ++ tag ++ " of type " ++ kind.

Definition asString (tag : string) (v : Value) (old : string) : string * option error :=
  match v with
  | Str s => (s, None)
  | Null => (old, None)
  | _ => (old, Some (typeError "string" tag))
  end.

Definition asInt (tag : string) (v : Value) (old : Z) : Z * option error :=
  match v with
  | Number lit =>
      match strconv.ParseInt lit with
      | (n, None) => (n, None)
      | (_, Some _) => (old, Some (typeError "int" tag))
      end
  | Null => (old, None)
  | _ => (old, Some (typeError "int" tag))
  end.

Definition asFloat64 (tag : string) (v : Value) (old : float64) : float64 * option error :=
  match v with
  | Number lit =>
      match ParseFloat lit with
      | Some f => (f, None)
      | None => (old, Some (typeError "float64" tag))
      end
  | Null => (old, None)
  | _ => (old, Some (typeError "float64" tag))
  end.

Definition firstError (e1 e2 : option error) : option error :=
  match e1 with
  | Some _ => e1
  | None => e2
  end.

(** [json.Unmarshal(data, &x)] for a struct [x]: [tags] are its fields
    and [assign tag v x] stores the value [v] in the field [tag]. *)
Definition Unmarshal {T : Type} (tags : list string)
    (assign : string -> Value -> T -> T * option error)
    (data : string) (x : T) : T * option error :=
  match parse data with
  | None => (x, Some "json: syntax error")
  | Some Null => (x, None)
  | Some (Object members) =>
      fold_left
        (fun (acc : T * option error) (member : string * Value) =>
           let (x, err) := acc in
           match fieldFor tags (fst member) with
           | None => acc
           | Some tag =>
               let (x', err') := assign tag (snd member) x in
               (x', firstError err err')
           end)
        members (x, None)
  | Some _ => (x, Some "json: cannot unmarshal value into Go value of struct type")
  end.

Definition ErrorResponse_assign (tag : string) (v : Value) (x : ErrorResponse.t)
  : ErrorResponse.t * option error :=
  let 'ErrorResponse.mk code message := x in
  if String.eqb tag "code" then
    let (s, e) := asString tag v code in (ErrorResponse.mk s message, e)
  else
    let (s, e) := asString tag v message in (ErrorResponse.mk code s, e).

Definition TokenResponse_assign (tag : string) (v : Value) (x : TokenResponse.t)
  : TokenResponse.t * option error :=
  let (s, e) := asString tag v (TokenResponse.Token x) in (TokenResponse.mk s, e).

Definition CollectResponse_assign (tag : string) (v : Value) (x : CollectResponse.t)
  : CollectResponse.t * option error :=
  let 'CollectResponse.mk reference ext status amount currency operator code opref := x in
  let str := asString tag v in
  if String.eqb tag "reference" then
    let (s, e) := str reference in
    (CollectResponse.mk s ext status amount currency operator code opref, e)
  else if String.eqb tag "external_reference" then
    let (s, e) := str ext in
    (CollectResponse.mk reference s status amount currency operator code opref, e)
  else if String.eqb tag "status" then
    let (s, e) := str status in
    (CollectResponse.mk reference ext s amount currency operator code opref, e)
  else if String.eqb tag "amount" then
    let (n, e) := asInt tag v amount in
    (CollectResponse.mk reference ext status n currency operator code opref, e)
  else if String.eqb tag "currency" then
    let (s, e) := str currency in
    (CollectResponse.mk reference ext status amount s operator code opref, e)
  else if String.eqb tag "operator" then
    let (s, e) := str operator in
    (CollectResponse.mk reference ext status amount currency s code opref, e)
  else if String.eqb tag "code" then
    let (s, e) := str code in
    (CollectResponse.mk reference ext status amount currency operator s opref, e)
  else
    let (s, e) := str opref in
    (CollectResponse.mk reference ext status amount currency operator code s, e).

Definition TransactionResponse_assign (tag : string) (v : Value)
    (x : TransactionResponse.t) : TransactionResponse.t * option error :=
  let 'TransactionResponse.mk reference ext status amount currency operator code opref
         description := x in
  let str := asString tag v in
  if String.eqb tag "reference" then
    let (s, e) := str reference in
    (TransactionResponse.mk s ext status amount currency operator code opref description, e)
  else if String.eqb tag "external_reference" then
    let (s, e) := str ext in
    (TransactionResponse.mk reference s status amount currency operator code opref
       description, e)
  else if String.eqb tag "status" then
    let (s, e) := str status in
    (TransactionResponse.mk reference ext s amount currency operator code opref
       description, e)
  else if String.eqb tag "amount" then
    let (f, e) := asFloat64 tag v amount in
    (TransactionResponse.mk reference ext status f currency operator code opref
       description, e)
  else if String.eqb tag "currency" then
    let (s, e) := str currency in
    (TransactionResponse.mk reference ext status amount s operator code opref
       description, e)
  else if String.eqb tag "operator" then
    let (s, e) := str operator in
    (TransactionResponse.mk reference ext status amount currency s code opref
       description, e)
  else if String.eqb tag "code" then
    let (s, e) := str code in
    (TransactionResponse.mk reference ext status amount currency operator s opref
       description, e)
  else if String.eqb tag "operator_reference" then
    let (s, e) := str opref in
    (TransactionResponse.mk reference ext status amount currency operator code s
       description, e)
  else
    let (s, e) := str description in
    (TransactionResponse.mk reference ext status amount currency operator code opref s, e).

(** *** Writing structs *)

Definition hexDigit (n : Z) : ascii :=
  if n <? 10 then byte_of (48 + n) else byte_of (87 + n).

Definition escapeByte (c : ascii) : string :=
  let n := byte_val c in
  if n =? 34 then "\" ++ dquote
  else if n =? 92 then "\\"
  else if n =? 10 then "\n"
  else if n =? 13 then "\r"
  else if n =? 9 then "\t"
  else if (n <? 32) || (n =? 60) || (n =? 62) || (n =? 38) then
    "\u00" ++ String (hexDigit (n / 16)) (String (hexDigit (n mod 16)) "")
  else String c "".

Fixpoint escape (s : string) : string :=
  match s with
  | EmptyString => EmptyString
  | String c s' => escapeByte c ++ escape s'
  end.

Definition encodeValue (v : GoValue) : string :=
  match v with
  | GoString s => quoted (escape s)
  | GoInt n => strconv.Itoa n
  end.

Fixpoint encodeFields (fields : list (string * GoValue)) : string :=
  match fields with
  | [] => ""
  | [(tag, v)] => quoted tag ++ ":" ++ encodeValue v
  | (tag, v) :: rest => quoted tag ++ ":" ++ encodeValue v ++ "," ++ encodeFields rest
  end.

Definition Marshal (fields : list (string * GoValue)) : string * option error :=
  ("{" ++ encodeFields fields ++ "}", None).

(** *** URLs: [http.NewRequest] refuses control characters and malformed
    percent escapes (other ill-formed URLs are let through here). *)
Fixpoint urlError (url : string) : option error :=
  match url with
  | EmptyString => None
  | String c r =>
      let n := byte_val c in
      if (n <? 32) || (n =? 127) then Some "net/url: invalid control character in URL"
      else if n =? 37 then
        match r with
        | String a (String b _) =>
            match hexVal a, hexVal b with
            | Some _, Some _ => urlError r
            | _, _ => Some "invalid URL escape"
            end
        | _ => Some "invalid URL escape"
        end
      else urlError r
  end.

(** *** Text: the reference library takes every text for ASCII.  It cuts
    the white space of [asciiSpace] and maps the letters a-z, and leaves
    the bytes from 128 upwards as they are. *)
Definition unicode : strings.Unicode := {|
  strings.TrimSpace := strings.trimASCII;
  strings.ToUpper := strings.upperASCII;
  strings.TrimSpace_ASCII _ _ := eq_refl;
  strings.ToUpper_ASCII _ _ := eq_refl
|}.

#[global] Instance library : GoLibrary := {
  unicode := unicode;
  json_Unmarshal_ErrorResponse data :=
    Unmarshal ["code"; "message"] ErrorResponse_assign data ErrorResponse.zero;
  json_Unmarshal_TokenResponse data :=
    Unmarshal ["token"] TokenResponse_assign data TokenResponse.zero;
  json_Unmarshal_CollectResponse data :=
    Unmarshal ["reference"; "external_reference"; "status"; "amount"; "currency";
               "operator"; "code"; "operator_reference"]
      CollectResponse_assign data CollectResponse.zero;
  json_Unmarshal_TransactionResponse data :=
    Unmarshal ["reference"; "external_reference"; "status"; "amount"; "currency";
               "operator"; "code"; "operator_reference"; "description"]
      TransactionResponse_assign data TransactionResponse.zero;
  json_Marshal := Marshal;
  http_NewRequest_error _ url := urlError url;
  fmt_float0 := float0
}.

End Reference.

(** ** The two programs side by side *)

Inductive Program := V60 | V40.

(** The request a status check sends (the same in both programs). *)
Definition statusURL (baseURL reference : string) : string :=
  baseURL ++ "/transaction/" ++ reference ++ "/".

Definition statusRequest (baseURL token reference : string) : Request :=
  mkRequest "GET" (statusURL baseURL reference) [("Authorization", "Token " ++ token)] None.

(** The common shape of the two polling loops: [check] is one status
    check, [settled] tells a final state, [line] is what is printed before
    the pause, and [timedOut] the error once the attempts are used up. *)
Section Poller.
Context {T : Type}.
Variables (check : IO (result T)) (settled : T -> bool)
          (line : T -> Z -> string) (pause : time.Duration) (timedOut : error).

Fixpoint poller (remaining : nat) (attempt : Z) : IO (result T) :=
  match remaining with
  | O => ret (Err timedOut)
  | S remaining' =>
      r <- check ;;
      match r with
      | Err e => ret (Err e)
      | Ok status =>
          if settled status then ret (Ok status)
          else
            fmt_Print (line status attempt) ;;
            time_Sleep pause ;;
            poller remaining' (attempt + 1)
      end
  end.

(** What the loop does to the world while the states in [pending] come
    back one after the other, none of them final: a request, a line and
    a pause for each. *)
Fixpoint rounds (req : Request) (pending : list T) (attempt : Z) : list Event :=
  match pending with
  | [] => []
  | status :: rest =>
      EvRequest req :: EvStdout (line status attempt) :: EvSleep pause
        :: rounds req rest (attempt + 1)
  end.
End Poller.

Section Both.
Context {lib : GoLibrary} (out : Outside).

Definition maxAttempts (p : Program) : Z :=
  match p with
  | V60 => Main60.maxAttempts
  | V40 => Main40.maxAttempts
  end.

Definition interval (p : Program) : time.Duration :=
  match p with
  | V60 => Main60.interval
  | V40 => Main40.interval
  end.

Definition checkTransactionStatus (p : Program) (baseURL token reference : string)
  : IO (result TransactionResponse.t) :=
  match p with
  | V60 => Main60.checkTransactionStatus out baseURL token reference
  | V40 => Main40.checkTransactionStatus out baseURL token reference
  end.

Definition pollTransactionStatus (p : Program) (baseURL token reference : string)
  : IO (result TransactionResponse.t) :=
  match p with
  | V60 => Main60.pollTransactionStatus out baseURL token reference
  | V40 => Main40.pollTransactionStatus out baseURL token reference
  end.

Definition pollLoop (p : Program) (remaining : nat) (attempt : Z)
    (baseURL token reference : string) : IO (result TransactionResponse.t) :=
  match p with
  | V60 => Main60.pollLoop out remaining attempt baseURL token reference
  | V40 => Main40.pollLoop out remaining attempt baseURL token reference
  end.

Definition run (p : Program) : IO (option error) :=
  match p with
  | V60 => Main60.run out
  | V40 => Main40.run out
  end.

(** The value the loop variable [attempt] starts from. *)
Definition firstAttempt (p : Program) : Z :=
  match p with
  | V60 => 0
  | V40 => 1
  end.

(** The text a program compares with [SUCCESSFUL] and [FAILED]: the first
    program upper-cases the status, the second trims it first. *)
Definition compared (p : Program) (status : string) : string :=
  match p with
  | V60 => strings.ToUpper status
  | V40 => Main40.normalizeStatus status
  end.

Definition settled (p : Program) (status : TransactionResponse.t) : bool :=
  let tag := compared p (TransactionResponse.Status status) in
  String.eqb tag "SUCCESSFUL" || String.eqb tag "FAILED".

(** The line a program prints for a state that is not final, with the
    loop variable at [attempt]. *)
Definition progressLine (p : Program) (status : TransactionResponse.t) (attempt : Z)
  : string :=
  match p with
  | V60 =>
      if String.eqb (strings.ToUpper (TransactionResponse.Status status)) "PENDING" then
        " Status: PENDING (attempt " ++ strconv.Itoa (attempt + 1) ++ "/60, checking again in 5s...)" ++ LF
      else
        " Status: " ++ TransactionResponse.Status status ++ " (checking again in 5s...)" ++ LF
  | V40 =>
      "Status: " ++ Main40.normalizeStatus (TransactionResponse.Status status)
      ++ " (attempt " ++ strconv.Itoa attempt ++ "/40)" ++ LF
  end.

(** The error a program returns when its attempts are used up. *)
Definition timeoutError (p : Program) : error :=
  match p with
  | V60 => "transaction status check timed out after 60 attempts"
  | V40 => "transaction polling timed out"
  end.

(** What the status check returns that is made as round trip number [k]
    of the run. *)
Definition checkAt (p : Program) (baseURL token reference : string) (k : nat)
  : result TransactionResponse.t :=
  fst (checkTransactionStatus p baseURL token reference (mkWorld [] k [])).

(** The world after [n] more round trips that left the events [events]. *)
Definition advance (w : World) (n : nat) (events : list Event) : World :=
  mkWorld (stdin w) (requests w + n) (trace w ++ events).

(** [pending] are the states the status checks return from the world [w]
    on, and none of them is final. *)
Definition unsettled (p : Program) (baseURL token reference : string)
    (w : World) (pending : list TransactionResponse.t) : Prop :=
  forall k status, nth_error pending k = Some status ->
    checkAt p baseURL token reference (requests w + k) = Ok status /\
    settled p status = false.

(** The events of a failed check: its request, when it could be built. *)
Definition failedCheck (baseURL token reference : string) : list Event :=
  match http_NewRequest_error "GET" (statusURL baseURL reference) with
  | None => [EvRequest (statusRequest baseURL token reference)]
  | Some _ => []
  end.


End Both.

(** The world once [prompt] has been printed and a line read, with the
    lines [rest] left. *)
Definition prompted (w : World) (prompt : string) (rest : list (string * option error))
  : World :=
  mkWorld rest (requests w) (trace w ++ [EvStdout prompt]).

Definition phonePrompt (p : Program) : string :=
  match p with
  | V60 => " Enter mobile money number (e.g., 237670123456): "
  | V40 => "Enter mobile money number (e.g., 670123456 or 237670123456): "
  end.

Definition amountPrompt (p : Program) : string :=
  match p with
  | V60 => " Enter amount (XAF, no decimals): "
  | V40 => "Enter amount (XAF): "
  end.

Definition phoneError (p : Program) : error :=
  match p with
  | V60 => "invalid phone number format. Must start with 237 and be 12 digits total"
  | V40 => "invalid phone number format"
  end.

Definition amountError (p : Program) : error :=
  match p with
  | V60 => "invalid amount. Must be a positive integer"
  | V40 => "amount must be a positive integer"
  end.

(** A line as [promptPhone] of the second program takes it: trimmed by
    [promptUser], trimmed once more, and without the spaces inside it. *)
Definition stripped `{strings.Unicode} (line : string) : string :=
  strings.ReplaceAll (strings.TrimSpace (strings.TrimSpace line)) " " "".

Definition startsWith6 (s : string) : bool :=
  match String.get 0 s with
  | Some c => Ascii.eqb c "6"
  | None => false
  end.

Fixpoint allDigits (s : string) : bool :=
  match s with
  | EmptyString => true
  | String c s' => strconv.isDigit c && allDigits s'
  end.

(** The number that the digits of [s] denote when [n] has been read
    before them. *)
Fixpoint valueFrom (s : string) (n : Z) : Z :=
  match s with
  | EmptyString => n
  | String c s' => valueFrom s' (n * 10 + strconv.digitVal c)
  end.

(** The digits that [ParseInt] hands to [ParseUint]. *)
Definition unsignedPart (s : string) : string :=
  match s with
  | EmptyString => EmptyString
  | String c s' => if (byte_val c =? 45) || (byte_val c =? 43) then s' else s
  end.

(** A decimal numeral: digits, at least one, behind at most one sign. *)
Definition numeral (s : string) : bool :=
  match s with
  | EmptyString => false
  | String c s' =>
      if (byte_val c =? 45) || (byte_val c =? 43)
      then negb (String.eqb s' "") && allDigits s'
      else allDigits s
  end.

(** The request [collectPayment] sends with the body [payload]. *)
Definition collectRequest (baseURL token payload : string) : Request :=
  mkRequest "POST" (baseURL ++ "/collect/")
    [("Content-Type", "application/json"); ("Authorization", "Token " ++ token)]
    (Some payload).

(** The request [getAuthToken] sends with the body [payload]. *)
Definition tokenRequest (baseURL payload : string) : Request :=
  mkRequest "POST" (baseURL ++ "/token/") [("Content-Type", "application/json")]
    (Some payload).

(** An action only adds to the events. *)
Definition grows {A : Type} (m : IO A) : Prop :=
  forall w, exists events, trace (snd (m w)) = (trace w ++ events)%list.

(** The line a program prints for the status [PENDING] on its [n]-th
    attempt, counting from 1. *)
Definition pendingLine (p : Program) (n : Z) : string :=
  match p with
  | V60 => " Status: PENDING (attempt " ++ strconv.Itoa n ++ "/60, checking again in 5s...)" ++ LF
  | V40 => "Status: PENDING (attempt " ++ strconv.Itoa n ++ "/40)" ++ LF
  end.

(** ** Runs to try the programs on

    The gateway of the end-to-end scenario: the token request is answered
    with the token [abc], the collection with the reference [r1], the first
    two status checks with [PENDING] and the later ones with [SUCCESSFUL].
    The other gateways differ in what they answer. *)
Module Scenario.

Definition tokenBody : string := fst (Reference.Marshal [("token", GoString "abc")]).

Definition statusBody (status : string) : string :=
  fst (Reference.Marshal
         [("reference", GoString "r1");
          ("external_reference", GoString "TXN-1700000000");
          ("status", GoString status);
          ("amount", GoInt 1000);
          ("currency", GoString "XAF");
          ("operator", GoString "MTN");
          ("code", GoString "CP201027U00005");
          ("operator_reference", GoString "1880106956");
          ("description", GoString "groceries")]).

Definition collectBody : string :=
  fst (Reference.Marshal
         [("reference", GoString "r1");
          ("external_reference", GoString "TXN-1700000000");
          ("status", GoString "PENDING");
          ("amount", GoInt 1000);
          ("currency", GoString "XAF");
          ("operator", GoString "MTN");
          ("code", GoString "CP201027U00005");
          ("operator_reference", GoString "")]).

(** The body [{"code":"ER201","message":"Invalid amount"}]. *)
Definition invalidAmountBody : string :=
  fst (Reference.Marshal [("code", GoString "ER201"); ("message", GoString "Invalid amount")]).

Definition settings (environment : string) (name : string) : string :=
  if String.eqb name "APP_USERNAME" then "merchant"
  else if String.eqb name "APP_PASSWORD" then "secret"
  else if String.eqb name "ENVIRONMENT" then environment
  else "".

Definition record (status : string) : TransactionResponse.t :=
  TransactionResponse.mk "r1" "TXN-1700000000" status (S754_finite false 1000 0)
    "XAF" "MTN" "CP201027U00005" "1880106956" "groceries".

(** Token, reference, then the states of [states] in turn and [final]
    for ever after. *)
Definition gateway (states : list string) (final : string) (k : nat) : HttpOutcome :=
  match k with
  | O => Response 200 tokenBody None
  | S O => Response 200 collectBody None
  | S (S k') => Response 200 (statusBody (nth k' states final)) None
  end.

Definition outside (states : list string) (final : string) : Outside :=
  mkOutside (settings "") None (gateway states final) 1700000000.

(** The scenario itself. *)
Definition endToEnd : Outside := outside ["PENDING"; "PENDING"] "SUCCESSFUL".

(** A gateway that never settles. *)
Definition pendingForEver : Outside := outside [] "PENDING".

(** A gateway whose first status has a space before [SUCCESSFUL]. *)
Definition padded : Outside := outside [" SUCCESSFUL"] "FAILED".

(** A gateway that answers every request with status 500 and the body
    [internal error]. *)
Definition broken : Outside :=
  mkOutside (settings "") None (fun _ => Response 500 "internal error" None) 1700000000.

(** A gateway that refuses the credentials with status 400. *)
Definition refusing : Outside :=
  mkOutside (settings "") None (fun _ => Response 400 invalidAmountBody None) 1700000000.

(** The world at the start of a run in which the user types [lines]. *)
Definition typed (lines : list string) : World :=
  mkWorld (map (fun l => (l ++ LF, None)) lines) 0 [].

(** The world when the polling starts: two round trips are behind. *)
Definition polling : World := mkWorld [] 2 [].

Definition demoURL : string := "https://demo.campay.net/api".

End Scenario.

(** ** What an action leaves behind *)

(** The requests among some events, in the order they were sent. *)
Fixpoint sent (events : list Event) : list Request :=
  match events with
  | [] => []
  | EvRequest req :: rest => req :: sent rest
  | _ :: rest => sent rest
  end.

(** The time slept in the course of some events. *)
Fixpoint slept (events : list Event) : time.Duration :=
  match events with
  | [] => 0
  | EvSleep d :: rest => d + slept rest
  | _ :: rest => slept rest
  end.

(** The events of the world [w'] that came after those of [w]. *)
Definition added (w w' : World) : list Event :=
  skipn (List.length (trace w)) (trace w').

(** An action only adds events, it counts a round trip for every request
    it sends, and [post] holds of its result and the events it added. *)
Definition adds {A : Type} (m : IO A) (post : A -> list Event -> Prop) : Prop :=
  forall w, exists events,
    trace (snd (m w)) = (trace w ++ events)%list /\
    requests (snd (m w)) = (requests w + List.length (sent events))%nat /\
    post (fst (m w)) events.

(** The surroundings in which no body fails to be read: every response
    arrives with the bytes it has in [out] and no read error. *)
Definition withoutReadErrors (out : Outside) : Outside :=
  mkOutside (Getenv out) (dotenv out)
    (fun k =>
       match roundTrip out k with
       | DoError e => DoError e
       | Response StatusCode body _ => Response StatusCode body None
       end)
    (unixNow out).

(** The errors of [run] for a configuration it cannot work with. *)
Definition dotenvError (p : Program) (e : error) : error :=
  match p with
  | V60 => "failed to load .env file: " ++ e
  | V40 => "failed to load .env: " ++ e
  end.

Definition credentialsError (p : Program) : error :=
  match p with
  | V60 => "APP_USERNAME and APP_PASSWORD must be set in .env file"
  | V40 => "APP_USERNAME and APP_PASSWORD must be set"
  end.

(** The three lines [run] prints before it authenticates. *)
Definition banner (p : Program) (environment : string) : list Event :=
  match p with
  | V60 =>
      [EvStdout ("===  CamPay Mobile Money Payment System ===" ++ LF);
       EvStdout ("Environment: " ++ environment ++ LF ++ LF);
       EvStdout (" Authenticating with CamPay..." ++ LF)]
  | V40 =>
      [EvStdout ("=== CamPay Mobile Money Payment System ===" ++ LF);
       EvStdout ("Environment: " ++ environment ++ LF ++ LF);
       EvStdout ("🔐 Authenticating..." ++ LF)]
  end.

(** The lines that end the display of a final status. *)
Definition verdict (p : Program) (successful : bool) : list Event :=
  match p, successful with
  | V60, true =>
      [EvStdout ("Payment completed successfully!" ++ LF);
       EvStdout (LF ++ " Thank you for using CamPay!" ++ LF)]
  | V60, false =>
      [EvStdout ("❌ Payment failed or was cancelled" ++ LF);
       EvStdout (LF ++ " Please try again or contact support if the issue persists" ++ LF)]
  | V40, true => [EvStdout ("🎉 Payment successful!" ++ LF)]
  | V40, false => [EvStdout ("❌ Payment failed" ++ LF)]
  end.

(** The prefix the first program puts before the error of a failed call
    ([fmt.Errorf("...: %w", err)]); the second program returns the error
    as it is. *)
Definition wrapped (p : Program) (prefix : string) (e : error) : error :=
  match p with
  | V60 => prefix ++ e
  | V40 => e
  end.

(** A line that is empty once trimmed. *)
Definition blank `{strings.Unicode} (line : string) : Prop :=
  strings.TrimSpace line = "".

(** The lines [lines] as [ReadString] returns them when none fails. *)
Definition readable (lines : list string) : list (string * option error) :=
  map (fun line => (line, None)) lines.

(** A phone number as both programs let it through. *)
Definition validPhone (phone : string) : Prop :=
  strings.HasPrefix phone "237" = true /\ len phone = 12.

Section Whole.
Context {lib : GoLibrary} (out : Outside).

Definition baseURL (p : Program) : string :=
  match p with
  | V60 => Main60.apiBaseURL out
  | V40 => Main40.apiBaseURL out
  end.

Definition environmentName (p : Program) : string :=
  match p with
  | V60 => Main60.environment out
  | V40 => Main40.env out
  end.

Definition main (p : Program) : IO Z :=
  match p with
  | V60 => Main60.main out
  | V40 => Main40.main out
  end.

Definition displayFinalStatus (p : Program) (status : TransactionResponse.t) : IO unit :=
  match p with
  | V60 => Main60.displayFinalStatus status
  | V40 => Main40.displayFinalStatus status
  end.

(** The body of the token request of a run. *)
Definition tokenPayload (p : Program) : string :=
  let credentials :=
    TokenRequest.mk (Getenv out "APP_USERNAME") (Getenv out "APP_PASSWORD") in
  match p with
  | V60 => fst (json_Marshal (Main60.TokenRequest_fields credentials))
  | V40 => fst (json_Marshal (Main40.TokenRequest_fields credentials))
  end.

(** The body of the collection request that [run] builds from what the
    user typed. *)
Definition collectPayload60 (phoneNumber amountStr description : string) : string :=
  fst (json_Marshal
         (Main60.CollectRequest.fields
            (Main60.CollectRequest.mk amountStr "XAF" phoneNumber description
               ("TXN-" ++ strconv.Itoa (unixNow out))))).

Definition collectPayload40 (phone : string) (amount : Z) (description : string) : string :=
  fst (json_Marshal
         (Main40.CollectRequest.fields
            (Main40.CollectRequest.mk amount "XAF" phone description
               ("TXN-" ++ strconv.Itoa (unixNow out))))).

(** The bodies built from input that passed the validation. *)
Definition validatedPayload (p : Program) (payload : string) : Prop :=
  match p with
  | V60 =>
      exists phoneNumber amountStr description amount,
        payload = collectPayload60 phoneNumber amountStr description /\
        validPhone phoneNumber /\
        strconv.Atoi amountStr = (amount, None) /\ 0 < amount <= strconv.maxInt
  | V40 =>
      exists phone amount description,
        payload = collectPayload40 phone amount description /\
        validPhone phone /\ Contains phone " " = false /\
        0 < amount <= strconv.maxInt /\ description <> ""
  end.

(** The requests that may follow the token request: none, or the
    collection request and then status checks, at most as many as there
    are attempts, all with one token and for one reference. *)
Definition afterToken (p : Program) (l : list Request) : Prop :=
  l = [] \/
  exists token payload reference k,
    validatedPayload p payload /\
    (k <= Z.to_nat (maxAttempts p))%nat /\
    l = collectRequest (baseURL p) token payload
        :: repeat (statusRequest (baseURL p) token reference) k.

End Whole.

(** A run that returns no error has ended with the display of a status
    that its program takes for final. *)
Definition endsWithFinalStatus {lib : GoLibrary} (p : Program) (m : IO (option error))
  : Prop :=
  forall w, fst (m w) = None ->
    exists status w',
      settled p status = true /\ snd (m w) = snd (displayFinalStatus p status w').

(** * Properties *)

(** ** The programs at work *)

(** The end-to-end scenario: both programs complete the run with five
    round trips (token, collection, three status checks) and no error. *)
Example end_to_end_run :
  fst (Main40.run Scenario.endToEnd
         (Scenario.typed ["237670123456"; "1000"; "groceries"])) = None /\
  requests (snd (Main40.run Scenario.endToEnd
                   (Scenario.typed ["237670123456"; "1000"; "groceries"]))) = 5%nat /\
  fst (Main60.run Scenario.endToEnd
         (Scenario.typed ["237670123456"; "1000"; "groceries"])) = None /\
  requests (snd (Main60.run Scenario.endToEnd
                   (Scenario.typed ["237670123456"; "1000"; "groceries"]))) = 5%nat.
Proof. repeat split; vm_compute; reflexivity. Qed.

(** The second program asks again for as long as the line is empty. *)
Example local_number_after_empty_lines :
  Main40.promptPhone (Scenario.typed [""; "   "; "6 70 12 34 56"; "1000"])
  = (Ok "237670123456",
     mkWorld [("1000" ++ LF, None)] 0
       [EvStdout (phonePrompt V40); EvStdout (phonePrompt V40); EvStdout (phonePrompt V40)]).
Proof. vm_compute; reflexivity. Qed.

Example main_exit_status :
  fst (Main40.main Scenario.endToEnd
         (Scenario.typed ["237670123456"; "1000"; "groceries"])) = 0 /\
  fst (Main40.main Scenario.broken (Scenario.typed [])) = 1 /\
  fst (Main60.main (Scenario.outside [] "FAILED")
         (Scenario.typed ["237670123456"; "1000"; "groceries"])) = 0.
Proof. repeat split; vm_compute; reflexivity. Qed.

Example Atoi_samples :
  strconv.Atoi "1000" = (1000, None) /\
  strconv.Atoi "+007" = (7, None) /\
  strconv.Atoi "-5" = (-5, None) /\
  strconv.Atoi "" = (0, Some strconv.ErrSyntax) /\
  strconv.Atoi "12a" = (0, Some strconv.ErrSyntax) /\
  strconv.Atoi "100.50" = (0, Some strconv.ErrSyntax) /\
  strconv.Atoi "9223372036854775807" = (9223372036854775807, None).
Proof. repeat split; vm_compute; reflexivity. Qed.

Example Duration_String_samples :
  time.Duration_String (5 * time.Second) = "5s" /\
  time.Duration_String (90 * time.Second + 500 * time.Millisecond) = "1m30.5s" /\
  time.Duration_String (30 * time.Second) = "30s" /\
  time.Duration_String 0 = "0s".
Proof. repeat split; vm_compute; reflexivity. Qed.

Example normalizeStatus_samples :
  Main40.normalizeStatus "  successful " = "SUCCESSFUL" /\
  Main40.normalizeStatus "Failed" = "FAILED" /\
  Main40.normalizeStatus "processing" = "PROCESSING".
Proof. repeat split; vm_compute; reflexivity. Qed.

(** ** The polling loop in general *)
Section PollerFacts.
Context {T : Type}.
Variables (check : IO (result T)) (settled : T -> bool)
          (line : T -> Z -> string) (pause : time.Duration) (timedOut : error).
Variables (answer : nat -> result T) (req : Request).

(** A check makes one round trip, and its result is the answer to it. *)
Hypothesis check_spec :
  forall w, check w = (answer (requests w), advance w 1 [EvRequest req]).

#[local] Abbreviation poller := (poller check settled line pause timedOut).
#[local] Abbreviation rounds := (rounds line pause req).

Lemma advance_advance w n1 e1 n2 e2 :
  advance (advance w n1 e1) n2 e2 = advance w (n1 + n2) (e1 ++ e2).
Proof.
  unfold advance; simpl. f_equal.
  - now rewrite Nat.add_assoc.
  - now rewrite app_assoc.
Qed.

Lemma advance_zero w : advance w 0 [] = w.
Proof.
  destruct w; unfold advance; simpl.
  now rewrite Nat.add_0_r, app_nil_r.
Qed.

Lemma poller_continue remaining attempt w status :
  answer (requests w) = Ok status ->
  settled status = false ->
  poller (S remaining) attempt w =
  poller remaining (attempt + 1)
    (advance w 1 [EvRequest req; EvStdout (line status attempt); EvSleep pause]).
Proof.
  intros Hans Hset. simpl. unfold bind at 1. rewrite check_spec, Hans, Hset.
  unfold bind, fmt_Print, time_Sleep, emit, advance; simpl.
  repeat rewrite <- app_assoc. reflexivity.
Qed.

Lemma poller_settle remaining attempt w status :
  answer (requests w) = Ok status ->
  settled status = true ->
  poller (S remaining) attempt w = (Ok status, advance w 1 [EvRequest req]).
Proof.
  intros Hans Hset. simpl. unfold bind. now rewrite check_spec, Hans, Hset.
Qed.

Lemma poller_abort remaining attempt w e :
  answer (requests w) = Err e ->
  poller (S remaining) attempt w = (Err e, advance w 1 [EvRequest req]).
Proof.
  intros Hans. simpl. unfold bind. now rewrite check_spec, Hans.
Qed.

(** While the states of [pending] come back, the loop goes round. *)
Lemma poller_rounds pending : forall remaining attempt w,
  (forall k status, nth_error pending k = Some status ->
     answer (requests w + k) = Ok status /\ settled status = false) ->
  poller (List.length pending + remaining) attempt w =
  poller remaining (attempt + Z.of_nat (List.length pending))
    (advance w (List.length pending) (rounds pending attempt)).
Proof.
  induction pending as [|status rest IH]; intros remaining attempt w Hpending.
  - simpl. now rewrite advance_zero, Z.add_0_r.
  - destruct (Hpending 0%nat status eq_refl) as [Hans Hset].
    rewrite Nat.add_0_r in Hans.
    cbn [List.length Nat.add].
    rewrite (poller_continue _ _ _ _ Hans Hset), IH.
    + rewrite advance_advance. cbn [rounds app].
      f_equal. lia.
    + intros k st Hk. unfold advance; cbn [requests].
      replace (requests w + 1 + k)%nat with (requests w + S k)%nat by lia.
      now apply Hpending.
Qed.

(** A result that is a state is a final state. *)
Lemma poller_Ok_settled remaining : forall attempt w status,
  fst (poller remaining attempt w) = Ok status -> settled status = true.
Proof.
  induction remaining as [|remaining IH]; intros attempt w status; simpl.
  - discriminate.
  - unfold bind at 1. destruct (check w) as [[st|e] w1]; simpl.
    + destruct (settled st) eqn:Hset; simpl.
      * intros H; now inversion H; subst.
      * unfold bind; simpl. apply IH.
    + discriminate.
Qed.

Lemma poller_rounds_settle pending remaining attempt w status :
  (forall k st, nth_error pending k = Some st ->
     answer (requests w + k) = Ok st /\ settled st = false) ->
  answer (requests w + List.length pending) = Ok status ->
  settled status = true ->
  poller (List.length pending + S remaining) attempt w =
  (Ok status,
   advance w (S (List.length pending)) (rounds pending attempt ++ [EvRequest req])).
Proof.
  intros Hpending Hans Hset.
  rewrite (poller_rounds _ _ _ _ Hpending).
  rewrite (poller_settle _ _ _ status); [|assumption|assumption].
  rewrite advance_advance. now rewrite Nat.add_1_r.
Qed.

Lemma poller_rounds_abort pending remaining attempt w e :
  (forall k st, nth_error pending k = Some st ->
     answer (requests w + k) = Ok st /\ settled st = false) ->
  answer (requests w + List.length pending) = Err e ->
  poller (List.length pending + S remaining) attempt w =
  (Err e,
   advance w (S (List.length pending)) (rounds pending attempt ++ [EvRequest req])).
Proof.
  intros Hpending Hans.
  rewrite (poller_rounds _ _ _ _ Hpending).
  rewrite (poller_abort _ _ _ e); [|assumption].
  rewrite advance_advance. now rewrite Nat.add_1_r.
Qed.

Lemma poller_rounds_timeout pending attempt w :
  (forall k st, nth_error pending k = Some st ->
     answer (requests w + k) = Ok st /\ settled st = false) ->
  poller (List.length pending) attempt w =
  (Err timedOut, advance w (List.length pending) (rounds pending attempt)).
Proof.
  intros Hpending.
  rewrite <- (Nat.add_0_r (List.length pending)) at 1.
  now rewrite (poller_rounds _ _ _ _ Hpending).
Qed.

End PollerFacts.

(** ** The two loops are the general loop *)
Section Loops.
Context {lib : GoLibrary} (out : Outside).
Variables baseURL token reference : string.

Lemma world_eta w : mkWorld (stdin w) (requests w) (trace w) = w.
Proof. now destruct w. Qed.

(** A check whose request cannot be built fails without a round trip. *)
Lemma check_unbuilt p e :
  http_NewRequest_error "GET" (statusURL baseURL reference) = Some e ->
  exists e', forall w,
    checkTransactionStatus out p baseURL token reference w = (Err e', w).
Proof.
  intros Hnew. destruct p; simpl;
    unfold Main60.checkTransactionStatus, Main40.checkTransactionStatus, http_NewRequest;
    fold (statusURL baseURL reference); rewrite Hnew; eexists; reflexivity.
Qed.

(** Otherwise it makes one round trip, and its result depends on the
    outcome of that round trip only. *)
Lemma check_spec p w :
  http_NewRequest_error "GET" (statusURL baseURL reference) = None ->
  checkTransactionStatus out p baseURL token reference w =
  (checkAt out p baseURL token reference (requests w),
   advance w 1 [EvRequest (statusRequest baseURL token reference)]).
Proof.
  intros Hnew. unfold checkAt.
  destruct p; simpl;
    unfold Main60.checkTransactionStatus, Main40.checkTransactionStatus, http_NewRequest;
    fold (statusURL baseURL reference); rewrite Hnew;
    unfold bind, client_Do, advance, statusRequest, Header_Set; simpl;
    rewrite Nat.add_1_r.
  - destruct (roundTrip out (requests w)) as [e|code body [e|]]; try reflexivity.
    destruct (negb (code =? StatusOK)).
    + now destruct (json_Unmarshal_ErrorResponse body).
    + now destruct (json_Unmarshal_TransactionResponse body) as [txn [e|]].
  - destruct (roundTrip out (requests w)) as [e|code body readErr]; try reflexivity.
    destruct (negb (code =? 200)); try reflexivity.
    now destruct (json_Unmarshal_TransactionResponse body) as [txn [e|]].
Qed.

(** A check that returns a state has built its request. *)
Lemma checkAt_Ok_built p k status :
  checkAt out p baseURL token reference k = Ok status ->
  http_NewRequest_error "GET" (statusURL baseURL reference) = None.
Proof.
  unfold checkAt. intros H.
  destruct (http_NewRequest_error "GET" (statusURL baseURL reference)) as [e|] eqn:Hnew;
    [|reflexivity].
  destruct (check_unbuilt p e Hnew) as [e' He'].
  rewrite He' in H. discriminate.
Qed.

Lemma pollLoop_poller p remaining : forall attempt w,
  pollLoop out p remaining attempt baseURL token reference w =
  poller (checkTransactionStatus out p baseURL token reference) (settled p)
    (progressLine p) (interval p) (timeoutError p) remaining attempt w.
Proof.
  induction remaining as [|remaining IH]; intros attempt w.
  - now destruct p.
  - destruct p;
      cbn [pollLoop Main60.pollLoop Main40.pollLoop poller checkTransactionStatus];
      unfold bind, fmt_Print, time_Sleep, emit, settled, compared.
    + destruct (Main60.checkTransactionStatus out baseURL token reference w)
        as [[status|e] w1]; [|reflexivity].
      destruct (String.eqb (strings.ToUpper (TransactionResponse.Status status)) "SUCCESSFUL");
        [reflexivity|].
      destruct (String.eqb (strings.ToUpper (TransactionResponse.Status status)) "FAILED");
        [reflexivity|].
      cbn [orb progressLine].
      destruct (String.eqb (strings.ToUpper (TransactionResponse.Status status)) "PENDING");
        apply IH.
    + destruct (Main40.checkTransactionStatus out baseURL token reference w)
        as [[status|e] w1]; [|reflexivity].
      destruct (String.eqb (Main40.normalizeStatus (TransactionResponse.Status status))
                  "SUCCESSFUL" ||
                String.eqb (Main40.normalizeStatus (TransactionResponse.Status status))
                  "FAILED"); [reflexivity|].
      apply IH.
Qed.

Lemma pollTransactionStatus_pollLoop p w :
  pollTransactionStatus out p baseURL token reference w =
  pollLoop out p (Z.to_nat (maxAttempts p)) (firstAttempt p) baseURL token reference w.
Proof. now destruct p. Qed.

End Loops.

(** ** Strings *)

Lemma isSpace_upperByte c : strings.isSpace (strings.upperByte c) = strings.isSpace c.
Proof. destruct c as [[] [] [] [] [] [] [] []]; reflexivity. Qed.

Lemma upperASCII_TrimLeft s :
  strings.upperASCII (strings.TrimLeft s) = strings.TrimLeft (strings.upperASCII s).
Proof.
  induction s as [|c s IH]; [reflexivity|].
  simpl. rewrite isSpace_upperByte.
  destruct (strings.isSpace c); [exact IH|reflexivity].
Qed.

Lemma upperASCII_TrimRight s :
  strings.upperASCII (strings.TrimRight s) = strings.TrimRight (strings.upperASCII s).
Proof.
  induction s as [|c s IH]; [reflexivity|].
  simpl. rewrite <- IH, isSpace_upperByte.
  destruct (strings.TrimRight s) as [|d s']; simpl.
  - now destruct (strings.isSpace c).
  - reflexivity.
Qed.

(** On ASCII text, trimming and upper-casing can be done in either
    order. *)
Lemma upperASCII_trimASCII s :
  strings.upperASCII (strings.trimASCII s) = strings.trimASCII (strings.upperASCII s).
Proof.
  unfold strings.trimASCII.
  now rewrite upperASCII_TrimRight, upperASCII_TrimLeft.
Qed.

(** Trimming ASCII text leaves ASCII text. *)
Lemma isASCII_TrimLeft s :
  strings.isASCII s = true -> strings.isASCII (strings.TrimLeft s) = true.
Proof.
  induction s as [|c s IH]; [reflexivity|].
  intros H. cbn [strings.TrimLeft]. destruct (strings.isSpace c); [|exact H].
  cbn [strings.isASCII] in H. apply andb_true_iff in H. now apply IH.
Qed.

Lemma isASCII_TrimRight s :
  strings.isASCII s = true -> strings.isASCII (strings.TrimRight s) = true.
Proof.
  induction s as [|c s IH]; [reflexivity|].
  intros H. cbn [strings.isASCII] in H. apply andb_true_iff in H. destruct H as [Hc Hs].
  specialize (IH Hs). cbn [strings.TrimRight].
  destruct (strings.TrimRight s) as [|d t].
  - destruct (strings.isSpace c); [reflexivity|].
    cbn [strings.isASCII]. now rewrite Hc.
  - remember (String d t) as u. cbn [strings.isASCII]. now rewrite Hc, IH.
Qed.

Lemma isASCII_trimASCII s :
  strings.isASCII s = true -> strings.isASCII (strings.trimASCII s) = true.
Proof.
  intros H. unfold strings.trimASCII. now apply isASCII_TrimRight, isASCII_TrimLeft.
Qed.

Lemma upperByte_ASCII c : (byte_val (strings.upperByte c) <? 128) = (byte_val c <? 128).
Proof. destruct c as [[] [] [] [] [] [] [] []]; reflexivity. Qed.

Lemma isASCII_upperASCII s : strings.isASCII (strings.upperASCII s) = strings.isASCII s.
Proof.
  induction s as [|c s IH]; [reflexivity|].
  cbn [strings.upperASCII strings.isASCII]. now rewrite upperByte_ASCII, IH.
Qed.

Section ASCII.
Context {lib : GoLibrary}.

(** What the second program compares of an ASCII status. *)
Lemma normalizeStatus_ASCII s :
  strings.isASCII s = true ->
  Main40.normalizeStatus s = strings.upperASCII (strings.trimASCII s).
Proof.
  intros H. unfold Main40.normalizeStatus.
  rewrite (strings.TrimSpace_ASCII s H).
  apply strings.ToUpper_ASCII. now apply isASCII_trimASCII.
Qed.

Lemma ToUpper_PENDING : strings.ToUpper "PENDING" = "PENDING".
Proof. exact (strings.ToUpper_ASCII "PENDING" eq_refl). Qed.

Lemma normalizeStatus_PENDING : Main40.normalizeStatus "PENDING" = "PENDING".
Proof. exact (normalizeStatus_ASCII "PENDING" eq_refl). Qed.



End ASCII.

Lemma eqb_false_of_neq (a b : string) : a <> b -> String.eqb a b = false.
Proof. intros H. now apply String.eqb_neq. Qed.


Lemma settled_true {lib : GoLibrary} p status :
  compared p (TransactionResponse.Status status) = "SUCCESSFUL" \/
  compared p (TransactionResponse.Status status) = "FAILED" ->
  settled p status = true.
Proof.
  unfold settled. intros [H|H]; rewrite H; reflexivity.
Qed.

Lemma settled_true_inv {lib : GoLibrary} p status :
  settled p status = true ->
  compared p (TransactionResponse.Status status) = "SUCCESSFUL" \/
  compared p (TransactionResponse.Status status) = "FAILED".
Proof.
  unfold settled. intros H. apply orb_true_iff in H.
  destruct H as [H|H]; apply String.eqb_eq in H; auto.
Qed.

Lemma Contains_app s pre post : Contains (pre ++ s ++ post) s = true.
Proof.
  induction pre as [|c pre IH]; simpl.
  - assert (Hpre : String.prefix s (s ++ post) = true).
    { clear. induction s as [|c s IH]; [now destruct post|].
      simpl. destruct (ascii_dec c c); [exact IH|congruence]. }
    destruct (s ++ post); simpl in *; now rewrite Hpre.
  - rewrite IH. now rewrite orb_true_r.
Qed.

Lemma Contains_tail s pre : Contains (pre ++ s) s = true.
Proof.
  rewrite <- (Contains_app s pre ""). f_equal. f_equal.
  clear. induction s; simpl; congruence.
Qed.

(** ** The poller *)
Section Polling.
Context {lib : GoLibrary} (out : Outside).
Variables (p : Program) (baseURL token reference : string).

#[local] Abbreviation checkNo := (checkAt out p baseURL token reference).
#[local] Abbreviation request := (statusRequest baseURL token reference).
#[local] Abbreviation poll := (pollTransactionStatus out p baseURL token reference).
#[local] Abbreviation went :=
  (rounds (progressLine p) (interval p) (statusRequest baseURL token reference)).

Lemma attempts_split (n : nat) :
  Z.of_nat n < maxAttempts p ->
  exists remaining, Z.to_nat (maxAttempts p) = (n + S remaining)%nat.
Proof.
  intros H. exists (Z.to_nat (maxAttempts p) - S n)%nat. lia.
Qed.

#[local] Abbreviation unsettled := (unsettled out p baseURL token reference).
#[local] Abbreviation failedCheck := (failedCheck baseURL token reference).

Lemma poll_settles w pending status :
  Z.of_nat (List.length pending) < maxAttempts p ->
  unsettled w pending ->
  checkNo (requests w + List.length pending) = Ok status ->
  settled p status = true ->
  poll w =
  (Ok status,
   advance w (S (List.length pending)) (went pending (firstAttempt p) ++ [EvRequest request])).
Proof.
  intros Hlen Hpending Hans Hset.
  pose proof (checkAt_Ok_built _ _ _ _ _ _ _ Hans) as Hnew.
  destruct (attempts_split _ Hlen) as [remaining Hsplit].
  rewrite pollTransactionStatus_pollLoop, pollLoop_poller, Hsplit.
  apply (poller_rounds_settle _ _ _ _ _ checkNo request); try assumption.
  intros w'. now apply check_spec.
Qed.

Lemma poll_times_out w pending :
  Z.of_nat (List.length pending) = maxAttempts p ->
  unsettled w pending ->
  poll w =
  (Err (timeoutError p), advance w (List.length pending) (went pending (firstAttempt p))).
Proof.
  intros Hlen Hpending.
  assert (Hnew : http_NewRequest_error "GET" (statusURL baseURL reference) = None).
  { destruct pending as [|status rest].
    - destruct p; discriminate.
    - destruct (Hpending 0%nat status eq_refl) as [Hans _].
      exact (checkAt_Ok_built _ _ _ _ _ _ _ Hans). }
  rewrite pollTransactionStatus_pollLoop, pollLoop_poller.
  replace (Z.to_nat (maxAttempts p)) with (List.length pending) by lia.
  apply (poller_rounds_timeout _ _ _ _ _ checkNo request); try assumption.
  intros w'. now apply check_spec.
Qed.

Lemma poll_aborts w pending e :
  Z.of_nat (List.length pending) < maxAttempts p ->
  unsettled w pending ->
  checkNo (requests w + List.length pending) = Err e ->
  poll w =
  (Err e,
   advance w (List.length pending + List.length failedCheck)
     (went pending (firstAttempt p) ++ failedCheck)).
Proof.
  intros Hlen Hpending Hans.
  destruct (attempts_split _ Hlen) as [remaining Hsplit].
  rewrite pollTransactionStatus_pollLoop, pollLoop_poller, Hsplit.
  unfold failedCheck.
  destruct (http_NewRequest_error "GET" (statusURL baseURL reference)) as [e0|] eqn:Hnew.
  - destruct pending as [|status rest].
    + destruct (check_unbuilt out baseURL token reference p e0 Hnew) as [e' He'].
      unfold checkAt in Hans. rewrite He' in Hans.
      cbn [List.length Nat.add poller rounds app]. unfold bind.
      rewrite He', advance_zero. simpl in Hans. unfold ret. congruence.
    + destruct (Hpending 0%nat status eq_refl) as [Hans0 _].
      pose proof (checkAt_Ok_built _ _ _ _ _ _ _ Hans0). congruence.
  - cbn [List.length]. rewrite Nat.add_1_r.
    apply (poller_rounds_abort _ _ _ _ _ checkNo request); try assumption.
    intros w'. now apply check_spec.
Qed.

End Polling.

Lemma interval_five_seconds p : interval p = 5 * time.Second.
Proof. now destruct p. Qed.

Lemma pending_unsettled {lib : GoLibrary} p status :
  TransactionResponse.Status status = "PENDING" -> settled p status = false.
Proof.
  intros H. unfold settled. rewrite H.
  destruct p; cbn [compared]; [rewrite ToUpper_PENDING|rewrite normalizeStatus_PENDING];
    reflexivity.
Qed.

(** The loop prints its own attempt number for a state that is [PENDING]. *)
Lemma rounds_pending {lib : GoLibrary} p req pending : forall n : nat,
  Forall (fun status => TransactionResponse.Status status = "PENDING") pending ->
  rounds (progressLine p) (interval p) req pending (firstAttempt p + Z.of_nat n) =
  flat_map
    (fun i => [EvRequest req; EvStdout (pendingLine p (Z.of_nat i)); EvSleep (interval p)])
    (seq (S n) (List.length pending)).
Proof.
  induction pending as [|status rest IH]; intros n Hall; [reflexivity|].
  inversion Hall as [|? ? Hstatus Hrest]; subst.
  cbn [rounds List.length seq flat_map app].
  replace (firstAttempt p + Z.of_nat n + 1) with (firstAttempt p + Z.of_nat (S n)) by lia.
  rewrite (IH (S n) Hrest). f_equal. f_equal. f_equal.
  unfold progressLine, pendingLine. rewrite Hstatus.
  destruct p; cbn [firstAttempt].
  - rewrite ToUpper_PENDING. cbn [String.eqb Ascii.eqb Bool.eqb].
    now replace (0 + Z.of_nat n + 1) with (Z.of_nat (S n)) by lia.
  - rewrite normalizeStatus_PENDING.
    now replace (1 + Z.of_nat n) with (Z.of_nat (S n)) by lia.
Qed.

(** States that exist one by one exist as a list. *)
Lemma states_list {A : Type} (P : nat -> A -> Prop) (n : nat) :
  (forall k, (k < n)%nat -> exists a, P k a) ->
  exists l, List.length l = n /\ forall k a, nth_error l k = Some a -> P k a.
Proof.
  induction n as [|n IH]; intros H.
  - exists []. split; [reflexivity|]. intros [|k] a Hk; discriminate.
  - destruct IH as [l [Hlen Hl]]; [intros k Hk; apply H; lia|].
    destruct (H n (Nat.lt_succ_diag_r n)) as [a Ha].
    exists (l ++ [a])%list. split.
    + rewrite length_app. simpl. lia.
    + intros k b Hk.
      destruct (Nat.lt_ge_cases k (List.length l)) as [Hlt|Hge].
      * rewrite nth_error_app1 in Hk by assumption. now apply Hl.
      * rewrite nth_error_app2 in Hk by assumption.
        destruct (k - List.length l)%nat as [|j] eqn:Hj; simpl in Hk.
        -- inversion Hk; subst. replace k with (List.length l) by lia. exact Ha.
        -- destruct j; discriminate.
Qed.

(** C1 (as amended).  The poller returns on the first status check whose
    status, as the program compares it, is SUCCESSFUL or FAILED, whatever
    the attempt, with that transaction record, and the request of that
    check is the last thing it does.  The program of 40 attempts compares
    the trimmed, upper-cased status; the program of 60 attempts upper-cases
    the status and does not trim it. *)
Theorem poll_returns_first_final_status {lib : GoLibrary} (out : Outside) (p : Program)
    (baseURL token reference : string) (w : World)
    (pending : list TransactionResponse.t) (status : TransactionResponse.t) :
  Z.of_nat (List.length pending) < maxAttempts p ->
  unsettled out p baseURL token reference w pending ->
  checkAt out p baseURL token reference (requests w + List.length pending) = Ok status ->
  compared p (TransactionResponse.Status status) = "SUCCESSFUL" \/
  compared p (TransactionResponse.Status status) = "FAILED" ->
  pollTransactionStatus out p baseURL token reference w =
  (Ok status,
   advance w (S (List.length pending))
     (rounds (progressLine p) (interval p) (statusRequest baseURL token reference)
        pending (firstAttempt p)
      ++ [EvRequest (statusRequest baseURL token reference)])).
Proof.
  intros Hlen Hpending Hans Hfinal.
  apply poll_settles; try assumption.
  now apply settled_true.
Qed.

Lemma poll_returns_first_final_status_witness :
  pollTransactionStatus Scenario.endToEnd V40 Scenario.demoURL "abc" "r1" Scenario.polling =
  (Ok (Scenario.record "SUCCESSFUL"),
   advance Scenario.polling 3
     (rounds (progressLine V40) (interval V40)
        (statusRequest Scenario.demoURL "abc" "r1")
        [Scenario.record "PENDING"; Scenario.record "PENDING"] 1
      ++ [EvRequest (statusRequest Scenario.demoURL "abc" "r1")])).
Proof.
  apply (poll_returns_first_final_status Scenario.endToEnd V40 Scenario.demoURL "abc" "r1"
           Scenario.polling [Scenario.record "PENDING"; Scenario.record "PENDING"]
           (Scenario.record "SUCCESSFUL")).
  - reflexivity.
  - intros k status Hk.
    destruct k as [|[|k]]; simpl in Hk;
      [inversion Hk; subst; split; vm_compute; reflexivity
      |inversion Hk; subst; split; vm_compute; reflexivity
      |destruct k; discriminate].
  - vm_compute; reflexivity.
  - left; vm_compute; reflexivity.
Defined.

(** C1 (as stated) fails for the program of 60 attempts: the first status
    check returns the status SUCCESSFUL behind a space, which trimmed and
    upper-cased is SUCCESSFUL, and the poller goes on to a second check and
    returns its record. *)
Lemma first_program_polls_past_padded_status :
  checkAt Scenario.padded V60 Scenario.demoURL "abc" "r1" (requests Scenario.polling) =
    Ok (Scenario.record " SUCCESSFUL") /\
  Main40.normalizeStatus " SUCCESSFUL" = "SUCCESSFUL" /\
  fst (Main60.pollTransactionStatus Scenario.padded Scenario.demoURL "abc" "r1"
         Scenario.polling) = Ok (Scenario.record "FAILED") /\
  requests (snd (Main60.pollTransactionStatus Scenario.padded Scenario.demoURL "abc" "r1"
                   Scenario.polling)) = (requests Scenario.polling + 2)%nat.
Proof. repeat split; vm_compute; reflexivity. Qed.

(** C2.  When every status check returns the status PENDING, the poller
    makes as many checks as it has attempts (60 or 40), pauses five seconds
    after each, and returns the time-out error and no record. *)
Theorem poll_pending_throughout_times_out {lib : GoLibrary} (out : Outside) (p : Program)
    (baseURL token reference : string) (w : World) :
  (forall k, (k < Z.to_nat (maxAttempts p))%nat ->
     exists status,
       checkAt out p baseURL token reference (requests w + k) = Ok status /\
       TransactionResponse.Status status = "PENDING") ->
  pollTransactionStatus out p baseURL token reference w =
  (Err (timeoutError p),
   advance w (Z.to_nat (maxAttempts p))
     (flat_map
        (fun i => [EvRequest (statusRequest baseURL token reference);
                   EvStdout (pendingLine p (Z.of_nat i));
                   EvSleep (interval p)])
        (seq 1 (Z.to_nat (maxAttempts p))))) /\
  interval p = 5 * time.Second /\
  maxAttempts p = match p with V60 => 60 | V40 => 40 end.
Proof.
  intros Hall.
  destruct (states_list _ _ Hall) as [pending [Hlen Hpending]].
  split; [|split; [apply interval_five_seconds|now destruct p]].
  assert (Hforall : Forall (fun status => TransactionResponse.Status status = "PENDING")
                      pending).
  { apply Forall_forall. intros status Hin.
    destruct (In_nth_error _ _ Hin) as [k Hk]. now destruct (Hpending k status Hk). }
  rewrite (poll_times_out out p baseURL token reference w pending).
  - pose proof (rounds_pending p (statusRequest baseURL token reference) pending 0 Hforall)
      as Hrounds.
    rewrite Z.add_0_r in Hrounds. now rewrite Hrounds, Hlen.
  - rewrite Hlen. destruct p; reflexivity.
  - intros k status Hk. destruct (Hpending k status Hk) as [Hans Hstatus].
    split; [assumption|now apply pending_unsettled].
Qed.

Lemma poll_pending_throughout_times_out_witness :
  fst (pollTransactionStatus Scenario.pendingForEver V60 Scenario.demoURL "abc" "r1"
         Scenario.polling) = Err "transaction status check timed out after 60 attempts" /\
  requests (snd (pollTransactionStatus Scenario.pendingForEver V60 Scenario.demoURL "abc" "r1"
                   Scenario.polling)) = (requests Scenario.polling + 60)%nat.
Proof.
  destruct (poll_pending_throughout_times_out Scenario.pendingForEver V60
              Scenario.demoURL "abc" "r1" Scenario.polling) as [Hpoll _].
  - intros k Hk. exists (Scenario.record "PENDING").
    split; [destruct k; vm_compute; reflexivity|reflexivity].
  - rewrite Hpoll. split; reflexivity.
Defined.

(** C3.  When a status check fails, whatever the attempt, the poller
    returns the error of that check at once: the failed check is the last
    thing it does. *)
Theorem poll_aborts_on_failed_check {lib : GoLibrary} (out : Outside) (p : Program)
    (baseURL token reference : string) (w : World)
    (pending : list TransactionResponse.t) (e : error) :
  Z.of_nat (List.length pending) < maxAttempts p ->
  unsettled out p baseURL token reference w pending ->
  checkAt out p baseURL token reference (requests w + List.length pending) = Err e ->
  pollTransactionStatus out p baseURL token reference w =
  (Err e,
   advance w (List.length pending + List.length (failedCheck baseURL token reference))
     (rounds (progressLine p) (interval p) (statusRequest baseURL token reference)
        pending (firstAttempt p)
      ++ failedCheck baseURL token reference)).
Proof. apply poll_aborts. Qed.

Lemma poll_aborts_on_failed_check_witness :
  pollTransactionStatus Scenario.broken V40 Scenario.demoURL "abc" "r1" Scenario.polling =
  (Err "API error (500): internal error",
   advance Scenario.polling 1 [EvRequest (statusRequest Scenario.demoURL "abc" "r1")]).
Proof.
  rewrite (poll_aborts_on_failed_check Scenario.broken V40 Scenario.demoURL "abc" "r1"
             Scenario.polling [] "API error (500): internal error").
  - vm_compute; reflexivity.
  - reflexivity.
  - intros k status Hk. destruct k; discriminate.
  - vm_compute; reflexivity.
Defined.





(** C8.  A status check that reports FAILED ends the polling like one that
    reports SUCCESSFUL: the poller returns the record and no error.  Using
    up the attempts returns the time-out error and no record.  Whenever the
    poller returns a record, its status is one of the two final ones. *)
Theorem poll_failed_is_a_record_timeout_an_error {lib : GoLibrary} (out : Outside)
    (p : Program) (baseURL token reference : string) (w : World)
    (pending : list TransactionResponse.t) :
  unsettled out p baseURL token reference w pending ->
  (forall status,
     Z.of_nat (List.length pending) < maxAttempts p ->
     checkAt out p baseURL token reference (requests w + List.length pending) = Ok status ->
     compared p (TransactionResponse.Status status) = "FAILED" \/
     compared p (TransactionResponse.Status status) = "SUCCESSFUL" ->
     fst (pollTransactionStatus out p baseURL token reference w) = Ok status) /\
  (Z.of_nat (List.length pending) = maxAttempts p ->
   fst (pollTransactionStatus out p baseURL token reference w) = Err (timeoutError p)) /\
  (forall status,
     fst (pollTransactionStatus out p baseURL token reference w) = Ok status ->
     compared p (TransactionResponse.Status status) = "SUCCESSFUL" \/
     compared p (TransactionResponse.Status status) = "FAILED").
Proof.
  intros Hpending. repeat split.
  - intros status Hlen Hans Hfinal.
    rewrite (poll_settles out p baseURL token reference w pending status);
      try assumption; [reflexivity|].
    apply settled_true. tauto.
  - intros Hlen. now rewrite (poll_times_out out p baseURL token reference w pending).
  - intros status Hpoll. apply settled_true_inv.
    rewrite pollTransactionStatus_pollLoop, pollLoop_poller in Hpoll.
    exact (poller_Ok_settled _ _ _ _ _ _ _ _ _ Hpoll).
Qed.

Lemma poll_failed_is_a_record_timeout_an_error_witness :
  fst (pollTransactionStatus (Scenario.outside ["PENDING"] "FAILED") V40
         Scenario.demoURL "abc" "r1" Scenario.polling) = Ok (Scenario.record "FAILED").
Proof.
  destruct (poll_failed_is_a_record_timeout_an_error (Scenario.outside ["PENDING"] "FAILED")
              V40 Scenario.demoURL "abc" "r1" Scenario.polling [Scenario.record "PENDING"])
    as [Hfailed _].
  - intros k status Hk.
    destruct k as [|k]; simpl in Hk;
      [inversion Hk; subst; split; vm_compute; reflexivity|destruct k; discriminate].
  - apply Hfailed.
    + reflexivity.
    + vm_compute; reflexivity.
    + left; vm_compute; reflexivity.
Defined.


(** ** Errors of the gateway *)

Lemma Contains_skip pre t s : Contains t s = true -> Contains (pre ++ t) s = true.
Proof.
intros H. induction pre as [|c pre IH]; simpl; [assumption|].
rewrite IH. apply orb_true_r.
Qed.

Lemma Contains_head s post : Contains (s ++ post) s = true.
Proof. exact (Contains_app s "" post). Qed.

Lemma Contains_refl s : Contains s s = true.
Proof. exact (Contains_tail s ""). Qed.

Section GatewayErrors.
Context {lib : GoLibrary} (out : Outside).
Variables (w : World) (code : Z) (body : string).
Variables (er : ErrorResponse.t) (err : option error).
Hypothesis answer : roundTrip out (requests w) = Response code body None.
Hypothesis refused : code <> 200.
Hypothesis decoded : json_Unmarshal_ErrorResponse body = (er, err).

Lemma refused_b : negb (code =? 200) = true.
Proof. apply negb_true_iff, Z.eqb_neq, refused. Qed.

Lemma getAuthToken40_refused baseURL username password :
  http_NewRequest_error "POST" (baseURL ++ "/token/") = None ->
  fst (Main40.getAuthToken out baseURL username password w) =
  Err (Main40.formatAPIError code body).
Proof.
intros Hnew. unfold Main40.getAuthToken, http_NewRequest.
destruct (json_Marshal _) as [reqBody ?]. rewrite Hnew.
unfold bind, client_Do. rewrite answer, refused_b. reflexivity.
Qed.

Lemma collectPayment40_refused baseURL token collect :
  http_NewRequest_error "POST" (baseURL ++ "/collect/") = None ->
  fst (Main40.collectPayment out baseURL token collect w) =
  Err (Main40.formatAPIError code body).
Proof.
intros Hnew. unfold Main40.collectPayment, http_NewRequest.
destruct (json_Marshal _) as [reqBody ?]. rewrite Hnew.
unfold bind, client_Do. rewrite answer, refused_b. reflexivity.
Qed.

Lemma checkTransactionStatus40_refused baseURL token reference :
  http_NewRequest_error "GET" (statusURL baseURL reference) = None ->
  fst (Main40.checkTransactionStatus out baseURL token reference w) =
  Err (Main40.formatAPIError code body).
Proof.
intros Hnew. unfold Main40.checkTransactionStatus, http_NewRequest.
fold (statusURL baseURL reference). rewrite Hnew.
unfold bind, client_Do. rewrite answer, refused_b. reflexivity.
Qed.

Lemma getAuthToken60_refused baseURL username password :
  http_NewRequest_error "POST" (baseURL ++ "/token/") = None ->
  snd (json_Marshal (Main60.TokenRequest_fields (TokenRequest.mk username password))) = None ->
  fst (Main60.getAuthToken out baseURL username password w) =
  Err ("authentication failed (status " ++ strconv.Itoa code ++ "): "
       ++ ErrorResponse.Code er ++ " - " ++ ErrorResponse.Message er).
Proof.
intros Hnew Hmarshal. unfold Main60.getAuthToken, http_NewRequest.
destruct (json_Marshal _) as [jsonData e]. simpl in Hmarshal. subst e. rewrite Hnew.
unfold bind, client_Do. rewrite answer. unfold StatusOK. rewrite refused_b, decoded.
reflexivity.
Qed.

Lemma collectPayment60_refused baseURL token collect :
  http_NewRequest_error "POST" (baseURL ++ "/collect/") = None ->
  snd (json_Marshal (Main60.CollectRequest.fields collect)) = None ->
  fst (Main60.collectPayment out baseURL token collect w) =
  Err ("collect request failed (status " ++ strconv.Itoa code ++ "): "
       ++ ErrorResponse.Code er ++ " - " ++ ErrorResponse.Message er).
Proof.
intros Hnew Hmarshal. unfold Main60.collectPayment, http_NewRequest.
destruct (json_Marshal _) as [jsonData e]. simpl in Hmarshal. subst e. rewrite Hnew.
unfold bind, client_Do. rewrite answer. unfold StatusOK. rewrite refused_b, decoded.
reflexivity.
Qed.

Lemma checkTransactionStatus60_refused baseURL token reference :
  http_NewRequest_error "GET" (statusURL baseURL reference) = None ->
  fst (Main60.checkTransactionStatus out baseURL token reference w) =
  Err ("status check failed (status " ++ strconv.Itoa code ++ "): "
       ++ ErrorResponse.Code er ++ " - " ++ ErrorResponse.Message er).
Proof.
intros Hnew. unfold Main60.checkTransactionStatus, http_NewRequest.
fold (statusURL baseURL reference). rewrite Hnew.
unfold bind, client_Do. rewrite answer. unfold StatusOK. rewrite refused_b, decoded.
reflexivity.
Qed.

Lemma formatAPIError_envelope :
  err = None -> ErrorResponse.Message er <> "" ->
  Main40.formatAPIError code body =
  "API error (" ++ strconv.Itoa code ++ "): "
  ++ ErrorResponse.Code er ++ " - " ++ ErrorResponse.Message er.
Proof.
intros Herr Hmessage. unfold Main40.formatAPIError. rewrite decoded, Herr.
now rewrite (eqb_false_of_neq _ _ Hmessage).
Qed.

Lemma formatAPIError_raw :
  err <> None \/ ErrorResponse.Message er = "" ->
  Main40.formatAPIError code body = "API error (" ++ strconv.Itoa code ++ "): " ++ body.
Proof.
intros H. unfold Main40.formatAPIError. rewrite decoded.
destruct H as [H|H].
- destruct err; [reflexivity|contradiction].
- rewrite H. now rewrite andb_false_r.
Qed.

End GatewayErrors.

(** C4 (as amended).  A response whose status is not 200 becomes an error
    as follows.  In the program of 40 attempts every call goes through
    [formatAPIError]: when the body decodes without error to an envelope
    with a non-empty message the error is "API error (status): code -
    message", and otherwise (the body is no JSON, or the message is empty)
    it is "API error (status): " followed by the raw body.  In the program
    of 60 attempts the error is the name of the failed call, the status and
    the code and message that the decoding left in the envelope, whether or
    not it succeeded: it never shows the raw body. *)
Theorem error_of_refused_request {lib : GoLibrary} (out : Outside) (w : World)
    (code : Z) (body : string) (er : ErrorResponse.t) (err : option error) :
  roundTrip out (requests w) = Response code body None ->
  code <> 200 ->
  json_Unmarshal_ErrorResponse body = (er, err) ->
  (forall baseURL username password,
     http_NewRequest_error "POST" (baseURL ++ "/token/") = None ->
     fst (Main40.getAuthToken out baseURL username password w) =
     Err (Main40.formatAPIError code body)) /\
  (forall baseURL token collect,
     http_NewRequest_error "POST" (baseURL ++ "/collect/") = None ->
     fst (Main40.collectPayment out baseURL token collect w) =
     Err (Main40.formatAPIError code body)) /\
  (forall baseURL token reference,
     http_NewRequest_error "GET" (statusURL baseURL reference) = None ->
     fst (Main40.checkTransactionStatus out baseURL token reference w) =
     Err (Main40.formatAPIError code body)) /\
  (err = None -> ErrorResponse.Message er <> "" ->
   Main40.formatAPIError code body =
   "API error (" ++ strconv.Itoa code ++ "): "
   ++ ErrorResponse.Code er ++ " - " ++ ErrorResponse.Message er /\
   Contains (Main40.formatAPIError code body) (ErrorResponse.Code er) = true /\
   Contains (Main40.formatAPIError code body) (ErrorResponse.Message er) = true) /\
  (err <> None \/ ErrorResponse.Message er = "" ->
   Main40.formatAPIError code body = "API error (" ++ strconv.Itoa code ++ "): " ++ body /\
   Contains (Main40.formatAPIError code body) body = true) /\
  (forall baseURL username password,
     http_NewRequest_error "POST" (baseURL ++ "/token/") = None ->
     snd (json_Marshal (Main60.TokenRequest_fields (TokenRequest.mk username password)))
     = None ->
     fst (Main60.getAuthToken out baseURL username password w) =
     Err ("authentication failed (status " ++ strconv.Itoa code ++ "): "
          ++ ErrorResponse.Code er ++ " - " ++ ErrorResponse.Message er)) /\
  (forall baseURL token collect,
     http_NewRequest_error "POST" (baseURL ++ "/collect/") = None ->
     snd (json_Marshal (Main60.CollectRequest.fields collect)) = None ->
     fst (Main60.collectPayment out baseURL token collect w) =
     Err ("collect request failed (status " ++ strconv.Itoa code ++ "): "
          ++ ErrorResponse.Code er ++ " - " ++ ErrorResponse.Message er)) /\
  (forall baseURL token reference,
     http_NewRequest_error "GET" (statusURL baseURL reference) = None ->
     fst (Main60.checkTransactionStatus out baseURL token reference w) =
     Err ("status check failed (status " ++ strconv.Itoa code ++ "): "
          ++ ErrorResponse.Code er ++ " - " ++ ErrorResponse.Message er)).
Proof.
intros Hanswer Hcode Hdecoded.
split; [intros; now apply getAuthToken40_refused|].
split; [intros; now apply collectPayment40_refused|].
split; [intros; now apply checkTransactionStatus40_refused|].
split.
{ intros Herr Hmessage.
  rewrite (formatAPIError_envelope code body er err Hdecoded Herr Hmessage).
  split; [reflexivity|]. split.
  - do 3 apply Contains_skip. apply Contains_head.
  - do 5 apply Contains_skip. apply Contains_refl. }
split.
{ intros Hraw. rewrite (formatAPIError_raw code body er err Hdecoded Hraw).
  split; [reflexivity|]. do 3 apply Contains_skip. apply Contains_refl. }
split; [intros; now apply (getAuthToken60_refused out w code body er err)|].
split; [intros; now apply (collectPayment60_refused out w code body er err)|].
intros; now apply (checkTransactionStatus60_refused out w code body er err).
Qed.

Lemma error_of_refused_request_witness :
  Main40.formatAPIError 400 Scenario.invalidAmountBody
  = "API error (400): ER201 - Invalid amount" /\
  Main40.formatAPIError 500 "internal error" = "API error (500): internal error".
Proof.
split.
- destruct (error_of_refused_request Scenario.refusing (Scenario.typed []) 400
              Scenario.invalidAmountBody (ErrorResponse.mk "ER201" "Invalid amount") None)
    as (_ & _ & _ & Henvelope & _).
  + reflexivity.
  + discriminate.
  + vm_compute; reflexivity.
  + destruct Henvelope as [H _]; [reflexivity|discriminate|].
    rewrite H. reflexivity.
- destruct (error_of_refused_request Scenario.broken (Scenario.typed []) 500
              "internal error" ErrorResponse.zero (Some "json: syntax error"))
    as (_ & _ & _ & _ & Hraw & _).
  + reflexivity.
  + discriminate.
  + vm_compute; reflexivity.
  + destruct Hraw as [H _]; [left; discriminate|].
    rewrite H. reflexivity.
Defined.

(** C4 (as stated) fails for the program of 60 attempts: answered with
    status 500 and the body "internal error", which is no JSON, its
    authentication returns an error that shows neither code nor message nor
    the body. *)
Lemma first_program_drops_raw_body :
  roundTrip Scenario.broken 0 = Response 500 "internal error" None /\
  fst (Main60.getAuthToken Scenario.broken Scenario.demoURL "merchant" "secret"
         (Scenario.typed [])) = Err "authentication failed (status 500):  - " /\
  Contains "authentication failed (status 500):  - " "internal error" = false /\
  fst (Main60.run Scenario.broken (Scenario.typed []))
  = Some "authentication failed: authentication failed (status 500):  - ".
Proof. repeat split; vm_compute; reflexivity. Qed.


(** ** Reading the input *)

Lemma TrimRight_idem s : strings.TrimRight (strings.TrimRight s) = strings.TrimRight s.
Proof.
induction s as [|c s IH]; [reflexivity|].
cbn [strings.TrimRight]. destruct (strings.TrimRight s) as [|d t] eqn:E.
- destruct (strings.isSpace c) eqn:Ec; cbn [strings.TrimRight]; [reflexivity|now rewrite Ec].
- remember (String d t) as u eqn:Hu.
  cbn [strings.TrimRight]. rewrite IH. now subst u.
Qed.

Lemma TrimLeft_TrimRight s :
  strings.TrimLeft (strings.TrimRight (strings.TrimLeft s))
  = strings.TrimRight (strings.TrimLeft s).
Proof.
induction s as [|c s IH]; [reflexivity|].
cbn [strings.TrimLeft]. destruct (strings.isSpace c) eqn:Ec; [exact IH|].
cbn [strings.TrimRight].
destruct (strings.TrimRight s); rewrite ?Ec; cbn [strings.TrimLeft]; now rewrite Ec.
Qed.

(** On ASCII text, trimming twice is trimming once. *)
Lemma trimASCII_idem s : strings.trimASCII (strings.trimASCII s) = strings.trimASCII s.
Proof.
unfold strings.trimASCII. now rewrite TrimLeft_TrimRight, TrimRight_idem.
Qed.

Section Input.
Context {lib : GoLibrary} (out : Outside).

Lemma promptUser60_line prompt w line rest :
  stdin w = (line, None) :: rest ->
  Main60.promptUser prompt w = (Ok (strings.TrimSpace line), prompted w prompt rest).
Proof.
intros Hin. unfold Main60.promptUser, bind, fmt_Print, emit, ReadString; simpl.
now rewrite Hin.
Qed.

(** [promptUser] of the second program as the source has it: it calls
    itself when the line is empty once trimmed. *)
Lemma promptUser_unfold prompt w :
  Main40.promptUser prompt w =
  (fmt_Print prompt ;;
   '(input, err) <- ReadString ;;
   match err with
   | Some e => ret (Err e)
   | None =>
       let input := strings.TrimSpace input in
       if String.eqb input "" then Main40.promptUser prompt else ret (Ok input)
   end) w.
Proof.
unfold Main40.promptUser.
destruct (stdin w) as [|[line err] rest] eqn:Hin;
  cbn [List.length Main40.promptUserFrom];
  unfold bind, fmt_Print, emit, ReadString; cbn [stdin requests trace fst snd];
  rewrite ?Hin.
- reflexivity.
- destruct err; [reflexivity|].
  destruct (String.eqb (strings.TrimSpace line) ""); reflexivity.
Qed.

Lemma promptUser40_blank prompt w line rest :
  stdin w = (line, None) :: rest ->
  strings.TrimSpace line = "" ->
  Main40.promptUser prompt w = Main40.promptUser prompt (prompted w prompt rest).
Proof.
intros Hin Hblank. rewrite promptUser_unfold at 1.
unfold bind, fmt_Print, emit, ReadString; simpl.
now rewrite Hin, Hblank.
Qed.

Lemma promptUser40_line prompt w line rest :
  stdin w = (line, None) :: rest ->
  strings.TrimSpace line <> "" ->
  Main40.promptUser prompt w = (Ok (strings.TrimSpace line), prompted w prompt rest).
Proof.
intros Hin Hline. rewrite promptUser_unfold.
unfold bind, fmt_Print, emit, ReadString; simpl.
now rewrite Hin, (eqb_false_of_neq _ _ Hline).
Qed.

End Input.


(** ** The phone number *)

Lemma promptPhone_line {lib : GoLibrary} w line rest :
  stdin w = (line, None) :: rest ->
  strings.TrimSpace line <> "" ->
  Main40.promptPhone w =
  (let s := stripped line in
   let phone := if (len s =? 9) && startsWith6 s then "237" ++ s else s in
   if negb (strings.HasPrefix phone "237") || negb (len phone =? 12)
   then Err "invalid phone number format" else Ok phone,
   prompted w (phonePrompt V40) rest).
Proof.
intros Hin Hline. unfold Main40.promptPhone, bind.
rewrite (promptUser40_line _ w line rest Hin Hline).
fold (stripped line). fold (startsWith6 (stripped line)).
cbv zeta.
destruct (negb (strings.HasPrefix _ "237") || negb (len _ =? 12)); reflexivity.
Qed.

Lemma prefix_237 s : strings.HasPrefix ("237" ++ s) "237" = true.
Proof.
unfold strings.HasPrefix. cbn [append String.prefix].
repeat (destruct (ascii_dec _ _) as [_|Hne]; [|now elim Hne]).
now destruct s.
Qed.

Lemma len_237 s : len ("237" ++ s) = len s + 3.
Proof. unfold len. simpl String.length. lia. Qed.

Lemma promptPhone_local {lib : GoLibrary} w line rest :
  stdin w = (line, None) :: rest ->
  strings.TrimSpace line <> "" ->
  len (stripped line) = 9 ->
  startsWith6 (stripped line) = true ->
  Main40.promptPhone w = (Ok ("237" ++ stripped line), prompted w (phonePrompt V40) rest).
Proof.
intros Hin Hline Hlen H6. rewrite (promptPhone_line w line rest Hin Hline).
cbv zeta. rewrite Hlen, H6. cbn [Z.eqb Pos.eqb andb].
rewrite len_237, Hlen, prefix_237. reflexivity.
Qed.

Lemma promptPhone_international {lib : GoLibrary} w line rest :
  stdin w = (line, None) :: rest ->
  strings.TrimSpace line <> "" ->
  len (stripped line) = 12 ->
  strings.HasPrefix (stripped line) "237" = true ->
  Main40.promptPhone w = (Ok (stripped line), prompted w (phonePrompt V40) rest).
Proof.
intros Hin Hline Hlen Hprefix. rewrite (promptPhone_line w line rest Hin Hline).
cbv zeta. rewrite Hlen. cbn [Z.eqb Pos.eqb andb].
rewrite Hprefix, Hlen. reflexivity.
Qed.

Lemma promptPhone_other {lib : GoLibrary} w line rest :
  stdin w = (line, None) :: rest ->
  strings.TrimSpace line <> "" ->
  ~ (len (stripped line) = 9 /\ startsWith6 (stripped line) = true) ->
  ~ (len (stripped line) = 12 /\ strings.HasPrefix (stripped line) "237" = true) ->
  Main40.promptPhone w = (Err (phoneError V40), prompted w (phonePrompt V40) rest).
Proof.
intros Hin Hline Hlocal Hinter. rewrite (promptPhone_line w line rest Hin Hline).
cbv zeta.
destruct ((len (stripped line) =? 9) && startsWith6 (stripped line)) eqn:E.
- apply andb_true_iff in E. destruct E as [E1 E2]. apply Z.eqb_eq in E1. tauto.
- destruct (strings.HasPrefix (stripped line) "237") eqn:Hp; [|reflexivity].
  destruct (len (stripped line) =? 12) eqn:Hl; [|reflexivity].
  apply Z.eqb_eq in Hl. tauto.
Qed.

Lemma promptPhone_Ok_shape {lib : GoLibrary} w line rest phone :
  stdin w = (line, None) :: rest ->
  strings.TrimSpace line <> "" ->
  fst (Main40.promptPhone w) = Ok phone ->
  strings.HasPrefix phone "237" = true /\ len phone = 12.
Proof.
intros Hin Hline. rewrite (promptPhone_line w line rest Hin Hline).
cbv zeta. cbn [fst].
set (candidate := if (len (stripped line) =? 9) && startsWith6 (stripped line)
                  then "237" ++ stripped line else stripped line).
destruct (strings.HasPrefix candidate "237") eqn:Hp; [|discriminate].
destruct (len candidate =? 12) eqn:Hl; [|discriminate].
cbn [negb orb]. intros H. inversion H; subst. split; [assumption|now apply Z.eqb_eq].
Qed.

Section Phone.
Context {lib : GoLibrary} (out : Outside).

Lemma run_input40_rejected token w e w' :
  Main40.promptPhone w = (Err e, w') ->
  Main40.run_input out token w = (Some e, w').
Proof. intros H. unfold Main40.run_input, bind. now rewrite H. Qed.

Lemma run_input40_accepted token w phone w' :
  Main40.promptPhone w = (Ok phone, w') ->
  Main40.run_input out token w = Main40.run_amount out token phone w'.
Proof. intros H. unfold Main40.run_input, bind. now rewrite H. Qed.

Lemma run_input60_line token w line rest :
  stdin w = (line, None) :: rest ->
  Main60.run_input out token w =
  (if strings.HasPrefix (strings.TrimSpace line) "237" && (len (strings.TrimSpace line) =? 12)
   then Main60.run_amount out token (strings.TrimSpace line)
   else ret (Some (phoneError V60))) (prompted w (phonePrompt V60) rest).
Proof.
intros Hin. unfold Main60.run_input, bind.
rewrite (promptUser60_line _ w line rest Hin).
destruct (strings.HasPrefix (strings.TrimSpace line) "237");
  destruct (len (strings.TrimSpace line) =? 12); reflexivity.
Qed.

End Phone.

(** C5 (as amended).  The program of 40 attempts takes the line without
    the white space around it and the spaces in it.  When that is 9 digits
    and begins with 6, the country code 237 is put in front and the number
    is accepted; when it is 12 digits and begins with 237 it is accepted as
    it is; when its length or its beginning is another it is refused with a
    validation error, which ends the run; and every number it accepts
    begins with 237 and is 12 bytes long.  The program of 60 attempts takes
    the line without the white space around it and puts no country code in
    front: it accepts 12 digits that begin with 237 and refuses every line
    of another length or beginning. *)
Theorem phone_number_validation {lib : GoLibrary} (out : Outside) (token : string)
    (w : World) (line : string) (rest : list (string * option error)) :
  stdin w = (line, None) :: rest ->
  (strings.TrimSpace line <> "" ->
   (allDigits (stripped line) = true ->
    len (stripped line) = 9 -> startsWith6 (stripped line) = true ->
    Main40.promptPhone w
    = (Ok ("237" ++ stripped line), prompted w (phonePrompt V40) rest)) /\
   (allDigits (stripped line) = true ->
    len (stripped line) = 12 -> strings.HasPrefix (stripped line) "237" = true ->
    Main40.promptPhone w = (Ok (stripped line), prompted w (phonePrompt V40) rest)) /\
   (~ (len (stripped line) = 9 /\ startsWith6 (stripped line) = true) ->
    ~ (len (stripped line) = 12 /\ strings.HasPrefix (stripped line) "237" = true) ->
    Main40.promptPhone w = (Err (phoneError V40), prompted w (phonePrompt V40) rest) /\
    Main40.run_input out token w
    = (Some (phoneError V40), prompted w (phonePrompt V40) rest)) /\
   (forall phone, fst (Main40.promptPhone w) = Ok phone ->
      strings.HasPrefix phone "237" = true /\ len phone = 12)) /\
  (allDigits (strings.TrimSpace line) = true ->
   len (strings.TrimSpace line) = 12 ->
   strings.HasPrefix (strings.TrimSpace line) "237" = true ->
   Main60.run_input out token w
   = Main60.run_amount out token (strings.TrimSpace line)
       (prompted w (phonePrompt V60) rest)) /\
  (~ (len (strings.TrimSpace line) = 12 /\
      strings.HasPrefix (strings.TrimSpace line) "237" = true) ->
   Main60.run_input out token w
   = (Some (phoneError V60), prompted w (phonePrompt V60) rest)).
Proof.
intros Hin. split; [intros Hline; split; [|split; [|split]]|split].
- intros _. now apply promptPhone_local.
- intros _. now apply promptPhone_international.
- intros Hlocal Hinter. split.
  + now apply (promptPhone_other w line rest).
  + apply run_input40_rejected. now apply (promptPhone_other w line rest).
- intros phone. now apply (promptPhone_Ok_shape w line rest).
- intros _ Hlen Hprefix. rewrite (run_input60_line out token w line rest Hin).
  now rewrite Hprefix, Hlen.
- intros Hno. rewrite (run_input60_line out token w line rest Hin).
  destruct (strings.HasPrefix (strings.TrimSpace line) "237") eqn:Hp; [|reflexivity].
  destruct (len (strings.TrimSpace line) =? 12) eqn:Hl; [|reflexivity].
  apply Z.eqb_eq in Hl. tauto.
Qed.

Lemma phone_number_validation_witness :
  Main40.promptPhone (Scenario.typed ["6 70 12 34 56"])
  = (Ok "237670123456", prompted (Scenario.typed ["6 70 12 34 56"]) (phonePrompt V40) []).
Proof.
destruct (phone_number_validation Scenario.endToEnd "abc" (Scenario.typed ["6 70 12 34 56"])
            ("6 70 12 34 56" ++ LF) []) as [[Hlocal _] _].
- reflexivity.
- vm_compute; discriminate.
- apply Hlocal; vm_compute; reflexivity.
Defined.

(** C5 (as stated) fails.  The program of 60 attempts refuses the nine
    digits 670123456, to which it prepends nothing, and the twelve digits
    237 670 123 456 typed with spaces, which it leaves in.  The program of
    40 attempts refuses the nine digits 670123456 typed with a tab after
    the third: of the white space inside a number it removes the spaces
    only. *)
Lemma phone_numbers_misjudged :
  Main60.run_input Scenario.endToEnd "abc" (Scenario.typed ["670123456"])
  = (Some (phoneError V60), prompted (Scenario.typed ["670123456"]) (phonePrompt V60) []) /\
  Main60.run_input Scenario.endToEnd "abc" (Scenario.typed ["237 670 123 456"])
  = (Some (phoneError V60),
     prompted (Scenario.typed ["237 670 123 456"]) (phonePrompt V60) []) /\
  fst (Main40.promptPhone (Scenario.typed ["237 670 123 456"])) = Ok "237670123456" /\
  fst (Main40.promptPhone
         (Scenario.typed ["670" ++ String (ascii_of_nat 9) "" ++ "123456"]))
  = Err (phoneError V40).
Proof. repeat split; vm_compute; reflexivity. Qed.


(** ** Numerals *)

Lemma isDigit_range c : strconv.isDigit c = true -> 0 <= strconv.digitVal c <= 9.
Proof.
unfold strconv.isDigit, strconv.digitVal. intros H.
apply andb_true_iff in H. destruct H as [H1 H2].
apply Z.leb_le in H1. apply Z.leb_le in H2. lia.
Qed.

Lemma isDigit_not_sign c :
  strconv.isDigit c = true -> (byte_val c =? 45) || (byte_val c =? 43) = false.
Proof.
unfold strconv.isDigit. intros H.
apply andb_true_iff in H. destruct H as [H1 H2].
apply Z.leb_le in H1. apply Z.leb_le in H2.
apply orb_false_iff. split; apply Z.eqb_neq; lia.
Qed.

Lemma valueFrom_ge s : forall n,
  allDigits s = true -> 0 <= n -> n <= valueFrom s n.
Proof.
induction s as [|c s IH]; intros n Hall Hn; simpl in *; [lia|].
apply andb_true_iff in Hall. destruct Hall as [Hc Hs].
pose proof (isDigit_range c Hc).
specialize (IH (n * 10 + strconv.digitVal c) Hs). lia.
Qed.

(** On digits the loop of [ParseUint] computes their value, or reports
    that it is out of range. *)
Lemma parseUintFrom_digits s : forall n,
  allDigits s = true -> 0 <= n <= strconv.maxUint64 ->
  strconv.parseUintFrom s n =
  if valueFrom s n <=? strconv.maxUint64
  then (valueFrom s n, None) else (strconv.maxUint64, Some strconv.ErrRange).
Proof.
induction s as [|c s IH]; intros n Hall Hn;
  cbn [strconv.parseUintFrom valueFrom allDigits] in *.
- destruct (n <=? strconv.maxUint64) eqn:E; [reflexivity|].
  apply Z.leb_gt in E. lia.
- apply andb_true_iff in Hall. destruct Hall as [Hc Hs].
  pose proof (isDigit_range c Hc) as Hd.
  rewrite Hc. cbn [negb].
  assert (Hmax : strconv.maxUint64 = 18446744073709551615) by reflexivity.
  assert (Hcut : strconv.maxUint64 / 10 + 1 = 1844674407370955162) by reflexivity.
  rewrite Hcut.
  pose proof (valueFrom_ge s (n * 10 + strconv.digitVal c) Hs) as Hge.
  destruct (n >=? 1844674407370955162) eqn:E1.
  + apply Z.geb_le in E1.
    destruct (valueFrom s (n * 10 + strconv.digitVal c) <=? strconv.maxUint64) eqn:E;
      [|reflexivity].
    apply Z.leb_le in E. lia.
  + rewrite Z.geb_leb in E1. apply Z.leb_gt in E1.
    destruct (n * 10 + strconv.digitVal c >? strconv.maxUint64) eqn:E2.
    * rewrite Z.gtb_ltb in E2. apply Z.ltb_lt in E2.
      destruct (valueFrom s (n * 10 + strconv.digitVal c) <=? strconv.maxUint64) eqn:E;
        [|reflexivity].
      apply Z.leb_le in E. lia.
    * rewrite Z.gtb_ltb in E2. apply Z.ltb_ge in E2.
      apply IH; [assumption|lia].
Qed.

(** What [ParseUint] reads without error is made of digits. *)
Lemma parseUintFrom_None_digits s : forall n,
  snd (strconv.parseUintFrom s n) = None -> allDigits s = true.
Proof.
induction s as [|c s IH]; intros n H;
  cbn [strconv.parseUintFrom allDigits] in *; [reflexivity|].
destruct (strconv.isDigit c); [|discriminate]. cbn [negb andb] in *.
destruct (n >=? strconv.maxUint64 / 10 + 1); [discriminate|].
destruct (n * 10 + strconv.digitVal c >? strconv.maxUint64); [discriminate|].
now apply (IH _ H).
Qed.

Lemma parseUintFrom_ErrRange s : forall n un,
  strconv.parseUintFrom s n = (un, Some strconv.ErrRange) -> un = strconv.maxUint64.
Proof.
induction s as [|c s IH]; intros n un H; cbn [strconv.parseUintFrom] in H.
- discriminate.
- destruct (negb (strconv.isDigit c)); [discriminate|].
  destruct (n >=? strconv.maxUint64 / 10 + 1); [now inversion H|].
  destruct (n * 10 + strconv.digitVal c >? strconv.maxUint64); [now inversion H|].
  now apply (IH _ _ H).
Qed.

Lemma parseUintFrom_nonneg s : forall n,
  0 <= n -> 0 <= fst (strconv.parseUintFrom s n).
Proof.
induction s as [|c s IH]; intros n Hn; cbn [strconv.parseUintFrom]; [assumption|].
destruct (strconv.isDigit c) eqn:Hc; cbn [negb]; [|simpl; lia].
destruct (n >=? strconv.maxUint64 / 10 + 1); [cbn [fst]; unfold strconv.maxUint64; lia|].
destruct (n * 10 + strconv.digitVal c >? strconv.maxUint64);
  [cbn [fst]; unfold strconv.maxUint64; lia|].
apply IH. pose proof (isDigit_range c Hc). lia.
Qed.

Lemma ParseUint_nonneg s : 0 <= fst (strconv.ParseUint s).
Proof.
unfold strconv.ParseUint. destruct s; [simpl; lia|].
apply parseUintFrom_nonneg. lia.
Qed.

Lemma ParseInt_None s :
  snd (strconv.ParseInt s) = None -> snd (strconv.ParseUint (unsignedPart s)) = None.
Proof.
destruct s as [|c s]; [discriminate|].
unfold strconv.ParseInt, unsignedPart. cbv zeta.
destruct (strconv.ParseUint _) as [un [e|]] eqn:E; [|reflexivity].
destruct e; [discriminate|].
assert (Hun : un = strconv.maxUint64).
{ unfold strconv.ParseUint in E.
  destruct (if (byte_val c =? 45) || (byte_val c =? 43) then s else String c s);
    [discriminate|].
  now apply (parseUintFrom_ErrRange _ _ _ E). }
subst un. destruct (byte_val c =? 45); discriminate.
Qed.

Lemma ParseUint_None_digits s :
  snd (strconv.ParseUint s) = None -> allDigits s = true /\ s <> "".
Proof.
unfold strconv.ParseUint. destruct s as [|c s]; [discriminate|].
intros H. split; [now apply (parseUintFrom_None_digits _ 0)|discriminate].
Qed.

(** What [Atoi] reads without error is a numeral. *)
Lemma Atoi_None_numeral s : snd (strconv.Atoi s) = None -> numeral s = true.
Proof.
unfold strconv.Atoi. intros H. apply ParseInt_None in H.
apply ParseUint_None_digits in H. destruct H as [Hall Hne].
destruct s as [|c s]; [now elim Hne|].
unfold numeral, unsignedPart in *.
destruct ((byte_val c =? 45) || (byte_val c =? 43)); [|assumption].
rewrite Hall. destruct s; [now elim Hne|reflexivity].
Qed.

(** The value that [Atoi] returns without error fits an [int]. *)
Lemma Atoi_None_range s n :
  strconv.Atoi s = (n, None) -> strconv.minInt <= n <= strconv.maxInt.
Proof.
unfold strconv.Atoi, strconv.ParseInt.
destruct s as [|c s]; [discriminate|]. cbv zeta.
pose proof (ParseUint_nonneg
              (if (byte_val c =? 45) || (byte_val c =? 43) then s else String c s)) as Hun.
destruct (strconv.ParseUint _) as [un e]. cbn [fst] in Hun.
assert (Hcut : 2 ^ (strconv.intSize - 1) = 9223372036854775808) by reflexivity.
assert (Hmin : strconv.minInt = -9223372036854775808) by reflexivity.
assert (Hmax : strconv.maxInt = 9223372036854775807) by reflexivity.
rewrite Hcut, Hmin, Hmax.
assert (Hgoal :
  (if negb (byte_val c =? 45) && (un >=? 9223372036854775808)
   then (9223372036854775808 - 1, Some strconv.ErrRange)
   else if (byte_val c =? 45) && (un >? 9223372036854775808)
        then (- 9223372036854775808, Some strconv.ErrRange)
        else (if byte_val c =? 45 then - un else un, None)) = (n, None) ->
  -9223372036854775808 <= n <= 9223372036854775807).
{ destruct (byte_val c =? 45); cbn [negb andb].
  - destruct (un >? 9223372036854775808) eqn:E; [discriminate|].
    rewrite Z.gtb_ltb in E. apply Z.ltb_ge in E.
    intros H. inversion H. lia.
  - destruct (un >=? 9223372036854775808) eqn:E; [discriminate|].
    rewrite Z.geb_leb in E. apply Z.leb_gt in E.
    intros H. inversion H. lia. }
destruct e as [[]|]; [discriminate|exact Hgoal|exact Hgoal].
Qed.

Lemma digit_byte d : 0 <= d <= 9 -> byte_val (ascii_of_N (Z.to_N (48 + d))) = 48 + d.
Proof.
intros Hd. unfold byte_val. rewrite N_ascii_embedding; lia.
Qed.

Lemma digit_isDigit d :
  0 <= d <= 9 -> strconv.isDigit (ascii_of_N (Z.to_N (48 + d))) = true.
Proof.
intros Hd. unfold strconv.isDigit. rewrite digit_byte by assumption.
apply andb_true_iff. split; apply Z.leb_le; lia.
Qed.

Lemma digit_digitVal d :
  0 <= d <= 9 -> strconv.digitVal (ascii_of_N (Z.to_N (48 + d))) = d.
Proof.
intros Hd. unfold strconv.digitVal. rewrite digit_byte by assumption. lia.
Qed.

Lemma append_cons_assoc (s : string) c t : s ++ String c t = (s ++ String c "") ++ t.
Proof. induction s as [|a s IH]; simpl; [reflexivity|now rewrite IH]. Qed.

Lemma digitsFrom_acc fuel : forall n acc,
  strconv.digitsFrom fuel n acc = strconv.digitsFrom fuel n "" ++ acc.
Proof.
induction fuel as [|fuel IH]; intros n acc; cbn [strconv.digitsFrom]; [reflexivity|].
destruct (n <? 10); [reflexivity|].
rewrite (IH _ (String _ acc)), (IH _ (String _ "")).
now rewrite <- append_cons_assoc.
Qed.

Lemma allDigits_app s t : allDigits (s ++ t) = allDigits s && allDigits t.
Proof.
induction s as [|c s IH]; simpl; [reflexivity|].
now rewrite IH, andb_assoc.
Qed.

Lemma valueFrom_app s t : forall n, valueFrom (s ++ t) n = valueFrom t (valueFrom s n).
Proof. induction s as [|c s IH]; intros n; simpl; [reflexivity|apply IH]. Qed.

Lemma digitsFrom_allDigits fuel : forall n,
  0 <= n -> allDigits (strconv.digitsFrom fuel n "") = true.
Proof.
induction fuel as [|fuel IH]; intros n Hn; cbn [strconv.digitsFrom].
- cbn [allDigits]. rewrite digit_isDigit; [reflexivity|].
  pose proof (Z.mod_pos_bound n 10). lia.
- destruct (n <? 10).
  + cbn [allDigits]. rewrite digit_isDigit; [reflexivity|].
    pose proof (Z.mod_pos_bound n 10). lia.
  + rewrite digitsFrom_acc, allDigits_app, IH.
    * cbn [allDigits andb]. rewrite digit_isDigit; [reflexivity|].
      pose proof (Z.mod_pos_bound n 10). lia.
    * apply Z.div_pos; lia.
Qed.

(** The digits printed for a number denote it, given fuel for them all. *)
Lemma digitsFrom_value fuel : forall n,
  0 <= n < 2 ^ (Z.of_nat fuel + 1) ->
  valueFrom (strconv.digitsFrom fuel n "") 0 = n.
Proof.
induction fuel as [|fuel IH]; intros n Hn; cbn [strconv.digitsFrom].
- change (2 ^ (Z.of_nat 0 + 1)) with 2 in Hn.
  cbn [valueFrom]. rewrite digit_digitVal.
  + rewrite Z.mod_small; lia.
  + pose proof (Z.mod_pos_bound n 10). lia.
- destruct (n <? 10) eqn:E.
  + apply Z.ltb_lt in E. cbn [valueFrom]. rewrite digit_digitVal.
    * rewrite Z.mod_small; lia.
    * pose proof (Z.mod_pos_bound n 10). lia.
  + apply Z.ltb_ge in E.
    rewrite digitsFrom_acc, valueFrom_app, IH.
    * cbn [valueFrom]. rewrite digit_digitVal.
      -- pose proof (Z.div_mod n 10). lia.
      -- pose proof (Z.mod_pos_bound n 10). lia.
    * split; [apply Z.div_pos; lia|].
      apply Z.div_lt_upper_bound; [lia|].
      replace (Z.of_nat (S fuel) + 1) with (Z.of_nat fuel + 1 + 1) in Hn by lia.
      rewrite Z.pow_add_r in Hn by lia. change (2 ^ 1) with 2 in Hn.
      assert (0 < 2 ^ (Z.of_nat fuel + 1)) by (apply Z.pow_pos_nonneg; lia).
      lia.
Qed.

Lemma Itoa_positive n :
  0 < n ->
  allDigits (strconv.Itoa n) = true /\ valueFrom (strconv.Itoa n) 0 = n /\
  strconv.Itoa n <> "".
Proof.
intros Hn. unfold strconv.Itoa.
destruct (n <? 0) eqn:E; [apply Z.ltb_lt in E; lia|].
split; [apply digitsFrom_allDigits; lia|]. split.
- apply digitsFrom_value. split; [lia|].
  rewrite Z2Nat.id by apply Z.log2_nonneg.
  pose proof (Z.log2_spec n Hn).
  replace (Z.log2 n + 1) with (Z.succ (Z.log2 n)) by lia. lia.
- destruct (Z.to_nat (Z.log2 n)); cbn [strconv.digitsFrom]; [discriminate|].
  destruct (n <? 10); [discriminate|].
  rewrite digitsFrom_acc. destruct (strconv.digitsFrom _ _ ""); discriminate.
Qed.

(** [Atoi] reads a positive integer back from its decimal form when it
    fits an [int], and reports a range error when it does not. *)
Lemma Atoi_Itoa n :
  0 < n ->
  strconv.Atoi (strconv.Itoa n) =
  if n <=? strconv.maxInt then (n, None) else (strconv.maxInt, Some strconv.ErrRange).
Proof.
intros Hn. destruct (Itoa_positive n Hn) as [Hall [Hval Hne]].
unfold strconv.Atoi, strconv.ParseInt.
destruct (strconv.Itoa n) as [|c s] eqn:E; [now elim Hne|].
cbv zeta. pose proof Hall as Hall'. cbn [allDigits] in Hall'.
apply andb_true_iff in Hall'. destruct Hall' as [Hc _].
pose proof (isDigit_not_sign c Hc) as Hsign. rewrite Hsign.
apply orb_false_iff in Hsign. destruct Hsign as [Hminus _]. rewrite Hminus.
unfold strconv.ParseUint.
rewrite (parseUintFrom_digits _ 0 Hall) by (unfold strconv.maxUint64; lia).
rewrite Hval.
assert (Hcut : 2 ^ (strconv.intSize - 1) = 9223372036854775808) by reflexivity.
assert (Hmax : strconv.maxInt = 9223372036854775807) by reflexivity.
assert (Hmax64 : strconv.maxUint64 = 18446744073709551615) by reflexivity.
rewrite Hcut, Hmax, Hmax64. cbn [negb andb].
destruct (n <=? 18446744073709551615) eqn:E1.
- destruct (n >=? 9223372036854775808) eqn:E2.
  + rewrite Z.geb_leb in E2. apply Z.leb_le in E2.
    destruct (n <=? 9223372036854775807) eqn:E3; [apply Z.leb_le in E3; lia|reflexivity].
  + rewrite Z.geb_leb in E2. apply Z.leb_gt in E2.
    destruct (n <=? 9223372036854775807) eqn:E3; [reflexivity|apply Z.leb_gt in E3; lia].
- apply Z.leb_gt in E1.
  destruct (n <=? 9223372036854775807) eqn:E3; [apply Z.leb_le in E3; lia|reflexivity].
Qed.


(** ** Events only accumulate *)

Lemma grows_ret {A : Type} (a : A) : grows (ret a).
Proof. intros w. exists []. simpl. now rewrite app_nil_r. Qed.

Lemma grows_bind {A B : Type} (m : IO A) (k : A -> IO B) :
  grows m -> (forall a, grows (k a)) -> grows (bind m k).
Proof.
intros Hm Hk w. unfold bind. destruct (Hm w) as [e1 He1].
destruct (m w) as [a w1]. simpl in He1.
destruct (Hk a w1) as [e2 He2]. exists (e1 ++ e2)%list.
now rewrite He2, He1, app_assoc.
Qed.

Lemma grows_emit e : grows (emit e).
Proof. intros w. now exists [e]. Qed.

Lemma grows_ReadString : grows ReadString.
Proof.
intros w. exists []. unfold ReadString.
destruct (stdin w) as [|line rest]; simpl; now rewrite app_nil_r.
Qed.

Lemma grows_client_Do out req : grows (client_Do out req).
Proof. intros w. now exists [EvRequest req]. Qed.

Lemma grows_In {A : Type} (m : IO A) (w : World) (e : Event) :
  grows m -> In e (trace w) -> In e (trace (snd (m w))).
Proof.
intros Hm Hin. destruct (Hm w) as [events H]. rewrite H.
apply in_or_app. now left.
Qed.

Lemma In_bind_later {A B : Type} (m : IO A) (k : A -> IO B) (w : World) (e : Event) :
  (forall a w', In e (trace (snd (k a w')))) -> In e (trace (snd (bind m k w))).
Proof. intros H. unfold bind. destruct (m w) as [a w']. apply H. Qed.

Lemma In_bind_now {A B : Type} (m : IO A) (k : A -> IO B) (w : World) (e : Event) :
  In e (trace (snd (m w))) -> (forall a, grows (k a)) ->
  In e (trace (snd (bind m k w))).
Proof.
intros Hm Hk. unfold bind. destruct (m w) as [a w']. simpl in Hm.
now apply grows_In.
Qed.

Ltac grows_step :=
  match goal with
  | |- grows (ret _) => apply grows_ret
  | |- grows (emit _) => apply grows_emit
  | |- grows (fmt_Print _) => apply grows_emit
  | |- grows (fmt_Println _) => apply grows_emit
  | |- grows (time_Sleep _) => apply grows_emit
  | |- grows ReadString => apply grows_ReadString
  | |- grows (client_Do _ _) => apply grows_client_Do
  | |- grows (bind _ _) => apply grows_bind; [|intros ?]
  | |- grows (match ?x with _ => _ end) => destruct x
  | |- grows (let (_, _) := ?x in _) => destruct x
  | |- grows (if ?b then _ else _) => destruct b
  end.

Ltac grows_auto := repeat grows_step.

Section Growth.
Context {lib : GoLibrary} (out : Outside).

Lemma grows_checkTransactionStatus p baseURL token reference :
  grows (checkTransactionStatus out p baseURL token reference).
Proof.
destruct p; simpl;
  unfold Main60.checkTransactionStatus, Main40.checkTransactionStatus; grows_auto.
Qed.

Lemma grows_poller {T : Type} (check : IO (result T)) settled line pause timedOut :
  grows check ->
  forall remaining attempt, grows (poller check settled line pause timedOut remaining attempt).
Proof.
intros Hcheck. induction remaining as [|remaining IH]; intros attempt; simpl.
- apply grows_ret.
- apply grows_bind; [assumption|]. intros [status|e]; [|apply grows_ret].
  destruct (settled status); [apply grows_ret|]. grows_auto. apply IH.
Qed.

Lemma grows_pollTransactionStatus p baseURL token reference :
  grows (pollTransactionStatus out p baseURL token reference).
Proof.
intros w. rewrite pollTransactionStatus_pollLoop, pollLoop_poller.
revert w. apply grows_poller, grows_checkTransactionStatus.
Qed.

Lemma grows_pollTransactionStatus60 baseURL token reference :
  grows (Main60.pollTransactionStatus out baseURL token reference).
Proof. exact (grows_pollTransactionStatus V60 baseURL token reference). Qed.

Lemma grows_pollTransactionStatus40 baseURL token reference :
  grows (Main40.pollTransactionStatus out baseURL token reference).
Proof. exact (grows_pollTransactionStatus V40 baseURL token reference). Qed.

Lemma grows_displayFinalStatus60 status : grows (Main60.displayFinalStatus status).
Proof. unfold Main60.displayFinalStatus. grows_auto. Qed.

Lemma grows_displayFinalStatus40 status : grows (Main40.displayFinalStatus status).
Proof. unfold Main40.displayFinalStatus. grows_auto. Qed.

End Growth.


(** ** The amount *)

Lemma promptAmount_line {lib : GoLibrary} w line rest :
  stdin w = (line, None) :: rest ->
  strings.TrimSpace line <> "" ->
  Main40.promptAmount w =
  (let (amount, err) := strconv.Atoi (strings.TrimSpace line) in
   if negb (isNil err) || (amount <=? 0) then Err (amountError V40) else Ok amount,
   prompted w (amountPrompt V40) rest).
Proof.
intros Hin Hline. unfold Main40.promptAmount, bind.
rewrite (promptUser40_line _ w line rest Hin Hline).
destruct (strconv.Atoi (strings.TrimSpace line)) as [amount err].
destruct (negb (isNil err) || (amount <=? 0)); reflexivity.
Qed.

Section Amount.
Context {lib : GoLibrary} (out : Outside).
Variables token phone : string.

Lemma run_amount40_line w line rest :
  stdin w = (line, None) :: rest ->
  strings.TrimSpace line <> "" ->
  Main40.run_amount out token phone w =
  (let (amount, err) := strconv.Atoi (strings.TrimSpace line) in
   if negb (isNil err) || (amount <=? 0) then ret (Some (amountError V40))
   else Main40.run_description out token phone amount)
    (prompted w (amountPrompt V40) rest).
Proof.
intros Hin Hline. unfold Main40.run_amount, bind.
rewrite (promptAmount_line w line rest Hin Hline).
destruct (strconv.Atoi (strings.TrimSpace line)) as [amount err].
destruct (negb (isNil err) || (amount <=? 0)); reflexivity.
Qed.

Lemma run_amount60_line w line rest :
  stdin w = (line, None) :: rest ->
  Main60.run_amount out token phone w =
  (let (amount, err) := strconv.Atoi (strings.TrimSpace line) in
   if negb (isNil err) || (amount <=? 0) then ret (Some (amountError V60))
   else Main60.run_description out token phone (strings.TrimSpace line))
    (prompted w (amountPrompt V60) rest).
Proof.
intros Hin. unfold Main60.run_amount, bind.
rewrite (promptUser60_line _ w line rest Hin).
destruct (strconv.Atoi (strings.TrimSpace line)) as [amount err].
destruct (negb (isNil err) || (amount <=? 0)); reflexivity.
Qed.

Lemma run_description40_line amount w line rest :
  stdin w = (line, None) :: rest ->
  strings.TrimSpace line <> "" ->
  Main40.run_description out token phone amount w =
  Main40.run_payment out token phone amount (strings.TrimSpace line)
    (prompted w "Enter description: " rest).
Proof.
intros Hin Hline. unfold Main40.run_description, bind.
now rewrite (promptUser40_line _ w line rest Hin Hline).
Qed.

Lemma run_description60_line amountStr w line rest :
  stdin w = (line, None) :: rest ->
  Main60.run_description out token phone amountStr w =
  Main60.run_payment out token phone amountStr (strings.TrimSpace line)
    (prompted w " Enter description: " rest).
Proof.
intros Hin. unfold Main60.run_description, bind.
now rewrite (promptUser60_line _ w line rest Hin).
Qed.

Lemma collectPayment40_world baseURL collect w :
  http_NewRequest_error "POST" (baseURL ++ "/collect/") = None ->
  snd (Main40.collectPayment out baseURL token collect w) =
  advance w 1
    [EvRequest (collectRequest baseURL token
                  (fst (json_Marshal (Main40.CollectRequest.fields collect))))].
Proof.
intros Hnew. unfold Main40.collectPayment, http_NewRequest.
destruct (json_Marshal _) as [reqBody e]. rewrite Hnew.
unfold bind, client_Do, advance, collectRequest, Header_Set; simpl.
rewrite Nat.add_1_r.
destruct (roundTrip out (requests w)) as [e'|code body readErr]; [reflexivity|].
destruct (negb (code =? 200)); [reflexivity|].
now destruct (json_Unmarshal_CollectResponse body) as [resp [e'|]].
Qed.

Lemma collectPayment60_world baseURL collect w :
  http_NewRequest_error "POST" (baseURL ++ "/collect/") = None ->
  snd (json_Marshal (Main60.CollectRequest.fields collect)) = None ->
  snd (Main60.collectPayment out baseURL token collect w) =
  advance w 1
    [EvRequest (collectRequest baseURL token
                  (fst (json_Marshal (Main60.CollectRequest.fields collect))))].
Proof.
intros Hnew Hmarshal. unfold Main60.collectPayment, http_NewRequest.
destruct (json_Marshal _) as [jsonData e]. cbn [snd] in Hmarshal. subst e. rewrite Hnew.
unfold bind, client_Do, advance, collectRequest, Header_Set; simpl.
rewrite Nat.add_1_r.
destruct (roundTrip out (requests w)) as [e'|code body [e'|]]; try reflexivity.
destruct (negb (code =? StatusOK)).
- now destruct (json_Unmarshal_ErrorResponse body).
- now destruct (json_Unmarshal_CollectResponse body) as [resp [e'|]].
Qed.

(** The collection request carries the encoding of the struct that
    [run] builds. *)
Lemma run_payment40_sends amount description w :
  http_NewRequest_error "POST" (Main40.apiBaseURL out ++ "/collect/") = None ->
  In (EvRequest
        (collectRequest (Main40.apiBaseURL out) token
           (fst (json_Marshal
                   (Main40.CollectRequest.fields
                      (Main40.CollectRequest.mk amount "XAF" phone description
                         ("TXN-" ++ strconv.Itoa (unixNow out))))))))
     (trace (snd (Main40.run_payment out token phone amount description w))).
Proof.
intros Hnew. unfold Main40.run_payment. cbv zeta.
apply In_bind_later. intros _ w1. apply In_bind_now.
- rewrite (collectPayment40_world _ _ _ Hnew). unfold advance. cbn [trace].
  apply in_or_app. right. now left.
- intros [reference|e]; grows_auto.
  + apply grows_pollTransactionStatus40.
  + apply grows_displayFinalStatus40.
Qed.

Lemma run_payment60_sends amountStr description w :
  http_NewRequest_error "POST" (Main60.apiBaseURL out ++ "/collect/") = None ->
  snd (json_Marshal
         (Main60.CollectRequest.fields
            (Main60.CollectRequest.mk amountStr "XAF" phone description
               ("TXN-" ++ strconv.Itoa (unixNow out))))) = None ->
  In (EvRequest
        (collectRequest (Main60.apiBaseURL out) token
           (fst (json_Marshal
                   (Main60.CollectRequest.fields
                      (Main60.CollectRequest.mk amountStr "XAF" phone description
                         ("TXN-" ++ strconv.Itoa (unixNow out))))))))
     (trace (snd (Main60.run_payment out token phone amountStr description w))).
Proof.
intros Hnew Hmarshal. unfold Main60.run_payment. cbv zeta.
apply In_bind_later. intros _ w1. apply In_bind_now.
- rewrite (collectPayment60_world _ _ _ Hnew Hmarshal). unfold advance. cbn [trace].
  apply in_or_app. right. now left.
- intros [reference|e]; grows_auto.
  + apply grows_pollTransactionStatus60.
  + apply grows_displayFinalStatus60.
Qed.

End Amount.

(** C6 (as amended).  The amount is refused when the line is no numeral,
    when [Atoi] reports an error and when it is zero or negative.  It is
    accepted for every positive integer up to the largest [int], 2^63 - 1:
    a numeral beyond that is refused, for [Atoi] reports it out of range.
    An accepted amount goes unchanged into the collection request, as the
    number read in the program of 40 attempts and as the text typed in the
    program of 60 attempts. *)
Theorem amount_validation {lib : GoLibrary} (out : Outside) (token phone : string)
    (w : World) (line : string) (rest : list (string * option error)) :
  stdin w = (line, None) :: rest ->
  strings.TrimSpace line <> "" ->
  (forall n,
     strconv.Atoi (strings.TrimSpace line) = (n, None) -> 0 < n ->
     Main40.promptAmount w = (Ok n, prompted w (amountPrompt V40) rest) /\
     Main40.run_amount out token phone w
     = Main40.run_description out token phone n (prompted w (amountPrompt V40) rest) /\
     Main60.run_amount out token phone w
     = Main60.run_description out token phone (strings.TrimSpace line)
         (prompted w (amountPrompt V60) rest) /\
     n <= strconv.maxInt /\ numeral (strings.TrimSpace line) = true) /\
  (numeral (strings.TrimSpace line) = false \/
   snd (strconv.Atoi (strings.TrimSpace line)) <> None \/
   fst (strconv.Atoi (strings.TrimSpace line)) <= 0 ->
   Main40.promptAmount w = (Err (amountError V40), prompted w (amountPrompt V40) rest) /\
   Main40.run_amount out token phone w
   = (Some (amountError V40), prompted w (amountPrompt V40) rest) /\
   Main60.run_amount out token phone w
   = (Some (amountError V60), prompted w (amountPrompt V60) rest)) /\
  (forall n, 0 < n -> strings.TrimSpace line = strconv.Itoa n ->
     (n <= strconv.maxInt ->
      Main40.promptAmount w = (Ok n, prompted w (amountPrompt V40) rest) /\
      Main60.run_amount out token phone w
      = Main60.run_description out token phone (strconv.Itoa n)
          (prompted w (amountPrompt V60) rest)) /\
     (strconv.maxInt < n ->
      strconv.Atoi (strings.TrimSpace line) = (strconv.maxInt, Some strconv.ErrRange) /\
      Main40.promptAmount w = (Err (amountError V40), prompted w (amountPrompt V40) rest) /\
      Main60.run_amount out token phone w
      = (Some (amountError V60), prompted w (amountPrompt V60) rest))) /\
  (forall n dline rest' w',
     stdin w' = (dline, None) :: rest' -> strings.TrimSpace dline <> "" ->
     Main40.run_description out token phone n w'
     = Main40.run_payment out token phone n (strings.TrimSpace dline)
         (prompted w' "Enter description: " rest')) /\
  (forall amountStr dline rest' w',
     stdin w' = (dline, None) :: rest' ->
     Main60.run_description out token phone amountStr w'
     = Main60.run_payment out token phone amountStr (strings.TrimSpace dline)
         (prompted w' " Enter description: " rest')) /\
  (forall n description w',
     http_NewRequest_error "POST" (Main40.apiBaseURL out ++ "/collect/") = None ->
     In (EvRequest
           (collectRequest (Main40.apiBaseURL out) token
              (fst (json_Marshal
                      (Main40.CollectRequest.fields
                         (Main40.CollectRequest.mk n "XAF" phone description
                            ("TXN-" ++ strconv.Itoa (unixNow out))))))))
        (trace (snd (Main40.run_payment out token phone n description w')))) /\
  (forall amountStr description w',
     http_NewRequest_error "POST" (Main60.apiBaseURL out ++ "/collect/") = None ->
     snd (json_Marshal
            (Main60.CollectRequest.fields
               (Main60.CollectRequest.mk amountStr "XAF" phone description
                  ("TXN-" ++ strconv.Itoa (unixNow out))))) = None ->
     In (EvRequest
           (collectRequest (Main60.apiBaseURL out) token
              (fst (json_Marshal
                      (Main60.CollectRequest.fields
                         (Main60.CollectRequest.mk amountStr "XAF" phone description
                            ("TXN-" ++ strconv.Itoa (unixNow out))))))))
        (trace (snd (Main60.run_payment out token phone amountStr description w')))).
Proof.
intros Hin Hline.
split; [|split; [|split; [|split; [|split; [|split]]]]].
- intros n Hatoi Hpos.
  assert (Hle : (n <=? 0) = false) by (apply Z.leb_gt; lia).
  rewrite (promptAmount_line w line rest Hin Hline),
          (run_amount40_line out token phone w line rest Hin Hline),
          (run_amount60_line out token phone w line rest Hin).
  rewrite Hatoi. cbn [isNil negb orb]. rewrite Hle.
  repeat split.
  + apply (Atoi_None_range _ _ Hatoi).
  + apply Atoi_None_numeral. now rewrite Hatoi.
- intros Hbad.
  rewrite (promptAmount_line w line rest Hin Hline),
          (run_amount40_line out token phone w line rest Hin Hline),
          (run_amount60_line out token phone w line rest Hin).
  destruct (strconv.Atoi (strings.TrimSpace line)) as [amount [e|]] eqn:Hatoi;
    cbn [isNil negb orb]; [repeat split|].
  assert (Hle : (amount <=? 0) = true).
  { apply Z.leb_le. destruct Hbad as [Hnum|[Herr|Hle]].
    - pose proof (Atoi_None_numeral (strings.TrimSpace line)) as H.
      rewrite Hatoi in H. rewrite (H eq_refl) in Hnum. discriminate.
    - now elim Herr.
    - exact Hle. }
  rewrite Hle. repeat split.
- intros n Hpos Hitoa.
  rewrite (promptAmount_line w line rest Hin Hline),
          (run_amount60_line out token phone w line rest Hin).
  rewrite Hitoa, (Atoi_Itoa n Hpos). split; intros Hn.
  + assert (Hle : (n <=? 0) = false) by (apply Z.leb_gt; lia).
    apply Z.leb_le in Hn. rewrite Hn. cbn [isNil negb orb]. rewrite Hle. now split.
  + apply Z.leb_gt in Hn. rewrite Hn. cbn [isNil negb orb]. now repeat split.
- intros n dline rest' w'. apply run_description40_line.
- intros amountStr dline rest' w'. apply run_description60_line.
- intros n description w'. apply run_payment40_sends.
- intros amountStr description w'. apply run_payment60_sends.
Qed.

Lemma amount_validation_witness :
  Main40.promptAmount (Scenario.typed ["1000"])
  = (Ok 1000, prompted (Scenario.typed ["1000"]) (amountPrompt V40) []) /\
  Main60.run_amount Scenario.endToEnd "abc" "237670123456" (Scenario.typed ["1000"])
  = Main60.run_description Scenario.endToEnd "abc" "237670123456" "1000"
      (prompted (Scenario.typed ["1000"]) (amountPrompt V60) []).
Proof.
destruct (amount_validation Scenario.endToEnd "abc" "237670123456"
            (Scenario.typed ["1000"]) ("1000" ++ LF) []) as [Haccepted _].
- reflexivity.
- vm_compute; discriminate.
- destruct (Haccepted 1000) as (H40 & _ & H60 & _).
  + vm_compute; reflexivity.
  + reflexivity.
  + split; [exact H40|exact H60].
Defined.

(** C6 (as stated) fails at the positive integer 2^63, one more than the
    largest [int]: both programs refuse it. *)
Lemma amount_beyond_int_refused :
  numeral "9223372036854775808" = true /\
  valueFrom "9223372036854775808" 0 = 2 ^ 63 /\
  strconv.Atoi "9223372036854775808" = (2 ^ 63 - 1, Some strconv.ErrRange) /\
  Main40.promptAmount (Scenario.typed ["9223372036854775808"])
  = (Err "amount must be a positive integer",
     prompted (Scenario.typed ["9223372036854775808"]) (amountPrompt V40) []) /\
  Main60.run_amount Scenario.endToEnd "abc" "237670123456"
    (Scenario.typed ["9223372036854775808"])
  = (Some "invalid amount. Must be a positive integer",
     prompted (Scenario.typed ["9223372036854775808"]) (amountPrompt V60) []).
Proof. repeat split; vm_compute; reflexivity. Qed.


(** ** The run as a whole *)
Section Run.
Context {lib : GoLibrary} (out : Outside).

Lemma grows_promptUser60 prompt : grows (Main60.promptUser prompt).
Proof. unfold Main60.promptUser. grows_auto. Qed.

Lemma grows_promptUserFrom fuel : forall prompt, grows (Main40.promptUserFrom fuel prompt).
Proof.
induction fuel as [|fuel IH]; intros prompt; cbn [Main40.promptUserFrom]; grows_auto.
apply IH.
Qed.

Lemma grows_promptUser40 prompt : grows (Main40.promptUser prompt).
Proof. intros w. apply grows_promptUserFrom. Qed.

Lemma grows_run_payment60 token phone amountStr description :
  grows (Main60.run_payment out token phone amountStr description).
Proof.
unfold Main60.run_payment. cbv zeta. grows_step; [grows_auto|].
grows_step.
- unfold Main60.collectPayment. grows_auto.
- grows_auto.
  + apply grows_pollTransactionStatus60.
  + apply grows_displayFinalStatus60.
Qed.

Lemma grows_run_payment40 token phone amount description :
  grows (Main40.run_payment out token phone amount description).
Proof.
unfold Main40.run_payment. cbv zeta. grows_step; [grows_auto|].
grows_step.
- unfold Main40.collectPayment. grows_auto.
- grows_auto.
  + apply grows_pollTransactionStatus40.
  + apply grows_displayFinalStatus40.
Qed.

Lemma grows_run_input60 token : grows (Main60.run_input out token).
Proof.
unfold Main60.run_input. grows_step; [apply grows_promptUser60|].
grows_auto. unfold Main60.run_amount. grows_step; [apply grows_promptUser60|].
grows_auto. unfold Main60.run_description. grows_step; [apply grows_promptUser60|].
grows_auto. apply grows_run_payment60.
Qed.

Lemma grows_run_input40 token : grows (Main40.run_input out token).
Proof.
unfold Main40.run_input. grows_step.
{ unfold Main40.promptPhone. grows_step; [apply grows_promptUser40|]. grows_auto. }
grows_auto. unfold Main40.run_amount. grows_step.
{ unfold Main40.promptAmount. grows_step; [apply grows_promptUser40|]. grows_auto. }
grows_auto. unfold Main40.run_description. grows_step; [apply grows_promptUser40|].
grows_auto. apply grows_run_payment40.
Qed.

(** Before the user's input is read, [run] fails or goes on to read it. *)
Lemma run60_reaches_input w :
  (exists e w', Main60.run out w = (Some e, w') /\ stdin w' = stdin w) \/
  (exists token w', Main60.run out w = Main60.run_input out token w' /\ stdin w' = stdin w).
Proof.
unfold Main60.run.
destruct (dotenv out) as [[e|]|]; [left; now exists ("failed to load .env file: " ++ e), w| |];
  (destruct (String.eqb (Getenv out "APP_USERNAME") "" ||
             String.eqb (Getenv out "APP_PASSWORD") "");
   [left; eexists; exists w; split; reflexivity|]);
  unfold bind, fmt_Println, fmt_Print, emit; cbv beta iota;
  unfold Main60.getAuthToken, http_NewRequest;
  destruct (json_Marshal _) as [jsonData [e|]];
  try (left; eexists; eexists; split; reflexivity);
  destruct (http_NewRequest_error _ _);
  try (left; eexists; eexists; split; reflexivity);
  unfold bind, client_Do; cbv beta iota;
  destruct (roundTrip out _) as [e|code body [e|]];
  try (left; eexists; eexists; split; reflexivity);
  (destruct (negb (code =? StatusOK));
   [destruct (json_Unmarshal_ErrorResponse body);
    left; eexists; eexists; split; reflexivity|]);
  destruct (json_Unmarshal_TokenResponse body) as [tokenResp [e|]];
  try (left; eexists; eexists; split; reflexivity);
  right; eexists; eexists; split; reflexivity.
Qed.

Lemma run40_reaches_input w :
  (exists e w', Main40.run out w = (Some e, w') /\ stdin w' = stdin w) \/
  (exists token w', Main40.run out w = Main40.run_input out token w' /\ stdin w' = stdin w).
Proof.
unfold Main40.run.
destruct (dotenv out) as [[e|]|]; [left; now exists ("failed to load .env: " ++ e), w| |];
  (destruct (String.eqb (Getenv out "APP_USERNAME") "" ||
             String.eqb (Getenv out "APP_PASSWORD") "");
   [left; eexists; exists w; split; reflexivity|]);
  unfold bind, fmt_Println, fmt_Print, emit; cbv beta iota;
  unfold Main40.getAuthToken, http_NewRequest;
  destruct (json_Marshal _) as [reqBody ?];
  destruct (http_NewRequest_error _ _);
  try (left; eexists; eexists; split; reflexivity);
  unfold bind, client_Do; cbv beta iota;
  destruct (roundTrip out _) as [e|code body readErr];
  try (left; eexists; eexists; split; reflexivity);
  (destruct (negb (code =? 200)); [left; eexists; eexists; split; reflexivity|]);
  destruct (json_Unmarshal_TokenResponse body) as [tokenResp [e|]];
  try (left; eexists; eexists; split; reflexivity);
  right; eexists; eexists; split; reflexivity.
Qed.

End Run.

Section TokenRequest.
Context {lib : GoLibrary} (out : Outside).
Hypothesis loaded : dotenv out = None \/ dotenv out = Some None.
Hypothesis username : Getenv out "APP_USERNAME" <> "".
Hypothesis password : Getenv out "APP_PASSWORD" <> "".

Lemma credentials_set :
  String.eqb (Getenv out "APP_USERNAME") "" || String.eqb (Getenv out "APP_PASSWORD") ""
  = false.
Proof. now rewrite !eqb_false_of_neq. Qed.

Lemma getAuthToken60_world baseURL user pass w :
  http_NewRequest_error "POST" (baseURL ++ "/token/") = None ->
  snd (json_Marshal (Main60.TokenRequest_fields (TokenRequest.mk user pass))) = None ->
  snd (Main60.getAuthToken out baseURL user pass w) =
  advance w 1
    [EvRequest (tokenRequest baseURL
                  (fst (json_Marshal
                          (Main60.TokenRequest_fields (TokenRequest.mk user pass)))))].
Proof.
intros Hnew Hmarshal. unfold Main60.getAuthToken, http_NewRequest.
destruct (json_Marshal _) as [jsonData e]. cbn [snd] in Hmarshal. subst e. rewrite Hnew.
unfold bind, client_Do, advance, tokenRequest, Header_Set; simpl.
rewrite Nat.add_1_r.
destruct (roundTrip out (requests w)) as [e'|code body [e'|]]; try reflexivity.
destruct (negb (code =? StatusOK)).
- now destruct (json_Unmarshal_ErrorResponse body).
- now destruct (json_Unmarshal_TokenResponse body) as [resp [e'|]].
Qed.

Lemma getAuthToken40_world baseURL user pass w :
  http_NewRequest_error "POST" (baseURL ++ "/token/") = None ->
  snd (Main40.getAuthToken out baseURL user pass w) =
  advance w 1
    [EvRequest (tokenRequest baseURL
                  (fst (json_Marshal
                          (Main40.TokenRequest_fields (TokenRequest.mk user pass)))))].
Proof.
intros Hnew. unfold Main40.getAuthToken, http_NewRequest.
destruct (json_Marshal _) as [reqBody e]. rewrite Hnew.
unfold bind, client_Do, advance, tokenRequest, Header_Set; simpl.
rewrite Nat.add_1_r.
destruct (roundTrip out (requests w)) as [e'|code body readErr]; [reflexivity|].
destruct (negb (code =? 200)); [reflexivity|].
now destruct (json_Unmarshal_TokenResponse body) as [resp [e'|]].
Qed.

(** [run] asks for its token at the base URL it selected. *)
Lemma run60_token_request w :
  http_NewRequest_error "POST" (Main60.apiBaseURL out ++ "/token/") = None ->
  snd (json_Marshal
         (Main60.TokenRequest_fields
            (TokenRequest.mk (Getenv out "APP_USERNAME") (Getenv out "APP_PASSWORD"))))
  = None ->
  In (EvRequest
        (tokenRequest (Main60.apiBaseURL out)
           (fst (json_Marshal
                   (Main60.TokenRequest_fields
                      (TokenRequest.mk (Getenv out "APP_USERNAME")
                         (Getenv out "APP_PASSWORD")))))))
     (trace (snd (Main60.run out w))).
Proof.
intros Hnew Hmarshal. unfold Main60.run. rewrite credentials_set.
assert (Hgoal : forall w0,
  In (EvRequest
        (tokenRequest (Main60.apiBaseURL out)
           (fst (json_Marshal
                   (Main60.TokenRequest_fields
                      (TokenRequest.mk (Getenv out "APP_USERNAME")
                         (Getenv out "APP_PASSWORD")))))))
     (trace (snd ((fmt_Println "===  CamPay Mobile Money Payment System ===" ;;
                   fmt_Print ("Environment: " ++ Main60.environment out ++ LF ++ LF) ;;
                   fmt_Println " Authenticating with CamPay..." ;;
                   r <- Main60.getAuthToken out (Main60.apiBaseURL out)
                          (Getenv out "APP_USERNAME") (Getenv out "APP_PASSWORD") ;;
                   match r with
                   | Err e => ret (Some ("authentication failed: " ++ e))
                   | Ok token =>
                       fmt_Println "✓ Authentication successful!" ;;
                       Main60.run_input out token
                   end) w0)))).
{ intros w0. do 3 (apply In_bind_later; intros _ ?). apply In_bind_now.
  - rewrite (getAuthToken60_world _ _ _ _ Hnew Hmarshal). unfold advance. cbn [trace].
    apply in_or_app. right. now left.
  - intros [token|e]; grows_auto. apply grows_run_input60. }
destruct loaded as [H|H]; rewrite H; apply Hgoal.
Qed.

Lemma run40_token_request w :
  http_NewRequest_error "POST" (Main40.apiBaseURL out ++ "/token/") = None ->
  In (EvRequest
        (tokenRequest (Main40.apiBaseURL out)
           (fst (json_Marshal
                   (Main40.TokenRequest_fields
                      (TokenRequest.mk (Getenv out "APP_USERNAME")
                         (Getenv out "APP_PASSWORD")))))))
     (trace (snd (Main40.run out w))).
Proof.
intros Hnew. unfold Main40.run. rewrite credentials_set.
assert (Hgoal : forall w0,
  In (EvRequest
        (tokenRequest (Main40.apiBaseURL out)
           (fst (json_Marshal
                   (Main40.TokenRequest_fields
                      (TokenRequest.mk (Getenv out "APP_USERNAME")
                         (Getenv out "APP_PASSWORD")))))))
     (trace (snd ((fmt_Println "=== CamPay Mobile Money Payment System ===" ;;
                   fmt_Print ("Environment: " ++ Main40.env out ++ LF ++ LF) ;;
                   fmt_Println "🔐 Authenticating..." ;;
                   r <- Main40.getAuthToken out (Main40.apiBaseURL out)
                          (Getenv out "APP_USERNAME") (Getenv out "APP_PASSWORD") ;;
                   match r with
                   | Err e => ret (Some e)
                   | Ok token =>
                       fmt_Println "✓ Authentication successful" ;;
                       Main40.run_input out token
                   end) w0)))).
{ intros w0. do 3 (apply In_bind_later; intros _ ?). apply In_bind_now.
  - rewrite (getAuthToken40_world _ _ _ _ Hnew). unfold advance. cbn [trace].
    apply in_or_app. right. now left.
  - intros [token|e]; grows_auto. apply grows_run_input40. }
destruct loaded as [H|H]; rewrite H; apply Hgoal.
Qed.

End TokenRequest.

Lemma promptPhone_Err {lib : GoLibrary} w line rest e :
  stdin w = (line, None) :: rest ->
  strings.TrimSpace line <> "" ->
  fst (Main40.promptPhone w) = Err e ->
  Main40.promptPhone w = (Err (phoneError V40), prompted w (phonePrompt V40) rest) /\
  e = phoneError V40.
Proof.
intros Hin Hline. rewrite (promptPhone_line w line rest Hin Hline). cbv zeta.
destruct (negb (strings.HasPrefix _ "237") || negb (len _ =? 12)); cbn [fst];
  intros H; inversion H. now split.
Qed.

Lemma promptAmount_Err {lib : GoLibrary} w line rest e :
  stdin w = (line, None) :: rest ->
  strings.TrimSpace line <> "" ->
  fst (Main40.promptAmount w) = Err e ->
  Main40.promptAmount w = (Err (amountError V40), prompted w (amountPrompt V40) rest) /\
  e = amountError V40.
Proof.
intros Hin Hline. rewrite (promptAmount_line w line rest Hin Hline).
destruct (strconv.Atoi (strings.TrimSpace line)) as [amount err].
destruct (negb (isNil err) || (amount <=? 0)); cbn [fst];
  intros H; inversion H. now split.
Qed.

(** C9 (as amended).  The program of 40 attempts prompts again when the
    line is empty or white space, for the phone number and for the amount
    alike; the program of 60 attempts does not, and an empty phone number
    or amount is a validation error that ends its run.  In both programs a
    value that is not empty and fails the validation ends the run with the
    validation error, after that one line has been read: nothing is asked
    again.  (What [run] returns is what these parts of it return:
    [run60_reaches_input], [run40_reaches_input].) *)
Theorem blank_and_malformed_input {lib : GoLibrary} (out : Outside) (token phone : string)
    (w : World) (line : string) (rest : list (string * option error)) :
  stdin w = (line, None) :: rest ->
  (strings.TrimSpace line = "" ->
   (forall prompt,
      Main40.promptUser prompt w = Main40.promptUser prompt (prompted w prompt rest)) /\
   Main40.promptPhone w = Main40.promptPhone (prompted w (phonePrompt V40) rest) /\
   Main40.promptAmount w = Main40.promptAmount (prompted w (amountPrompt V40) rest) /\
   Main60.run_input out token w
   = (Some (phoneError V60), prompted w (phonePrompt V60) rest) /\
   Main60.run_amount out token phone w
   = (Some (amountError V60), prompted w (amountPrompt V60) rest)) /\
  (strings.TrimSpace line <> "" ->
   snd (Main40.promptPhone w) = prompted w (phonePrompt V40) rest /\
   snd (Main40.promptAmount w) = prompted w (amountPrompt V40) rest /\
   (forall e, fst (Main40.promptPhone w) = Err e ->
      e = phoneError V40 /\
      Main40.run_input out token w = (Some e, prompted w (phonePrompt V40) rest)) /\
   (forall e, fst (Main40.promptAmount w) = Err e ->
      e = amountError V40 /\
      Main40.run_amount out token phone w
      = (Some e, prompted w (amountPrompt V40) rest))) /\
  (~ (len (strings.TrimSpace line) = 12 /\
      strings.HasPrefix (strings.TrimSpace line) "237" = true) ->
   Main60.run_input out token w
   = (Some (phoneError V60), prompted w (phonePrompt V60) rest)) /\
  (snd (strconv.Atoi (strings.TrimSpace line)) <> None \/
   fst (strconv.Atoi (strings.TrimSpace line)) <= 0 ->
   Main60.run_amount out token phone w
   = (Some (amountError V60), prompted w (amountPrompt V60) rest)).
Proof.
intros Hin.
assert (H60phone :
  ~ (len (strings.TrimSpace line) = 12 /\
     strings.HasPrefix (strings.TrimSpace line) "237" = true) ->
  Main60.run_input out token w
  = (Some (phoneError V60), prompted w (phonePrompt V60) rest)).
{ intros Hno. rewrite (run_input60_line out token w line rest Hin).
  destruct (strings.HasPrefix (strings.TrimSpace line) "237") eqn:Hp; [|reflexivity].
  destruct (len (strings.TrimSpace line) =? 12) eqn:Hl; [|reflexivity].
  apply Z.eqb_eq in Hl. tauto. }
assert (H60amount :
  snd (strconv.Atoi (strings.TrimSpace line)) <> None \/
  fst (strconv.Atoi (strings.TrimSpace line)) <= 0 ->
  Main60.run_amount out token phone w
  = (Some (amountError V60), prompted w (amountPrompt V60) rest)).
{ intros Hbad. rewrite (run_amount60_line out token phone w line rest Hin).
  destruct (strconv.Atoi (strings.TrimSpace line)) as [amount [e|]]; [reflexivity|].
  cbn [isNil negb orb fst snd] in *.
  destruct Hbad as [Hbad|Hbad]; [now elim Hbad|].
  apply Z.leb_le in Hbad. now rewrite Hbad. }
split; [|split; [|split]]; try assumption.
- intros Hblank. split; [|split; [|split; [|split]]].
  + intros prompt. now apply (promptUser40_blank prompt w line rest).
  + unfold Main40.promptPhone, bind.
    now rewrite (promptUser40_blank _ w line rest Hin Hblank).
  + unfold Main40.promptAmount, bind.
    now rewrite (promptUser40_blank _ w line rest Hin Hblank).
  + apply H60phone. rewrite Hblank. intros [Hlen _]. discriminate.
  + apply H60amount. rewrite Hblank. left. discriminate.
- intros Hline. split; [|split; [|split]].
  + now rewrite (promptPhone_line w line rest Hin Hline).
  + now rewrite (promptAmount_line w line rest Hin Hline).
  + intros e He.
    destruct (promptPhone_Err w line rest e Hin Hline He) as [Hphone He'].
    subst e. split; [reflexivity|now apply run_input40_rejected].
  + intros e He.
    destruct (promptAmount_Err w line rest e Hin Hline He) as [Hamount He'].
    subst e. split; [reflexivity|].
    unfold Main40.run_amount, bind. now rewrite Hamount.
Qed.

Lemma blank_and_malformed_input_witness :
  Main40.promptPhone (Scenario.typed [""; "237670123456"])
  = Main40.promptPhone
      (prompted (Scenario.typed [""; "237670123456"]) (phonePrompt V40)
         [("237670123456" ++ LF, None)]) /\
  Main60.run_input Scenario.endToEnd "abc" (Scenario.typed [""; "237670123456"])
  = (Some (phoneError V60),
     prompted (Scenario.typed [""; "237670123456"]) (phonePrompt V60)
       [("237670123456" ++ LF, None)]).
Proof.
destruct (blank_and_malformed_input Scenario.endToEnd "abc" "237670123456"
            (Scenario.typed [""; "237670123456"]) ("" ++ LF)
            [("237670123456" ++ LF, None)]) as [Hblank _].
- reflexivity.
- destruct Hblank as (_ & H40 & _ & H60 & _); [reflexivity|].
  split; [exact H40|exact H60].
Defined.

(** C9 (as stated) fails for the program of 60 attempts: given an empty
    line for the phone number, or for the amount, it does not prompt again
    but ends the run with the validation error, the later lines unread. *)
Lemma first_program_does_not_prompt_again :
  Main60.run Scenario.endToEnd (Scenario.typed [""; "237670123456"; "1000"; "groceries"])
  = (Some "invalid phone number format. Must start with 237 and be 12 digits total",
     snd (Main60.run Scenario.endToEnd
            (Scenario.typed [""; "237670123456"; "1000"; "groceries"]))) /\
  stdin (snd (Main60.run Scenario.endToEnd
                (Scenario.typed [""; "237670123456"; "1000"; "groceries"])))
  = stdin (Scenario.typed ["237670123456"; "1000"; "groceries"]) /\
  fst (Main60.run Scenario.endToEnd (Scenario.typed ["237670123456"; ""; "1000"; "groceries"]))
  = Some "invalid amount. Must be a positive integer" /\
  stdin (snd (Main60.run Scenario.endToEnd
                (Scenario.typed ["237670123456"; ""; "1000"; "groceries"])))
  = stdin (Scenario.typed ["1000"; "groceries"]).
Proof. repeat split; vm_compute; reflexivity. Qed.

(** ** The base URL *)

(** C10.  The production URL is selected exactly when ENVIRONMENT is the
    string PROD, letter for letter; any other value selects the demo URL;
    an empty value stands for DEV, which selects the demo URL.  [run] sends
    its token request to the URL selected. *)
Theorem base_url_selection {lib : GoLibrary} (out : Outside) :
  (Main60.apiBaseURL out = "https://www.campay.net/api" <->
   Getenv out "ENVIRONMENT" = "PROD") /\
  (Main40.apiBaseURL out = "https://www.campay.net/api" <->
   Getenv out "ENVIRONMENT" = "PROD") /\
  (Getenv out "ENVIRONMENT" <> "PROD" ->
   Main60.apiBaseURL out = "https://demo.campay.net/api" /\
   Main40.apiBaseURL out = "https://demo.campay.net/api") /\
  (Getenv out "ENVIRONMENT" = "" ->
   Main60.environment out = "DEV" /\ Main40.env out = "DEV") /\
  (Getenv out "ENVIRONMENT" <> "" ->
   Main60.environment out = Getenv out "ENVIRONMENT" /\
   Main40.env out = Getenv out "ENVIRONMENT") /\
  (dotenv out = None \/ dotenv out = Some None ->
   Getenv out "APP_USERNAME" <> "" -> Getenv out "APP_PASSWORD" <> "" ->
   forall w,
     (http_NewRequest_error "POST" (Main60.apiBaseURL out ++ "/token/") = None ->
      snd (json_Marshal
             (Main60.TokenRequest_fields
                (TokenRequest.mk (Getenv out "APP_USERNAME") (Getenv out "APP_PASSWORD"))))
      = None ->
      In (EvRequest
            (tokenRequest (Main60.apiBaseURL out)
               (fst (json_Marshal
                       (Main60.TokenRequest_fields
                          (TokenRequest.mk (Getenv out "APP_USERNAME")
                             (Getenv out "APP_PASSWORD")))))))
         (trace (snd (Main60.run out w)))) /\
     (http_NewRequest_error "POST" (Main40.apiBaseURL out ++ "/token/") = None ->
      In (EvRequest
            (tokenRequest (Main40.apiBaseURL out)
               (fst (json_Marshal
                       (Main40.TokenRequest_fields
                          (TokenRequest.mk (Getenv out "APP_USERNAME")
                             (Getenv out "APP_PASSWORD")))))))
         (trace (snd (Main40.run out w))))).
Proof.
assert (Hsel : forall v : string,
  ((if String.eqb (if String.eqb v "" then "DEV" else v) "PROD"
    then "https://www.campay.net/api" else "https://demo.campay.net/api")
   = "https://www.campay.net/api" <-> v = "PROD") /\
  (v <> "PROD" ->
   (if String.eqb (if String.eqb v "" then "DEV" else v) "PROD"
    then "https://www.campay.net/api" else "https://demo.campay.net/api")
   = "https://demo.campay.net/api")).
{ intros v. destruct (String.eqb v "") eqn:Hempty.
  - apply String.eqb_eq in Hempty. subst v. cbn. split; [split; discriminate|reflexivity].
  - destruct (String.eqb v "PROD") eqn:Hprod.
    + apply String.eqb_eq in Hprod. split; [tauto|contradiction].
    + apply String.eqb_neq in Hprod. split; [split; [discriminate|contradiction]|reflexivity]. }
unfold Main60.apiBaseURL, Main40.apiBaseURL, Main60.environment, Main40.env. cbv beta zeta.
destruct (Hsel (Getenv out "ENVIRONMENT")) as [Hiff Hdemo].
split; [exact Hiff|]. split; [exact Hiff|]. split; [intros H; split; now apply Hdemo|].
split; [intros H; rewrite H; split; reflexivity|].
split; [intros H; rewrite (eqb_false_of_neq _ _ H); split; reflexivity|].
intros Hloaded Huser Hpass w. split.
- apply (run60_token_request out Hloaded Huser Hpass).
- apply (run40_token_request out Hloaded Huser Hpass).
Qed.

Lemma base_url_selection_witness :
  Main40.apiBaseURL (mkOutside (Scenario.settings "PROD") None (fun _ => DoError "down") 0)
  = "https://www.campay.net/api" /\
  Main40.apiBaseURL (mkOutside (Scenario.settings "prod") None (fun _ => DoError "down") 0)
  = "https://demo.campay.net/api" /\
  Main60.apiBaseURL
    (mkOutside (Scenario.settings "production") None (fun _ => DoError "down") 0)
  = "https://demo.campay.net/api" /\
  Main60.apiBaseURL (mkOutside (Scenario.settings "") None (fun _ => DoError "down") 0)
  = "https://demo.campay.net/api".
Proof.
split; [|split; [|split]].
- apply (base_url_selection
           (mkOutside (Scenario.settings "PROD") None (fun _ => DoError "down") 0)).
  reflexivity.
- apply (base_url_selection
           (mkOutside (Scenario.settings "prod") None (fun _ => DoError "down") 0)).
  discriminate.
- apply (base_url_selection
           (mkOutside (Scenario.settings "production") None (fun _ => DoError "down") 0)).
  discriminate.
- apply (base_url_selection
           (mkOutside (Scenario.settings "") None (fun _ => DoError "down") 0)).
  discriminate.
Defined.


(** * Further properties *)

(** ** Events, requests and pauses *)

Lemma sent_app e1 e2 : sent (e1 ++ e2) = (sent e1 ++ sent e2)%list.
Proof.
induction e1 as [|[s|req|d] e1 IH]; cbn [app sent]; [reflexivity| | |]; now rewrite ?IH.
Qed.

Lemma slept_app e1 e2 : slept (e1 ++ e2) = slept e1 + slept e2.
Proof.
induction e1 as [|[s|req|d] e1 IH]; cbn [app slept]; [reflexivity| | |]; rewrite ?IH; lia.
Qed.

Lemma added_app w w' events : trace w' = (trace w ++ events)%list -> added w w' = events.
Proof.
intros H. unfold added. rewrite H.
rewrite skipn_app, skipn_all, Nat.sub_diag. reflexivity.
Qed.

Lemma adds_ret {A : Type} (a : A) post : post a [] -> adds (ret a) post.
Proof.
intros H w. exists []. cbn [ret fst snd sent List.length].
now rewrite app_nil_r, Nat.add_0_r.
Qed.

Lemma adds_weaken {A : Type} (m : IO A) (P Q : A -> list Event -> Prop) :
  adds m P -> (forall a events, P a events -> Q a events) -> adds m Q.
Proof.
intros Hm HPQ w. destruct (Hm w) as (events & Htrace & Hreq & HP).
exists events. auto.
Qed.

(** The events of [m] come before those of what follows it. *)
Lemma adds_bind {A B : Type} (m : IO A) (k : A -> IO B) post :
  adds m (fun a e1 => adds (k a) (fun b e2 => post b (e1 ++ e2)%list)) ->
  adds (bind m k) post.
Proof.
intros Hm w. unfold bind.
destruct (Hm w) as (e1 & Htrace1 & Hreq1 & Hk).
destruct (m w) as [a w1]. cbn [fst snd] in *.
destruct (Hk w1) as (e2 & Htrace2 & Hreq2 & Hpost).
exists (e1 ++ e2)%list. split; [|split].
- now rewrite Htrace2, Htrace1, app_assoc.
- rewrite Hreq2, Hreq1, sent_app, length_app. lia.
- exact Hpost.
Qed.

Lemma adds_print s (post : unit -> list Event -> Prop) :
  post tt [EvStdout s] -> adds (fmt_Print s) post.
Proof.
intros H w. exists [EvStdout s]. cbn. now rewrite Nat.add_0_r.
Qed.

Lemma adds_println s (post : unit -> list Event -> Prop) :
  post tt [EvStdout (s ++ LF)] -> adds (fmt_Println s) post.
Proof.
intros H w. exists [EvStdout (s ++ LF)]. cbn. now rewrite Nat.add_0_r.
Qed.

Lemma adds_sleep d (post : unit -> list Event -> Prop) :
  post tt [EvSleep d] -> adds (time_Sleep d) post.
Proof.
intros H w. exists [EvSleep d]. cbn. now rewrite Nat.add_0_r.
Qed.

Lemma adds_ReadString (post : string * option error -> list Event -> Prop) :
  (forall r, post r []) -> adds ReadString post.
Proof.
intros H w. exists []. unfold ReadString.
destruct (stdin w) as [|line rest]; cbn [fst snd trace requests sent List.length];
  now rewrite app_nil_r, Nat.add_0_r.
Qed.

Lemma adds_client_Do out req (post : HttpOutcome -> list Event -> Prop) :
  (forall r, post r [EvRequest req]) -> adds (client_Do out req) post.
Proof.
intros H w. exists [EvRequest req]. unfold client_Do.
cbn [fst snd trace requests sent List.length]. now rewrite Nat.add_1_r.
Qed.

Ltac adds_step :=
  match goal with
  | |- adds (ret _) _ => apply adds_ret
  | |- adds (fmt_Print _) _ => apply adds_print
  | |- adds (fmt_Println _) _ => apply adds_println
  | |- adds (time_Sleep _) _ => apply adds_sleep
  | |- adds ReadString _ => apply adds_ReadString; intros ?
  | |- adds (client_Do _ _) _ => apply adds_client_Do; intros ?
  | |- adds (bind _ _) _ => apply adds_bind
  | |- adds (match ?x with _ => _ end) _ => destruct x
  | |- adds (let (_, _) := ?x in _) _ => destruct x
  | |- adds (if ?b then _ else _) _ => destruct b
  end.

Ltac adds_auto := repeat (adds_step; cbv beta).

(** Actions that agree step by step agree. *)
Lemma bind_congr {A B : Type} (m m' : IO A) (k k' : A -> IO B) (w : World) :
  m w = m' w -> (forall a w1, k a w1 = k' a w1) -> bind m k w = bind m' k' w.
Proof.
intros Hm Hk. unfold bind. rewrite Hm. destruct (m' w) as [a w1]. apply Hk.
Qed.

(** ** The configuration *)

Section Configuration.
Context {lib : GoLibrary} (out : Outside).

Lemma grows_getAuthToken60 baseURL username password :
  grows (Main60.getAuthToken out baseURL username password).
Proof. unfold Main60.getAuthToken, http_NewRequest. grows_auto. Qed.

Lemma grows_getAuthToken40 baseURL username password :
  grows (Main40.getAuthToken out baseURL username password).
Proof. unfold Main40.getAuthToken, http_NewRequest. grows_auto. Qed.

Lemma run60_configured w :
  dotenv out = None \/ dotenv out = Some None ->
  Getenv out "APP_USERNAME" <> "" -> Getenv out "APP_PASSWORD" <> "" ->
  exists events,
    trace (snd (Main60.run out w))
    = (trace w ++ banner V60 (Main60.environment out) ++ events)%list.
Proof.
intros Hloaded Huser Hpass.
assert (Hrest : grows (r <- Main60.getAuthToken out (Main60.apiBaseURL out)
                              (Getenv out "APP_USERNAME") (Getenv out "APP_PASSWORD") ;;
                       match r with
                       | Err e => ret (Some ("authentication failed: " ++ e))
                       | Ok token =>
                           fmt_Println "✓ Authentication successful!" ;;
                           Main60.run_input out token
                       end)).
{ apply grows_bind; [apply grows_getAuthToken60|].
  intros [token|e]; grows_auto. apply grows_run_input60. }
unfold Main60.run. rewrite (credentials_set out Huser Hpass).
destruct (Hrest (mkWorld (stdin w) (requests w)
                   (trace w ++ banner V60 (Main60.environment out)))) as [events Hevents].
exists events. cbn [trace] in Hevents. rewrite <- app_assoc in Hevents.
rewrite <- Hevents.
destruct Hloaded as [H|H]; rewrite H;
  unfold bind at 1 2 3, fmt_Println, fmt_Print, emit; cbn [fst snd stdin requests trace banner];
  repeat rewrite <- app_assoc; reflexivity.
Qed.

Lemma run40_configured w :
  dotenv out = None \/ dotenv out = Some None ->
  Getenv out "APP_USERNAME" <> "" -> Getenv out "APP_PASSWORD" <> "" ->
  exists events,
    trace (snd (Main40.run out w))
    = (trace w ++ banner V40 (Main40.env out) ++ events)%list.
Proof.
intros Hloaded Huser Hpass.
assert (Hrest : grows (r <- Main40.getAuthToken out (Main40.apiBaseURL out)
                              (Getenv out "APP_USERNAME") (Getenv out "APP_PASSWORD") ;;
                       match r with
                       | Err e => ret (Some e)
                       | Ok token =>
                           fmt_Println "✓ Authentication successful" ;;
                           Main40.run_input out token
                       end)).
{ apply grows_bind; [apply grows_getAuthToken40|].
  intros [token|e]; grows_auto. apply grows_run_input40. }
unfold Main40.run. rewrite (credentials_set out Huser Hpass).
destruct (Hrest (mkWorld (stdin w) (requests w)
                   (trace w ++ banner V40 (Main40.env out)))) as [events Hevents].
exists events. cbn [trace] in Hevents. rewrite <- app_assoc in Hevents.
rewrite <- Hevents.
destruct Hloaded as [H|H]; rewrite H;
  unfold bind at 1 2 3, fmt_Println, fmt_Print, emit; cbn [fst snd stdin requests trace banner];
  repeat rewrite <- app_assoc; reflexivity.
Qed.

End Configuration.

(** X1.  [run] checks its configuration before it does anything else.  When
    the [.env] file exists and cannot be loaded, and otherwise when
    APP_USERNAME or APP_PASSWORD is empty, it returns the error of that
    and leaves the world as it was: nothing is printed, sent or read.
    With a configuration that passes, the first thing it does is print its
    three opening lines. *)
Theorem run_stops_on_bad_configuration {lib : GoLibrary} (out : Outside) (p : Program)
    (w : World) :
  (forall e, dotenv out = Some (Some e) -> run out p w = (Some (dotenvError p e), w)) /\
  (dotenv out = None \/ dotenv out = Some None ->
   Getenv out "APP_USERNAME" = "" \/ Getenv out "APP_PASSWORD" = "" ->
   run out p w = (Some (credentialsError p), w)) /\
  (dotenv out = None \/ dotenv out = Some None ->
   Getenv out "APP_USERNAME" <> "" -> Getenv out "APP_PASSWORD" <> "" ->
   exists events,
     trace (snd (run out p w))
     = (trace w ++ banner p (environmentName out p) ++ events)%list).
Proof.
split; [|split].
- intros e He. destruct p; cbn [run dotenvError];
    unfold Main60.run, Main40.run; now rewrite He.
- intros Hloaded Hempty.
  assert (Hcheck : String.eqb (Getenv out "APP_USERNAME") ""
                   || String.eqb (Getenv out "APP_PASSWORD") "" = true).
  { destruct Hempty as [H|H]; rewrite H; [reflexivity|apply orb_true_r]. }
  destruct p; cbn [run credentialsError]; unfold Main60.run, Main40.run;
    rewrite Hcheck; destruct Hloaded as [H|H]; rewrite H; reflexivity.
- intros Hloaded Huser Hpass. destruct p; cbn [run environmentName].
  + now apply run60_configured.
  + now apply run40_configured.
Qed.

Lemma run_stops_on_bad_configuration_witness :
  run (mkOutside (fun _ => "") (Some None) (fun _ => DoError "down") 0) V60
    (Scenario.typed ["237670123456"])
  = (Some "APP_USERNAME and APP_PASSWORD must be set in .env file",
     Scenario.typed ["237670123456"]) /\
  run (mkOutside (Scenario.settings "") (Some (Some "unexpected character"))
         (fun _ => DoError "down") 0) V40 (Scenario.typed [])
  = (Some "failed to load .env: unexpected character", Scenario.typed []).
Proof.
split.
- apply (run_stops_on_bad_configuration
           (mkOutside (fun _ => "") (Some None) (fun _ => DoError "down") 0) V60
           (Scenario.typed ["237670123456"])).
  + right; reflexivity.
  + left; reflexivity.
- apply (run_stops_on_bad_configuration
           (mkOutside (Scenario.settings "") (Some (Some "unexpected character"))
              (fun _ => DoError "down") 0) V40 (Scenario.typed [])).
  reflexivity.
Defined.

(** ** The three calls to the gateway *)

Section Calls.
Context {lib : GoLibrary} (out : Outside).
Variable w : World.

Lemma getAuthToken60_unbuilt baseURL username password e :
  http_NewRequest_error "POST" (baseURL ++ "/token/") = Some e ->
  snd (json_Marshal (Main60.TokenRequest_fields (TokenRequest.mk username password))) = None ->
  Main60.getAuthToken out baseURL username password w
  = (Err ("failed to create request: " ++ e), w).
Proof.
intros Hnew Hmarshal. unfold Main60.getAuthToken, http_NewRequest.
destruct (json_Marshal _) as [jsonData err]. cbn [snd] in Hmarshal. subst err.
now rewrite Hnew.
Qed.

Lemma getAuthToken40_unbuilt baseURL username password e :
  http_NewRequest_error "POST" (baseURL ++ "/token/") = Some e ->
  Main40.getAuthToken out baseURL username password w = (Err e, w).
Proof.
intros Hnew. unfold Main40.getAuthToken, http_NewRequest.
destruct (json_Marshal _) as [reqBody err]. now rewrite Hnew.
Qed.

Lemma collectPayment60_unbuilt baseURL token collect e :
  http_NewRequest_error "POST" (baseURL ++ "/collect/") = Some e ->
  snd (json_Marshal (Main60.CollectRequest.fields collect)) = None ->
  Main60.collectPayment out baseURL token collect w
  = (Err ("failed to create request: " ++ e), w).
Proof.
intros Hnew Hmarshal. unfold Main60.collectPayment, http_NewRequest.
destruct (json_Marshal _) as [jsonData err]. cbn [snd] in Hmarshal. subst err.
now rewrite Hnew.
Qed.

Lemma collectPayment40_unbuilt baseURL token collect e :
  http_NewRequest_error "POST" (baseURL ++ "/collect/") = Some e ->
  Main40.collectPayment out baseURL token collect w = (Err e, w).
Proof.
intros Hnew. unfold Main40.collectPayment, http_NewRequest.
destruct (json_Marshal _) as [reqBody err]. now rewrite Hnew.
Qed.

Lemma checkTransactionStatus_unbuilt p baseURL token reference e :
  http_NewRequest_error "GET" (statusURL baseURL reference) = Some e ->
  checkTransactionStatus out p baseURL token reference w
  = (Err (wrapped p "failed to create request: " e), w).
Proof.
intros Hnew. destruct p; cbn [checkTransactionStatus wrapped];
  unfold Main60.checkTransactionStatus, Main40.checkTransactionStatus, http_NewRequest;
  fold (statusURL baseURL reference); now rewrite Hnew.
Qed.

Lemma pollTransactionStatus_unbuilt p baseURL token reference e :
  http_NewRequest_error "GET" (statusURL baseURL reference) = Some e ->
  pollTransactionStatus out p baseURL token reference w
  = (Err (wrapped p "failed to create request: " e), w).
Proof.
intros Hnew.
pose proof (checkTransactionStatus_unbuilt p baseURL token reference e Hnew) as Hcheck.
destruct p; cbn [pollTransactionStatus checkTransactionStatus] in *;
  unfold Main60.pollTransactionStatus, Main40.pollTransactionStatus;
  [change (Z.to_nat Main60.maxAttempts) with 60%nat
  |change (Z.to_nat Main40.maxAttempts) with 40%nat];
  cbn [Main60.pollLoop Main40.pollLoop]; unfold bind at 1; now rewrite Hcheck.
Qed.

(** The world after the one round trip of a call. *)
Lemma getAuthToken60_sends baseURL username password :
  http_NewRequest_error "POST" (baseURL ++ "/token/") = None ->
  snd (json_Marshal (Main60.TokenRequest_fields (TokenRequest.mk username password))) = None ->
  snd (Main60.getAuthToken out baseURL username password w)
  = advance w 1
      [EvRequest
         (tokenRequest baseURL
            (fst (json_Marshal
                    (Main60.TokenRequest_fields (TokenRequest.mk username password)))))].
Proof.
intros Hnew Hmarshal. unfold Main60.getAuthToken, http_NewRequest.
destruct (json_Marshal _) as [jsonData e]. cbn [snd] in Hmarshal. subst e. rewrite Hnew.
unfold bind, client_Do, advance, tokenRequest, Header_Set; simpl.
rewrite Nat.add_1_r.
destruct (roundTrip out (requests w)) as [e'|code body [e'|]]; try reflexivity.
destruct (negb (code =? StatusOK)).
- now destruct (json_Unmarshal_ErrorResponse body).
- now destruct (json_Unmarshal_TokenResponse body) as [resp [e'|]].
Qed.

Lemma getAuthToken40_sends baseURL username password :
  http_NewRequest_error "POST" (baseURL ++ "/token/") = None ->
  snd (Main40.getAuthToken out baseURL username password w)
  = advance w 1
      [EvRequest
         (tokenRequest baseURL
            (fst (json_Marshal
                    (Main40.TokenRequest_fields (TokenRequest.mk username password)))))].
Proof.
intros Hnew. unfold Main40.getAuthToken, http_NewRequest.
destruct (json_Marshal _) as [reqBody e]. rewrite Hnew.
unfold bind, client_Do, advance, tokenRequest, Header_Set; simpl.
rewrite Nat.add_1_r.
destruct (roundTrip out (requests w)) as [e'|code body readErr]; [reflexivity|].
destruct (negb (code =? 200)); [reflexivity|].
now destruct (json_Unmarshal_TokenResponse body) as [resp [e'|]].
Qed.

Lemma checkTransactionStatus_sends p baseURL token reference :
  http_NewRequest_error "GET" (statusURL baseURL reference) = None ->
  snd (checkTransactionStatus out p baseURL token reference w)
  = advance w 1 [EvRequest (statusRequest baseURL token reference)].
Proof.
intros Hnew. now rewrite (check_spec out baseURL token reference p w Hnew).
Qed.

Section Answered.
Variable answer : HttpOutcome.
Hypothesis answered : roundTrip out (requests w) = answer.

(** What each call makes of the outcome of its round trip. *)
Lemma getAuthToken60_outcome baseURL username password :
  http_NewRequest_error "POST" (baseURL ++ "/token/") = None ->
  snd (json_Marshal (Main60.TokenRequest_fields (TokenRequest.mk username password))) = None ->
  fst (Main60.getAuthToken out baseURL username password w)
  = match answer with
    | DoError e => Err ("failed to send request: " ++ e)
    | Response _ _ (Some e) => Err ("failed to read response: " ++ e)
    | Response StatusCode body None =>
        if negb (StatusCode =? 200) then
          Err ("authentication failed (status " ++ strconv.Itoa StatusCode ++ "): "
               ++ ErrorResponse.Code (fst (json_Unmarshal_ErrorResponse body)) ++ " - "
               ++ ErrorResponse.Message (fst (json_Unmarshal_ErrorResponse body)))
        else
          match json_Unmarshal_TokenResponse body with
          | (_, Some e) => Err ("failed to parse token response: " ++ e)
          | (tokenResp, None) => Ok (TokenResponse.Token tokenResp)
          end
    end.
Proof.
intros Hnew Hmarshal. unfold Main60.getAuthToken, http_NewRequest.
destruct (json_Marshal _) as [jsonData e]. cbn [snd] in Hmarshal. subst e. rewrite Hnew.
unfold bind, client_Do. rewrite answered. unfold StatusOK.
destruct answer as [e'|code body [e'|]]; try reflexivity.
destruct (negb (code =? 200)).
- now destruct (json_Unmarshal_ErrorResponse body).
- now destruct (json_Unmarshal_TokenResponse body) as [resp [e'|]].
Qed.

Lemma getAuthToken40_outcome baseURL username password :
  http_NewRequest_error "POST" (baseURL ++ "/token/") = None ->
  fst (Main40.getAuthToken out baseURL username password w)
  = match answer with
    | DoError e => Err e
    | Response StatusCode body _ =>
        if negb (StatusCode =? 200) then Err (Main40.formatAPIError StatusCode body)
        else
          match json_Unmarshal_TokenResponse body with
          | (_, Some e) => Err e
          | (tokenResp, None) => Ok (TokenResponse.Token tokenResp)
          end
    end.
Proof.
intros Hnew. unfold Main40.getAuthToken, http_NewRequest.
destruct (json_Marshal _) as [reqBody e]. rewrite Hnew.
unfold bind, client_Do. rewrite answered.
destruct answer as [e'|code body readErr]; try reflexivity.
destruct (negb (code =? 200)); [reflexivity|].
now destruct (json_Unmarshal_TokenResponse body) as [resp [e'|]].
Qed.

Lemma collectPayment60_outcome baseURL token collect :
  http_NewRequest_error "POST" (baseURL ++ "/collect/") = None ->
  snd (json_Marshal (Main60.CollectRequest.fields collect)) = None ->
  fst (Main60.collectPayment out baseURL token collect w)
  = match answer with
    | DoError e => Err ("failed to send request: " ++ e)
    | Response _ _ (Some e) => Err ("failed to read response: " ++ e)
    | Response StatusCode body None =>
        if negb (StatusCode =? 200) then
          Err ("collect request failed (status " ++ strconv.Itoa StatusCode ++ "): "
               ++ ErrorResponse.Code (fst (json_Unmarshal_ErrorResponse body)) ++ " - "
               ++ ErrorResponse.Message (fst (json_Unmarshal_ErrorResponse body)))
        else
          match json_Unmarshal_CollectResponse body with
          | (_, Some e) => Err ("failed to parse collect response: " ++ e)
          | (collectResp, None) => Ok (CollectResponse.Reference collectResp)
          end
    end.
Proof.
intros Hnew Hmarshal. unfold Main60.collectPayment, http_NewRequest.
destruct (json_Marshal _) as [jsonData e]. cbn [snd] in Hmarshal. subst e. rewrite Hnew.
unfold bind, client_Do. rewrite answered. unfold StatusOK.
destruct answer as [e'|code body [e'|]]; try reflexivity.
destruct (negb (code =? 200)).
- now destruct (json_Unmarshal_ErrorResponse body).
- now destruct (json_Unmarshal_CollectResponse body) as [resp [e'|]].
Qed.

Lemma collectPayment40_outcome baseURL token collect :
  http_NewRequest_error "POST" (baseURL ++ "/collect/") = None ->
  fst (Main40.collectPayment out baseURL token collect w)
  = match answer with
    | DoError e => Err e
    | Response StatusCode body _ =>
        if negb (StatusCode =? 200) then Err (Main40.formatAPIError StatusCode body)
        else
          match json_Unmarshal_CollectResponse body with
          | (_, Some e) => Err e
          | (collectResp, None) => Ok (CollectResponse.Reference collectResp)
          end
    end.
Proof.
intros Hnew. unfold Main40.collectPayment, http_NewRequest.
destruct (json_Marshal _) as [reqBody e]. rewrite Hnew.
unfold bind, client_Do. rewrite answered.
destruct answer as [e'|code body readErr]; try reflexivity.
destruct (negb (code =? 200)); [reflexivity|].
now destruct (json_Unmarshal_CollectResponse body) as [resp [e'|]].
Qed.

Lemma checkTransactionStatus60_outcome baseURL token reference :
  http_NewRequest_error "GET" (statusURL baseURL reference) = None ->
  fst (Main60.checkTransactionStatus out baseURL token reference w)
  = match answer with
    | DoError e => Err ("failed to send request: " ++ e)
    | Response _ _ (Some e) => Err ("failed to read response: " ++ e)
    | Response StatusCode body None =>
        if negb (StatusCode =? 200) then
          Err ("status check failed (status " ++ strconv.Itoa StatusCode ++ "): "
               ++ ErrorResponse.Code (fst (json_Unmarshal_ErrorResponse body)) ++ " - "
               ++ ErrorResponse.Message (fst (json_Unmarshal_ErrorResponse body)))
        else
          match json_Unmarshal_TransactionResponse body with
          | (_, Some e) => Err ("failed to parse transaction response: " ++ e)
          | (txnResp, None) => Ok txnResp
          end
    end.
Proof.
intros Hnew. unfold Main60.checkTransactionStatus, http_NewRequest.
fold (statusURL baseURL reference). rewrite Hnew.
unfold bind, client_Do. rewrite answered. unfold StatusOK.
destruct answer as [e'|code body [e'|]]; try reflexivity.
destruct (negb (code =? 200)).
- now destruct (json_Unmarshal_ErrorResponse body).
- now destruct (json_Unmarshal_TransactionResponse body) as [resp [e'|]].
Qed.

Lemma checkTransactionStatus40_outcome baseURL token reference :
  http_NewRequest_error "GET" (statusURL baseURL reference) = None ->
  fst (Main40.checkTransactionStatus out baseURL token reference w)
  = match answer with
    | DoError e => Err e
    | Response StatusCode body _ =>
        if negb (StatusCode =? 200) then Err (Main40.formatAPIError StatusCode body)
        else
          match json_Unmarshal_TransactionResponse body with
          | (_, Some e) => Err e
          | (txn, None) => Ok txn
          end
    end.
Proof.
intros Hnew. unfold Main40.checkTransactionStatus, http_NewRequest.
fold (statusURL baseURL reference). rewrite Hnew.
unfold bind, client_Do. rewrite answered.
destruct answer as [e'|code body readErr]; try reflexivity.
destruct (negb (code =? 200)); [reflexivity|].
now destruct (json_Unmarshal_TransactionResponse body) as [resp [e'|]].
Qed.

End Answered.
End Calls.

(** X2.  A call whose request [http.NewRequest] refuses to build returns
    the error of that (the first program behind "failed to create request: ",
    the second as it is) and leaves the world as it was: no round trip is
    made.  So does the polling when the URL of the status check cannot be
    built: it ends at once, without a request, a line or a pause. *)
Theorem unbuilt_request_is_not_sent {lib : GoLibrary} (out : Outside) (w : World)
    (e : error) :
  (forall baseURL username password,
     http_NewRequest_error "POST" (baseURL ++ "/token/") = Some e ->
     Main40.getAuthToken out baseURL username password w = (Err e, w) /\
     (snd (json_Marshal (Main60.TokenRequest_fields (TokenRequest.mk username password)))
      = None ->
      Main60.getAuthToken out baseURL username password w
      = (Err ("failed to create request: " ++ e), w))) /\
  (forall baseURL token collect40 collect60,
     http_NewRequest_error "POST" (baseURL ++ "/collect/") = Some e ->
     Main40.collectPayment out baseURL token collect40 w = (Err e, w) /\
     (snd (json_Marshal (Main60.CollectRequest.fields collect60)) = None ->
      Main60.collectPayment out baseURL token collect60 w
      = (Err ("failed to create request: " ++ e), w))) /\
  (forall p baseURL token reference,
     http_NewRequest_error "GET" (statusURL baseURL reference) = Some e ->
     checkTransactionStatus out p baseURL token reference w
     = (Err (wrapped p "failed to create request: " e), w) /\
     pollTransactionStatus out p baseURL token reference w
     = (Err (wrapped p "failed to create request: " e), w)).
Proof.
split; [|split].
- intros baseURL username password Hnew. split.
  + now apply getAuthToken40_unbuilt.
  + intros Hmarshal. now apply getAuthToken60_unbuilt.
- intros baseURL token collect40 collect60 Hnew. split.
  + now apply collectPayment40_unbuilt.
  + intros Hmarshal. now apply collectPayment60_unbuilt.
- intros p baseURL token reference Hnew. split.
  + now apply checkTransactionStatus_unbuilt.
  + now apply pollTransactionStatus_unbuilt.
Qed.

Lemma unbuilt_request_is_not_sent_witness :
  pollTransactionStatus Scenario.endToEnd V60 Scenario.demoURL "abc"
    ("r1" ++ LF) Scenario.polling
  = (Err "failed to create request: net/url: invalid control character in URL",
     Scenario.polling).
Proof.
destruct (unbuilt_request_is_not_sent Scenario.endToEnd Scenario.polling
            "net/url: invalid control character in URL") as (_ & _ & Hstatus).
destruct (Hstatus V60 Scenario.demoURL "abc" ("r1" ++ LF)) as [_ Hpoll].
- vm_compute; reflexivity.
- exact Hpoll.
Defined.

(** X3.  When the round trip itself fails ([client.Do] returns an error),
    the call returns that error (the first program behind "failed to send
    request: ", the second as it is), after the one round trip of its
    request. *)
Theorem transport_failure_is_returned {lib : GoLibrary} (out : Outside) (w : World)
    (e : error) :
  roundTrip out (requests w) = DoError e ->
  (forall baseURL username password,
     http_NewRequest_error "POST" (baseURL ++ "/token/") = None ->
     Main40.getAuthToken out baseURL username password w
     = (Err e,
        advance w 1
          [EvRequest
             (tokenRequest baseURL
                (fst (json_Marshal
                        (Main40.TokenRequest_fields (TokenRequest.mk username password)))))]) /\
     (snd (json_Marshal (Main60.TokenRequest_fields (TokenRequest.mk username password)))
      = None ->
      Main60.getAuthToken out baseURL username password w
      = (Err ("failed to send request: " ++ e),
         advance w 1
           [EvRequest
              (tokenRequest baseURL
                 (fst (json_Marshal
                         (Main60.TokenRequest_fields
                            (TokenRequest.mk username password)))))]))) /\
  (forall baseURL token collect40 collect60,
     http_NewRequest_error "POST" (baseURL ++ "/collect/") = None ->
     Main40.collectPayment out baseURL token collect40 w
     = (Err e,
        advance w 1
          [EvRequest
             (collectRequest baseURL token
                (fst (json_Marshal (Main40.CollectRequest.fields collect40))))]) /\
     (snd (json_Marshal (Main60.CollectRequest.fields collect60)) = None ->
      Main60.collectPayment out baseURL token collect60 w
      = (Err ("failed to send request: " ++ e),
         advance w 1
           [EvRequest
              (collectRequest baseURL token
                 (fst (json_Marshal (Main60.CollectRequest.fields collect60))))]))) /\
  (forall p baseURL token reference,
     http_NewRequest_error "GET" (statusURL baseURL reference) = None ->
     checkTransactionStatus out p baseURL token reference w
     = (Err (wrapped p "failed to send request: " e),
        advance w 1 [EvRequest (statusRequest baseURL token reference)])).
Proof.
intros Hdown. split; [|split].
- intros baseURL username password Hnew. split; [|intros Hmarshal]; apply injective_projections.
  + now rewrite (getAuthToken40_outcome out w _ Hdown _ _ _ Hnew).
  + now apply getAuthToken40_sends.
  + now rewrite (getAuthToken60_outcome out w _ Hdown _ _ _ Hnew Hmarshal).
  + now apply getAuthToken60_sends.
- intros baseURL token collect40 collect60 Hnew.
  split; [|intros Hmarshal]; apply injective_projections.
  + now rewrite (collectPayment40_outcome out w _ Hdown _ _ _ Hnew).
  + now apply collectPayment40_world.
  + now rewrite (collectPayment60_outcome out w _ Hdown _ _ _ Hnew Hmarshal).
  + now apply collectPayment60_world.
- intros p baseURL token reference Hnew. apply injective_projections.
  + destruct p; cbn [checkTransactionStatus wrapped].
    * now rewrite (checkTransactionStatus60_outcome out w _ Hdown _ _ _ Hnew).
    * now rewrite (checkTransactionStatus40_outcome out w _ Hdown _ _ _ Hnew).
  + now apply checkTransactionStatus_sends.
Qed.

Lemma transport_failure_is_returned_witness :
  checkTransactionStatus
    (mkOutside (Scenario.settings "") None (fun _ => DoError "connection refused") 0)
    V60 Scenario.demoURL "abc" "r1" Scenario.polling
  = (Err "failed to send request: connection refused",
     advance Scenario.polling 1 [EvRequest (statusRequest Scenario.demoURL "abc" "r1")]).
Proof.
destruct (transport_failure_is_returned
            (mkOutside (Scenario.settings "") None (fun _ => DoError "connection refused") 0)
            Scenario.polling "connection refused") as (_ & _ & Hstatus).
- reflexivity.
- apply (Hstatus V60 Scenario.demoURL "abc" "r1"). vm_compute; reflexivity.
Defined.

(** X4.  The first program looks at the error of reading the body before
    it looks at the status: when the body of a response cannot be read to
    its end, each of its calls returns "failed to read response: " and that
    error, whatever the status code and whatever was read of the body. *)
Theorem first_program_reports_read_errors {lib : GoLibrary} (out : Outside) (w : World)
    (code : Z) (body : string) (e : error) :
  roundTrip out (requests w) = Response code body (Some e) ->
  (forall baseURL username password,
     http_NewRequest_error "POST" (baseURL ++ "/token/") = None ->
     snd (json_Marshal (Main60.TokenRequest_fields (TokenRequest.mk username password)))
     = None ->
     fst (Main60.getAuthToken out baseURL username password w)
     = Err ("failed to read response: " ++ e)) /\
  (forall baseURL token collect,
     http_NewRequest_error "POST" (baseURL ++ "/collect/") = None ->
     snd (json_Marshal (Main60.CollectRequest.fields collect)) = None ->
     fst (Main60.collectPayment out baseURL token collect w)
     = Err ("failed to read response: " ++ e)) /\
  (forall baseURL token reference,
     http_NewRequest_error "GET" (statusURL baseURL reference) = None ->
     fst (Main60.checkTransactionStatus out baseURL token reference w)
     = Err ("failed to read response: " ++ e) /\
     fst (Main60.pollTransactionStatus out baseURL token reference w)
     = Err ("failed to read response: " ++ e)).
Proof.
intros Hanswer. split; [|split].
- intros baseURL username password Hnew Hmarshal.
  now rewrite (getAuthToken60_outcome out w _ Hanswer _ _ _ Hnew Hmarshal).
- intros baseURL token collect Hnew Hmarshal.
  now rewrite (collectPayment60_outcome out w _ Hanswer _ _ _ Hnew Hmarshal).
- intros baseURL token reference Hnew.
  pose proof (checkTransactionStatus60_outcome out w _ Hanswer _ token _ Hnew) as Hcheck.
  cbn iota in Hcheck. split; [exact Hcheck|].
  unfold Main60.pollTransactionStatus.
  change (Z.to_nat Main60.maxAttempts) with 60%nat.
  cbn [Main60.pollLoop]. unfold bind at 1.
  destruct (Main60.checkTransactionStatus out baseURL token reference w) as [r w1].
  cbn [fst] in Hcheck. now rewrite Hcheck.
Qed.

Lemma first_program_reports_read_errors_witness :
  fst (Main60.getAuthToken
         (mkOutside (Scenario.settings "") None
            (fun _ => Response 200 Scenario.tokenBody (Some "unexpected EOF")) 0)
         Scenario.demoURL "merchant" "secret" (Scenario.typed []))
  = Err "failed to read response: unexpected EOF".
Proof.
destruct (first_program_reports_read_errors
            (mkOutside (Scenario.settings "") None
               (fun _ => Response 200 Scenario.tokenBody (Some "unexpected EOF")) 0)
            (Scenario.typed []) 200 Scenario.tokenBody "unexpected EOF") as (Htoken & _).
- reflexivity.
- apply Htoken; vm_compute; reflexivity.
Defined.

(** X5.  A response with status 200 is decoded into the struct of the
    call, and the call returns the token, the reference or the record that
    the decoding left there, as it is (an empty token or reference too), or
    else the error of the decoding (the first program behind "failed to
    parse ... response: ").  The second program does so whether or not the
    body was read to its end. *)
Theorem accepted_response_is_decoded {lib : GoLibrary} (out : Outside) (w : World)
    (body : string) (readErr : option error) :
  roundTrip out (requests w) = Response 200 body readErr ->
  (forall baseURL username password,
     http_NewRequest_error "POST" (baseURL ++ "/token/") = None ->
     fst (Main40.getAuthToken out baseURL username password w)
     = match json_Unmarshal_TokenResponse body with
       | (_, Some e) => Err e
       | (tokenResp, None) => Ok (TokenResponse.Token tokenResp)
       end /\
     (readErr = None ->
      snd (json_Marshal (Main60.TokenRequest_fields (TokenRequest.mk username password)))
      = None ->
      fst (Main60.getAuthToken out baseURL username password w)
      = match json_Unmarshal_TokenResponse body with
        | (_, Some e) => Err ("failed to parse token response: " ++ e)
        | (tokenResp, None) => Ok (TokenResponse.Token tokenResp)
        end)) /\
  (forall baseURL token collect40 collect60,
     http_NewRequest_error "POST" (baseURL ++ "/collect/") = None ->
     fst (Main40.collectPayment out baseURL token collect40 w)
     = match json_Unmarshal_CollectResponse body with
       | (_, Some e) => Err e
       | (collectResp, None) => Ok (CollectResponse.Reference collectResp)
       end /\
     (readErr = None ->
      snd (json_Marshal (Main60.CollectRequest.fields collect60)) = None ->
      fst (Main60.collectPayment out baseURL token collect60 w)
      = match json_Unmarshal_CollectResponse body with
        | (_, Some e) => Err ("failed to parse collect response: " ++ e)
        | (collectResp, None) => Ok (CollectResponse.Reference collectResp)
        end)) /\
  (forall baseURL token reference,
     http_NewRequest_error "GET" (statusURL baseURL reference) = None ->
     fst (Main40.checkTransactionStatus out baseURL token reference w)
     = match json_Unmarshal_TransactionResponse body with
       | (_, Some e) => Err e
       | (txn, None) => Ok txn
       end /\
     (readErr = None ->
      fst (Main60.checkTransactionStatus out baseURL token reference w)
      = match json_Unmarshal_TransactionResponse body with
        | (_, Some e) => Err ("failed to parse transaction response: " ++ e)
        | (txnResp, None) => Ok txnResp
        end)).
Proof.
intros Hanswer. split; [|split].
- intros baseURL username password Hnew. split.
  + now rewrite (getAuthToken40_outcome out w _ Hanswer _ _ _ Hnew).
  + intros Hread Hmarshal. subst readErr.
    now rewrite (getAuthToken60_outcome out w _ Hanswer _ _ _ Hnew Hmarshal).
- intros baseURL token collect40 collect60 Hnew. split.
  + now rewrite (collectPayment40_outcome out w _ Hanswer _ _ _ Hnew).
  + intros Hread Hmarshal. subst readErr.
    now rewrite (collectPayment60_outcome out w _ Hanswer _ _ _ Hnew Hmarshal).
- intros baseURL token reference Hnew. split.
  + now rewrite (checkTransactionStatus40_outcome out w _ Hanswer _ _ _ Hnew).
  + intros Hread. subst readErr.
    now rewrite (checkTransactionStatus60_outcome out w _ Hanswer _ _ _ Hnew).
Qed.

Lemma accepted_response_is_decoded_witness :
  fst (Main40.getAuthToken Scenario.endToEnd Scenario.demoURL "merchant" "secret"
         (Scenario.typed [])) = Ok "abc" /\
  fst (Main60.collectPayment Scenario.endToEnd Scenario.demoURL "abc"
         (Main60.CollectRequest.mk "1000" "XAF" "237670123456" "groceries" "TXN-1700000000")
         (mkWorld [] 1 [])) = Ok "r1".
Proof.
split.
- destruct (accepted_response_is_decoded Scenario.endToEnd (Scenario.typed [])
              Scenario.tokenBody None) as (Htoken & _).
  + reflexivity.
  + destruct (Htoken Scenario.demoURL "merchant" "secret") as [H40 _].
    * vm_compute; reflexivity.
    * rewrite H40. vm_compute; reflexivity.
- destruct (accepted_response_is_decoded Scenario.endToEnd (mkWorld [] 1 [])
              Scenario.collectBody None) as (_ & Hcollect & _).
  + reflexivity.
  + destruct (Hcollect Scenario.demoURL "abc"
                (Main40.CollectRequest.mk 1000 "XAF" "237670123456" "groceries"
                   "TXN-1700000000")
                (Main60.CollectRequest.mk "1000" "XAF" "237670123456" "groceries"
                   "TXN-1700000000")) as [_ H60].
    * vm_compute; reflexivity.
    * rewrite H60; [vm_compute; reflexivity|reflexivity|vm_compute; reflexivity].
Defined.

(** ** The second program and bodies cut short *)

Section ReadErrors.
Context {lib : GoLibrary} (out : Outside).

Lemma getAuthToken40_complete baseURL username password w :
  Main40.getAuthToken out baseURL username password w
  = Main40.getAuthToken (withoutReadErrors out) baseURL username password w.
Proof.
unfold Main40.getAuthToken.
destruct (json_Marshal _) as [reqBody e].
destruct (http_NewRequest "POST" (baseURL ++ "/token/") (Some reqBody)); [|reflexivity].
unfold bind, client_Do. cbn [roundTrip withoutReadErrors].
now destruct (roundTrip out (requests w)).
Qed.

Lemma collectPayment40_complete baseURL token collect w :
  Main40.collectPayment out baseURL token collect w
  = Main40.collectPayment (withoutReadErrors out) baseURL token collect w.
Proof.
unfold Main40.collectPayment.
destruct (json_Marshal _) as [reqBody e].
destruct (http_NewRequest "POST" (baseURL ++ "/collect/") (Some reqBody)); [|reflexivity].
unfold bind, client_Do. cbn [roundTrip withoutReadErrors].
now destruct (roundTrip out (requests w)).
Qed.

Lemma checkTransactionStatus40_complete baseURL token reference w :
  Main40.checkTransactionStatus out baseURL token reference w
  = Main40.checkTransactionStatus (withoutReadErrors out) baseURL token reference w.
Proof.
unfold Main40.checkTransactionStatus.
destruct (http_NewRequest "GET" _ None); [|reflexivity].
unfold bind, client_Do. cbn [roundTrip withoutReadErrors].
now destruct (roundTrip out (requests w)).
Qed.

Lemma pollLoop40_complete baseURL token reference remaining : forall attempt w,
  Main40.pollLoop out remaining attempt baseURL token reference w
  = Main40.pollLoop (withoutReadErrors out) remaining attempt baseURL token reference w.
Proof.
induction remaining as [|remaining IH]; intros attempt w; [reflexivity|].
cbn [Main40.pollLoop]. unfold bind at 1 4.
rewrite <- checkTransactionStatus40_complete.
destruct (Main40.checkTransactionStatus out baseURL token reference w) as [[status|e] w1];
  [|reflexivity].
destruct (String.eqb _ "SUCCESSFUL" || String.eqb _ "FAILED"); [reflexivity|].
unfold bind, fmt_Print, time_Sleep, emit. apply IH.
Qed.

Lemma run_payment40_complete token phone amount description w :
  Main40.run_payment out token phone amount description w
  = Main40.run_payment (withoutReadErrors out) token phone amount description w.
Proof.
unfold Main40.run_payment. cbv zeta.
change (Main40.apiBaseURL (withoutReadErrors out)) with (Main40.apiBaseURL out).
change (unixNow (withoutReadErrors out)) with (unixNow out).
apply bind_congr; [reflexivity|intros [] w1].
apply bind_congr; [apply collectPayment40_complete|intros [reference|e] w2; [|reflexivity]].
apply bind_congr; [reflexivity|intros [] w3].
apply bind_congr; [reflexivity|intros [] w4].
apply bind_congr; [apply pollLoop40_complete|reflexivity].
Qed.

Lemma run_input40_complete token w :
  Main40.run_input out token w = Main40.run_input (withoutReadErrors out) token w.
Proof.
unfold Main40.run_input.
apply bind_congr; [reflexivity|intros [phone|e] w1; [|reflexivity]].
unfold Main40.run_amount.
apply bind_congr; [reflexivity|intros [amount|e] w2; [|reflexivity]].
unfold Main40.run_description.
apply bind_congr; [reflexivity|intros [description|e] w3; [|reflexivity]].
apply run_payment40_complete.
Qed.

Lemma run40_complete w :
  Main40.run out w = Main40.run (withoutReadErrors out) w.
Proof.
unfold Main40.run.
change (dotenv (withoutReadErrors out)) with (dotenv out).
change (Getenv (withoutReadErrors out)) with (Getenv out).
change (Main40.apiBaseURL (withoutReadErrors out)) with (Main40.apiBaseURL out).
change (Main40.env (withoutReadErrors out)) with (Main40.env out).
destruct (dotenv out) as [[e|]|]; [reflexivity| |];
  (destruct (String.eqb (Getenv out "APP_USERNAME") "" ||
             String.eqb (Getenv out "APP_PASSWORD") ""); [reflexivity|]);
  (apply bind_congr; [reflexivity|intros [] w1]);
  (apply bind_congr; [reflexivity|intros [] w2]);
  (apply bind_congr; [reflexivity|intros [] w3]);
  (apply bind_congr; [apply getAuthToken40_complete|intros [token|e] w4; [|reflexivity]]);
  (apply bind_congr; [reflexivity|intros [] w5]);
  apply run_input40_complete.
Qed.

End ReadErrors.

(** X6.  The second program never looks at the error of reading a body:
    each of its calls, its polling and its whole run go the same way as
    when every body is read to its end and holds the bytes that were
    read. *)
Theorem second_program_ignores_read_errors {lib : GoLibrary} (out : Outside) (w : World) :
  (forall baseURL username password,
     Main40.getAuthToken out baseURL username password w
     = Main40.getAuthToken (withoutReadErrors out) baseURL username password w) /\
  (forall baseURL token collect,
     Main40.collectPayment out baseURL token collect w
     = Main40.collectPayment (withoutReadErrors out) baseURL token collect w) /\
  (forall baseURL token reference,
     Main40.checkTransactionStatus out baseURL token reference w
     = Main40.checkTransactionStatus (withoutReadErrors out) baseURL token reference w /\
     Main40.pollTransactionStatus out baseURL token reference w
     = Main40.pollTransactionStatus (withoutReadErrors out) baseURL token reference w) /\
  Main40.run out w = Main40.run (withoutReadErrors out) w /\
  Main40.main out w = Main40.main (withoutReadErrors out) w.
Proof.
split; [|split; [|split; [|split]]].
- intros. apply getAuthToken40_complete.
- intros. apply collectPayment40_complete.
- intros. split; [apply checkTransactionStatus40_complete|apply pollLoop40_complete].
- apply run40_complete.
- unfold Main40.main, bind. now rewrite <- run40_complete.
Qed.

(** ** Asking until there is an answer *)

Lemma repeat_snoc {A : Type} (a : A) (n : nat) : (repeat a n ++ [a])%list = a :: repeat a n.
Proof. induction n as [|n IH]; cbn [repeat app]; [reflexivity|now rewrite IH]. Qed.

Lemma promptUser40_failed {lib : GoLibrary} prompt w text e rest :
  stdin w = (text, Some e) :: rest ->
  Main40.promptUser prompt w = (Err e, prompted w prompt rest).
Proof.
intros Hin. rewrite promptUser_unfold.
unfold bind, fmt_Print, emit, ReadString; simpl. now rewrite Hin.
Qed.

Lemma promptUser40_end {lib : GoLibrary} prompt w :
  stdin w = [] ->
  Main40.promptUser prompt w = (Err EOF, prompted w prompt []).
Proof.
intros Hin. rewrite promptUser_unfold.
unfold bind, fmt_Print, emit, ReadString, prompted; simpl. now rewrite Hin.
Qed.

(** Past the blank lines the second program asks as if they were not there,
    the prompt printed once more for each. *)
Lemma promptUser40_blanks {lib : GoLibrary} prompt blanks : forall w rest,
  Forall blank blanks ->
  stdin w = (readable blanks ++ rest)%list ->
  Main40.promptUser prompt w
  = Main40.promptUser prompt
      (mkWorld rest (requests w)
         (trace w ++ repeat (EvStdout prompt) (List.length blanks))).
Proof.
induction blanks as [|line blanks IH]; intros w rest Hblank Hin.
- cbn [readable map app List.length repeat] in *.
  rewrite app_nil_r, <- Hin. now destruct w.
- inversion Hblank as [|? ? Hline Hrest]; subst.
  change (readable (line :: blanks) ++ rest)%list
    with ((line, None) :: (readable blanks ++ rest))%list in Hin.
  rewrite (promptUser40_blank prompt w line _ Hin Hline).
  rewrite (IH (prompted w prompt (readable blanks ++ rest)%list) rest Hrest eq_refl).
  unfold prompted. cbn [requests trace List.length repeat].
  now rewrite <- app_assoc.
Qed.

(** X7.  Asked a question, the second program passes over the lines that
    are empty once trimmed, however many there are, and prints its prompt
    again for each: the answer is the first line that is not blank,
    trimmed; the prompt has been printed once more than there were blank
    lines; the lines after the answer are left to be read. *)
Theorem promptUser_skips_blank_lines {lib : GoLibrary} (prompt : string) (w : World)
    (blanks : list string) (line : string) (rest : list (string * option error)) :
  Forall blank blanks ->
  ~ blank line ->
  stdin w = (readable blanks ++ (line, None) :: rest)%list ->
  Main40.promptUser prompt w
  = (Ok (strings.TrimSpace line),
     mkWorld rest (requests w)
       (trace w ++ repeat (EvStdout prompt) (S (List.length blanks)))).
Proof.
intros Hblanks Hline Hin.
rewrite (promptUser40_blanks prompt blanks w _ Hblanks Hin).
rewrite (promptUser40_line prompt (mkWorld _ _ _) line rest eq_refl Hline).
unfold prompted. cbn [requests trace].
now rewrite <- app_assoc, repeat_snoc.
Qed.

Lemma promptUser_skips_blank_lines_witness :
  Main40.promptUser "Enter amount (XAF): "
    (Scenario.typed [""; "   "; " 1000 "; "groceries"])
  = (Ok "1000",
     mkWorld [("groceries" ++ LF, None)] 0
       (repeat (EvStdout "Enter amount (XAF): ") 3)).
Proof.
rewrite (promptUser_skips_blank_lines "Enter amount (XAF): "
           (Scenario.typed [""; "   "; " 1000 "; "groceries"])
           ["" ++ LF; "   " ++ LF] (" 1000 " ++ LF) [("groceries" ++ LF, None)]).
- vm_compute; reflexivity.
- repeat (constructor; [vm_compute; reflexivity|]). constructor.
- vm_compute; discriminate.
- reflexivity.
Defined.

(** X8.  When the input ends, or reading it fails, before there is an
    answer, [promptUser] returns the error and what was read with it (a
    last line without its line end) is dropped.  The first program reports
    "failed to read input: " and the error after its one prompt; the
    second returns the error as it is, after a prompt for every blank line
    it passed over and one more. *)
Theorem promptUser_reports_the_end_of_input {lib : GoLibrary} (prompt : string)
    (w : World) (blanks : list string) (text : string) (e : error)
    (rest : list (string * option error)) :
  Forall blank blanks ->
  (stdin w = [] ->
   Main60.promptUser prompt w = (Err "failed to read input: EOF", prompted w prompt [])) /\
  (stdin w = (text, Some e) :: rest ->
   Main60.promptUser prompt w = (Err ("failed to read input: " ++ e), prompted w prompt rest)) /\
  (stdin w = readable blanks ->
   Main40.promptUser prompt w
   = (Err "EOF",
      mkWorld [] (requests w)
        (trace w ++ repeat (EvStdout prompt) (S (List.length blanks))))) /\
  (stdin w = (readable blanks ++ (text, Some e) :: rest)%list ->
   Main40.promptUser prompt w
   = (Err e,
      mkWorld rest (requests w)
        (trace w ++ repeat (EvStdout prompt) (S (List.length blanks))))).
Proof.
intros Hblanks. split; [|split; [|split]].
- intros Hin. unfold Main60.promptUser, bind, fmt_Print, emit, ReadString, prompted; simpl.
  now rewrite Hin.
- intros Hin. unfold Main60.promptUser, bind, fmt_Print, emit, ReadString, prompted; simpl.
  now rewrite Hin.
- intros Hin. rewrite <- (app_nil_r (readable blanks)) in Hin.
  rewrite (promptUser40_blanks prompt blanks w _ Hblanks Hin).
  rewrite (promptUser40_end prompt (mkWorld _ _ _) eq_refl).
  unfold prompted. cbn [requests trace].
  now rewrite <- app_assoc, repeat_snoc.
- intros Hin.
  rewrite (promptUser40_blanks prompt blanks w _ Hblanks Hin).
  rewrite (promptUser40_failed prompt (mkWorld _ _ _) text e rest eq_refl).
  unfold prompted. cbn [requests trace].
  now rewrite <- app_assoc, repeat_snoc.
Qed.

Lemma promptUser_reports_the_end_of_input_witness :
  Main40.promptUser "Enter description: "
    (mkWorld [("" ++ LF, None); ("groceries", Some EOF)] 2 [])
  = (Err "EOF", mkWorld [] 2 (repeat (EvStdout "Enter description: ") 2)) /\
  Main60.promptUser " Enter description: " (mkWorld [("groceries", Some EOF)] 2 [])
  = (Err "failed to read input: EOF",
     mkWorld [] 2 [EvStdout " Enter description: "]).
Proof.
destruct (promptUser_reports_the_end_of_input "Enter description: "
            (mkWorld [("" ++ LF, None); ("groceries", Some EOF)] 2 [])
            ["" ++ LF] "groceries" EOF []) as (_ & _ & _ & H40);
  [repeat (constructor; [vm_compute; reflexivity|]); constructor|].
destruct (promptUser_reports_the_end_of_input " Enter description: "
            (mkWorld [("groceries", Some EOF)] 2 []) [] "groceries" EOF [])
  as (_ & H60 & _); [constructor|].
split; [apply H40|apply H60]; reflexivity.
Defined.

(** What [promptUser] returns as an answer. *)
Lemma adds_promptUser60 {lib : GoLibrary} prompt :
  adds (Main60.promptUser prompt)
    (fun r events => sent events = [] /\ slept events = 0 /\
       forall s, r = Ok s -> exists line, s = strings.TrimSpace line).
Proof.
unfold Main60.promptUser.
apply adds_bind, adds_print. apply adds_bind, adds_ReadString. intros [input [e|]];
  apply adds_ret; (split; [reflexivity|split; [reflexivity|]]); intros s Hs.
- discriminate.
- inversion Hs. now exists input.
Qed.

Lemma adds_promptUserFrom {lib : GoLibrary} fuel : forall prompt,
  adds (Main40.promptUserFrom fuel prompt)
    (fun r events => sent events = [] /\ slept events = 0 /\
       forall s, r = Ok s -> (exists line, s = strings.TrimSpace line) /\ s <> "").
Proof.
induction fuel as [|fuel IH]; intros prompt; cbn [Main40.promptUserFrom];
  apply adds_bind, adds_print; apply adds_bind, adds_ReadString; intros [input [e|]];
  cbv zeta;
  try (apply adds_ret; (split; [reflexivity|split; [reflexivity|]]); intros s Hs;
       discriminate);
  destruct (String.eqb (strings.TrimSpace input) "") eqn:Hempty;
  try (apply adds_ret; (split; [reflexivity|split; [reflexivity|]]); intros s Hs;
       first [discriminate
             |inversion Hs; subst; split;
              [now exists input|now apply String.eqb_neq]]).
exact (IH prompt).
Qed.

Lemma adds_promptUser40 {lib : GoLibrary} prompt :
  adds (Main40.promptUser prompt)
    (fun r events => sent events = [] /\ slept events = 0 /\
       forall s, r = Ok s -> (exists line, s = strings.TrimSpace line) /\ s <> "").
Proof. intros w. apply adds_promptUserFrom. Qed.

(** An answer of the second program is one of the lines that were to be
    read, trimmed, and not empty. *)
Lemma promptUserFrom_answer {lib : GoLibrary} fuel : forall prompt w s,
  fst (Main40.promptUserFrom fuel prompt w) = Ok s ->
  (exists line, In (line, None) (stdin w) /\ s = strings.TrimSpace line) /\ s <> "".
Proof.
induction fuel as [|fuel IH]; intros prompt w s; cbn [Main40.promptUserFrom];
  unfold bind, fmt_Print, emit, ReadString; cbn [stdin requests trace];
  destruct (stdin w) as [|[line [e|]] rest]; cbn [fst snd ret];
  try discriminate;
  destruct (String.eqb (strings.TrimSpace line) "") eqn:Hempty; cbn [fst ret];
  try discriminate;
  try (intros Hs; inversion Hs; subst; split;
       [exists line; split; [now left|reflexivity]|now apply String.eqb_neq]).
intros Hs. destruct (IH prompt _ s Hs) as [(l & Hl & Hs') Hne].
cbn [stdin] in Hl. split; [exists l; split; [now right|exact Hs']|exact Hne].
Qed.

(** X9.  An answer of [promptUser] is a line of the input without the
    white space around it, whatever the input: the first program answers
    with the line it read, trimmed, and the second with one of the lines
    that were to be read, trimmed.  An answer of the second program is
    never empty; the first program returns the empty answer for a blank
    line.  Asking makes no round trip. *)
Theorem promptUser_answers_are_trimmed {lib : GoLibrary} (prompt : string) (w : World) :
  (forall s, fst (Main60.promptUser prompt w) = Ok s ->
     exists line rest, stdin w = (line, None) :: rest /\ s = strings.TrimSpace line) /\
  (forall s, fst (Main40.promptUser prompt w) = Ok s ->
     (exists line, In (line, None) (stdin w) /\ s = strings.TrimSpace line) /\ s <> "") /\
  (forall line rest, stdin w = (line, None) :: rest -> blank line ->
     fst (Main60.promptUser prompt w) = Ok "") /\
  requests (snd (Main60.promptUser prompt w)) = requests w /\
  requests (snd (Main40.promptUser prompt w)) = requests w.
Proof.
destruct (adds_promptUser60 prompt w) as (e60 & _ & Hreq60 & Hsent60 & _ & _).
destruct (adds_promptUser40 prompt w) as (e40 & _ & Hreq40 & Hsent40 & _ & _).
rewrite Hsent60 in Hreq60. rewrite Hsent40 in Hreq40.
cbn [List.length] in *. rewrite Nat.add_0_r in *.
split; [|split; [|split; [|split; assumption]]].
- intros s. unfold Main60.promptUser, bind, fmt_Print, emit, ReadString.
  cbn [stdin requests trace].
  destruct (stdin w) as [|[line [e|]] rest]; cbn [fst snd ret]; try discriminate.
  intros Hs. inversion Hs. now exists line, rest.
- intros s. unfold Main40.promptUser. apply promptUserFrom_answer.
- intros line rest Hin Hblank.
  rewrite (promptUser60_line prompt w line rest Hin). cbn [fst]. now rewrite Hblank.
Qed.

Lemma promptUser_answers_are_trimmed_witness :
  fst (Main40.promptUser "Enter amount (XAF): " (Scenario.typed [""; " 1000 "])) = Ok "1000" /\
  "1000" <> "" /\
  fst (Main60.promptUser " Enter description: " (Scenario.typed ["  "])) = Ok "".
Proof.
destruct (promptUser_answers_are_trimmed "Enter amount (XAF): "
            (Scenario.typed [""; " 1000 "])) as (_ & H40 & _).
destruct (promptUser_answers_are_trimmed " Enter description: "
            (Scenario.typed ["  "])) as (_ & _ & H60 & _).
destruct (H40 "1000") as [_ Hne]; [vm_compute; reflexivity|].
split; [vm_compute; reflexivity|]. split; [exact Hne|].
apply (H60 ("  " ++ LF) []); [reflexivity|vm_compute; reflexivity].
Defined.

(** ** The status as the second program compares it *)

Lemma upperByte_idem c : strings.upperByte (strings.upperByte c) = strings.upperByte c.
Proof. destruct c as [[] [] [] [] [] [] [] []]; reflexivity. Qed.

Lemma upperASCII_idem s : strings.upperASCII (strings.upperASCII s) = strings.upperASCII s.
Proof.
induction s as [|c s IH]; [reflexivity|].
cbn [strings.upperASCII]. now rewrite upperByte_idem, IH.
Qed.

Lemma isASCII_app s t :
  strings.isASCII (s ++ t) = strings.isASCII s && strings.isASCII t.
Proof.
induction s as [|c s IH]; [reflexivity|].
cbn [append strings.isASCII]. now rewrite IH, andb_assoc.
Qed.

Lemma TrimLeft_blank s : strings.trimASCII s = "" -> strings.TrimLeft s = "".
Proof.
unfold strings.trimASCII. intros H.
induction s as [|c s IH]; [reflexivity|].
cbn [strings.TrimLeft] in *. destruct (strings.isSpace c) eqn:Ec; [now apply IH|].
cbn [strings.TrimRight] in H. rewrite Ec in H.
destruct (strings.TrimRight s); discriminate.
Qed.

Lemma TrimRight_spaces s : strings.TrimLeft s = "" -> strings.TrimRight s = "".
Proof.
induction s as [|c s IH]; [reflexivity|].
cbn [strings.TrimLeft strings.TrimRight].
destruct (strings.isSpace c); [|discriminate].
intros H. now rewrite (IH H).
Qed.

Lemma TrimLeft_app_spaces pre s :
  strings.TrimLeft pre = "" -> strings.TrimLeft (pre ++ s) = strings.TrimLeft s.
Proof.
induction pre as [|c pre IH]; [reflexivity|].
cbn [append strings.TrimLeft]. destruct (strings.isSpace c); [exact IH|discriminate].
Qed.

Lemma TrimRight_app_spaces s post :
  strings.TrimRight post = "" -> strings.TrimRight (s ++ post) = strings.TrimRight s.
Proof.
intros Hpost. induction s as [|c s IH]; [exact Hpost|].
cbn [append strings.TrimRight]. now rewrite IH.
Qed.

Lemma trimASCII_app_spaces s post :
  strings.TrimLeft post = "" -> strings.trimASCII (s ++ post) = strings.trimASCII s.
Proof.
intros Hpost. unfold strings.trimASCII.
induction s as [|c s IH].
- cbn [append strings.TrimLeft]. rewrite Hpost. reflexivity.
- cbn [append strings.TrimLeft]. destruct (strings.isSpace c); [exact IH|].
  change (String c (s ++ post)) with (String c s ++ post).
  apply TrimRight_app_spaces. now apply TrimRight_spaces.
Qed.

(** On ASCII text, blank text before and after changes nothing to what is
    left once trimmed. *)
Lemma trimASCII_padded pre s post :
  strings.trimASCII pre = "" -> strings.trimASCII post = "" ->
  strings.trimASCII (pre ++ s ++ post) = strings.trimASCII s.
Proof.
intros Hpre Hpost. unfold strings.trimASCII at 1.
rewrite (TrimLeft_app_spaces pre _ (TrimLeft_blank pre Hpre)).
exact (trimASCII_app_spaces s post (TrimLeft_blank post Hpost)).
Qed.

(** X10.  [normalizeStatus] gives one form to the ASCII statuses that
    differ in the case of their letters or in the white space around them:
    normalizing twice is normalizing once; statuses with the same
    upper-case form normalize alike; blank text before and after a status
    does not change its normal form.  An ASCII status whose upper-case form
    is SUCCESSFUL or FAILED, which the first program takes for final,
    normalizes to that form, so the second program takes it for final
    too. *)
Theorem normalizeStatus_gives_one_form {lib : GoLibrary} (s : string) :
  strings.isASCII s = true ->
  Main40.normalizeStatus (Main40.normalizeStatus s) = Main40.normalizeStatus s /\
  (forall t, strings.isASCII t = true -> strings.ToUpper s = strings.ToUpper t ->
     Main40.normalizeStatus s = Main40.normalizeStatus t) /\
  (forall pre post, strings.isASCII pre = true -> strings.isASCII post = true ->
     blank pre -> blank post ->
     Main40.normalizeStatus (pre ++ s ++ post) = Main40.normalizeStatus s) /\
  (strings.ToUpper s = "SUCCESSFUL" \/ strings.ToUpper s = "FAILED" ->
   Main40.normalizeStatus s = strings.ToUpper s) /\
  (forall status, TransactionResponse.Status status = s ->
     settled V60 status = true -> settled V40 status = true).
Proof.
intros Hs.
assert (Hfinal : strings.ToUpper s = "SUCCESSFUL" \/ strings.ToUpper s = "FAILED" ->
                 Main40.normalizeStatus s = strings.ToUpper s).
{ intros H. rewrite (normalizeStatus_ASCII s Hs), upperASCII_trimASCII.
  rewrite <- (strings.ToUpper_ASCII s Hs).
  destruct H as [H|H]; rewrite H; reflexivity. }
split; [|split; [|split; [|split]]].
- rewrite (normalizeStatus_ASCII s Hs).
  rewrite normalizeStatus_ASCII
    by (rewrite isASCII_upperASCII; now apply isASCII_trimASCII).
  now rewrite <- upperASCII_trimASCII, upperASCII_idem, trimASCII_idem.
- intros t Ht H.
  rewrite (normalizeStatus_ASCII s Hs), (normalizeStatus_ASCII t Ht), !upperASCII_trimASCII.
  now rewrite <- (strings.ToUpper_ASCII s Hs), <- (strings.ToUpper_ASCII t Ht), H.
- intros pre post Hpre Hpost Bpre Bpost. unfold blank in Bpre, Bpost.
  rewrite (strings.TrimSpace_ASCII pre Hpre) in Bpre.
  rewrite (strings.TrimSpace_ASCII post Hpost) in Bpost.
  rewrite (normalizeStatus_ASCII s Hs).
  rewrite normalizeStatus_ASCII by (rewrite !isASCII_app; now rewrite Hpre, Hs, Hpost).
  now rewrite (trimASCII_padded pre s post Bpre Bpost).
- exact Hfinal.
- intros status Hstatus H60. apply settled_true_inv in H60. apply settled_true.
  cbn [compared] in *. rewrite Hstatus in *. rewrite (Hfinal H60). exact H60.
Qed.

Lemma normalizeStatus_gives_one_form_witness :
  Main40.normalizeStatus ("  " ++ "Successful" ++ LF) = Main40.normalizeStatus "Successful" /\
  settled V40 (Scenario.record "failed") = true.
Proof.
split.
- destruct (normalizeStatus_gives_one_form "Successful" eq_refl) as (_ & _ & Hpad & _).
  apply Hpad; vm_compute; reflexivity.
- destruct (normalizeStatus_gives_one_form "failed" eq_refl) as (_ & _ & _ & _ & Hfinal).
  apply Hfinal; vm_compute; reflexivity.
Defined.

(** ** How far the polling can go *)

Section PollerBounds.
Context {T : Type}.
Variables (check : IO (result T)) (settled : T -> bool)
          (line : T -> Z -> string) (pause : time.Duration) (timedOut : error).
Variable req : Request.

(** A check fails without a round trip, or makes the round trip of [req]. *)
Hypothesis check_does :
  forall w,
    (exists e, check w = (Err e, w)) \/
    (exists r, check w = (r, advance w 1 [EvRequest req])).

Lemma poller_bounded remaining : forall attempt w,
  exists events j,
    snd (poller check settled line pause timedOut remaining attempt w)
    = advance w (List.length (sent events)) events /\
    (j <= remaining)%nat /\
    slept events = Z.of_nat j * pause /\
    (sent events = repeat req j \/
     ((j < remaining)%nat /\ sent events = repeat req (S j))).
Proof.
induction remaining as [|remaining IH]; intros attempt w.
- exists [], 0%nat. cbn [poller ret snd sent List.length slept repeat].
  rewrite advance_zero. split; [reflexivity|split; [lia|split; [reflexivity|now left]]].
- cbn [poller]. unfold bind at 1.
  destruct (check_does w) as [[e Hcheck]|[r Hcheck]]; rewrite Hcheck.
  + exists [], 0%nat. cbn [ret snd sent List.length slept repeat].
    rewrite advance_zero. split; [reflexivity|split; [lia|split; [reflexivity|now left]]].
  + destruct r as [status|e].
    * destruct (settled status).
      -- exists [EvRequest req], 0%nat. cbn [ret snd sent List.length slept repeat].
         split; [reflexivity|split; [lia|split; [reflexivity|right; split; [lia|reflexivity]]]].
      -- unfold bind, fmt_Print, time_Sleep, emit. cbn [fst snd stdin requests trace].
         destruct (IH (attempt + 1)
                     (advance w 1 [EvRequest req; EvStdout (line status attempt);
                                   EvSleep pause]))
           as (events & j & Hworld & Hj & Hslept & Hsent).
         exists ([EvRequest req; EvStdout (line status attempt); EvSleep pause] ++ events)%list,
                (S j).
         split; [|split; [lia|split]].
         ++ unfold advance in Hworld |- *. cbn [stdin requests trace] in Hworld |- *.
            repeat rewrite <- app_assoc in Hworld. repeat rewrite <- app_assoc.
            cbn [app] in Hworld |- *. rewrite Hworld.
            cbn [sent List.length]. f_equal. lia.
         ++ cbn [app slept]. rewrite Hslept. lia.
         ++ cbn [app sent repeat].
            destruct Hsent as [Hsent|[Hlt Hsent]]; rewrite Hsent;
              [left; reflexivity|right; split; [lia|reflexivity]].
    * exists [EvRequest req], 0%nat. cbn [ret snd sent List.length slept repeat].
      split; [reflexivity|split; [lia|split; [reflexivity|right; split; [lia|reflexivity]]]].
Qed.

End PollerBounds.

Lemma checkTransactionStatus_does {lib : GoLibrary} (out : Outside) (p : Program)
    (baseURL token reference : string) (w : World) :
  (exists e, checkTransactionStatus out p baseURL token reference w = (Err e, w)) \/
  (exists r, checkTransactionStatus out p baseURL token reference w
             = (r, advance w 1 [EvRequest (statusRequest baseURL token reference)])).
Proof.
destruct (http_NewRequest_error "GET" (statusURL baseURL reference)) as [e|] eqn:Hnew.
- left. destruct (check_unbuilt out baseURL token reference p e Hnew) as [e' He'].
  exists e'. apply He'.
- right. eexists. now apply check_spec.
Qed.

(** The rounds of the polling, whatever the gateway answers. *)
Lemma pollTransactionStatus_bounded {lib : GoLibrary} (out : Outside) (p : Program)
    (baseURL token reference : string) (w : World) :
  exists (events : list Event) (full : nat),
    snd (pollTransactionStatus out p baseURL token reference w)
    = advance w (List.length (sent events)) events /\
    (full <= Z.to_nat (maxAttempts p))%nat /\
    slept events = Z.of_nat full * (5 * time.Second) /\
    (sent events = repeat (statusRequest baseURL token reference) full \/
     (full < Z.to_nat (maxAttempts p))%nat /\
     sent events = repeat (statusRequest baseURL token reference) (S full)).
Proof.
destruct (poller_bounded (checkTransactionStatus out p baseURL token reference)
            (settled p) (progressLine p) (interval p) (timeoutError p)
            (statusRequest baseURL token reference)
            (checkTransactionStatus_does out p baseURL token reference)
            (Z.to_nat (maxAttempts p)) (firstAttempt p) w)
  as (events & full & Hworld & Hfull & Hslept & Hsent).
rewrite <- pollLoop_poller, <- pollTransactionStatus_pollLoop in Hworld.
rewrite interval_five_seconds in Hslept.
now exists events, full.
Qed.

(** X11.  Whatever the gateway answers, the polling does a number of full
    rounds (a status check, a line, a pause of five seconds), at most as
    many as it has attempts, and then at most one more status check.  So
    it makes at most 60 (40) round trips and pauses for at most 300 (200)
    seconds in all; every request it sends is the status check of the one
    reference; and it reads nothing from the input. *)
Theorem polling_is_bounded {lib : GoLibrary} (out : Outside) (p : Program)
    (baseURL token reference : string) (w : World) :
  exists (events : list Event) (full : nat),
    snd (pollTransactionStatus out p baseURL token reference w)
    = advance w (List.length (sent events)) events /\
    (full <= Z.to_nat (maxAttempts p))%nat /\
    slept events = Z.of_nat full * (5 * time.Second) /\
    (sent events = repeat (statusRequest baseURL token reference) full \/
     (full < Z.to_nat (maxAttempts p))%nat /\
     sent events = repeat (statusRequest baseURL token reference) (S full)) /\
    (List.length (sent events) <= Z.to_nat (maxAttempts p))%nat /\
    slept events <= maxAttempts p * (5 * time.Second) /\
    stdin (snd (pollTransactionStatus out p baseURL token reference w)) = stdin w.
Proof.
destruct (pollTransactionStatus_bounded out p baseURL token reference w)
  as (events & full & Hworld & Hfull & Hslept & Hsent).
exists events, full. rewrite Hworld.
split; [reflexivity|]. split; [exact Hfull|]. split; [exact Hslept|].
split; [exact Hsent|]. split; [|split; [|reflexivity]].
- destruct Hsent as [H|[Hlt H]]; rewrite H, repeat_length; lia.
- rewrite Hslept.
  assert (0 <= maxAttempts p) by (destruct p; discriminate).
  apply Z.mul_le_mono_nonneg_r; [vm_compute; discriminate|lia].
Qed.

(** ** The display of the final status *)

Lemma emits_print s w : fmt_Print s w = (tt, advance w 0 [EvStdout s]).
Proof. unfold fmt_Print, emit, advance. now rewrite Nat.add_0_r. Qed.

Lemma emits_println s w : fmt_Println s w = (tt, advance w 0 [EvStdout (s ++ LF)]).
Proof. unfold fmt_Println, emit, advance. now rewrite Nat.add_0_r. Qed.

Lemma emits_bind (m : IO unit) (k : unit -> IO unit) l1 l2 :
  (forall w, m w = (tt, advance w 0 l1)) ->
  (forall w, k tt w = (tt, advance w 0 l2)) ->
  forall w, bind m k w = (tt, advance w 0 (l1 ++ l2)).
Proof.
intros Hm Hk w. unfold bind. rewrite Hm, Hk, advance_advance. reflexivity.
Qed.

Ltac emits :=
  repeat
    match goal with
    | |- forall w, fmt_Print _ w = _ => intros ?; apply emits_print
    | |- forall w, fmt_Println _ w = _ => intros ?; apply emits_println
    | |- forall w, bind _ _ w = _ => eapply emits_bind; [|cbv beta]
    end.

Section Display.
Context {lib : GoLibrary}.

(** The lines of the display when the status is final: twelve lines of
    summary, the status among them as it was received, and the verdict. *)
Lemma displayFinalStatus_final (p : Program) (status : TransactionResponse.t)
    (successful : bool) :
  compared p (TransactionResponse.Status status)
  = (if successful then "SUCCESSFUL" else "FAILED") ->
  exists l,
    (forall w, displayFinalStatus p status w = (tt, advance w 0 l)) /\
    List.length (firstn 12 l) = 12%nat /\
    In (EvStdout ("Status:              " ++ TransactionResponse.Status status ++ LF))
       (firstn 12 l) /\
    skipn 12 l = verdict p successful /\
    sent l = [].
Proof.
intros Htag. destruct p; cbn [compared displayFinalStatus] in *;
  unfold Main60.displayFinalStatus, Main40.displayFinalStatus; cbv zeta; rewrite Htag;
  destruct successful;
  try change (String.eqb "SUCCESSFUL" "SUCCESSFUL") with true;
  try change (String.eqb "FAILED" "SUCCESSFUL") with false;
  try change (String.eqb "FAILED" "FAILED") with true;
  cbv iota;
  (eexists; split;
   [emits
   |cbn [app firstn skipn List.length sent verdict In];
    split; [reflexivity|split; [tauto|split; reflexivity]]]).
Qed.

End Display.

(** X12.  The record that the polling returns is displayed with a verdict:
    after the twelve lines of the summary, which show the status as it was
    received, come the lines for a successful payment or those for a failed
    one.  The third branch of the display, for a status that is neither, is
    never taken for such a record. *)
Theorem final_status_is_displayed_with_its_verdict {lib : GoLibrary} (out : Outside)
    (p : Program) (baseURL token reference : string) (w : World)
    (status : TransactionResponse.t) :
  fst (pollTransactionStatus out p baseURL token reference w) = Ok status ->
  exists (summary : list Event) (successful : bool),
    compared p (TransactionResponse.Status status)
    = (if successful then "SUCCESSFUL" else "FAILED") /\
    List.length summary = 12%nat /\
    In (EvStdout ("Status:              " ++ TransactionResponse.Status status ++ LF))
       summary /\
    forall w', displayFinalStatus p status w'
               = (tt, advance w' 0 (summary ++ verdict p successful)).
Proof.
intros Hpoll.
rewrite pollTransactionStatus_pollLoop, pollLoop_poller in Hpoll.
pose proof (poller_Ok_settled _ _ _ _ _ _ _ _ _ Hpoll) as Hsettled.
apply settled_true_inv in Hsettled.
assert (Htag : exists successful : bool,
  compared p (TransactionResponse.Status status)
  = (if successful then "SUCCESSFUL" else "FAILED")).
{ destruct Hsettled as [H|H]; [exists true|exists false]; exact H. }
destruct Htag as [successful Htag].
destruct (displayFinalStatus_final p status successful Htag)
  as (l & Hdisplay & Hlength & Hin & Hverdict & _).
exists (firstn 12 l), successful.
split; [exact Htag|]. split; [exact Hlength|]. split; [exact Hin|].
intros w'. now rewrite <- Hverdict, firstn_skipn.
Qed.

Lemma final_status_is_displayed_with_its_verdict_witness :
  exists (summary : list Event) (successful : bool),
    compared V40 (TransactionResponse.Status (Scenario.record "SUCCESSFUL"))
    = (if successful then "SUCCESSFUL" else "FAILED") /\
    List.length summary = 12%nat /\
    In (EvStdout ("Status:              "
                  ++ TransactionResponse.Status (Scenario.record "SUCCESSFUL") ++ LF))
       summary /\
    forall w', displayFinalStatus V40 (Scenario.record "SUCCESSFUL") w'
               = (tt, advance w' 0 (summary ++ verdict V40 successful)).
Proof.
apply (final_status_is_displayed_with_its_verdict Scenario.endToEnd V40 Scenario.demoURL
         "abc" "r1" Scenario.polling (Scenario.record "SUCCESSFUL")).
vm_compute; reflexivity.
Defined.

(** ** What the exit status tells *)

Section Ending.
Context {lib : GoLibrary} (out : Outside).

Lemma ends_failed p e : endsWithFinalStatus p (ret (Some e)).
Proof. intros w H. discriminate. Qed.

Lemma ends_bind {A : Type} p (m : IO A) (k : A -> IO (option error)) :
  (forall a, endsWithFinalStatus p (k a)) -> endsWithFinalStatus p (bind m k).
Proof.
intros Hk w. unfold bind. destruct (m w) as [a w1]. apply Hk.
Qed.

Lemma ends_polled p baseURL token reference (failed : error -> error)
    (poll : IO (result TransactionResponse.t)) (display : TransactionResponse.t -> IO unit) :
  (forall w, poll w = pollTransactionStatus out p baseURL token reference w) ->
  (forall status w, display status w = displayFinalStatus p status w) ->
  endsWithFinalStatus p
    (r <- poll ;;
     match r with
     | Err e => ret (Some (failed e))
     | Ok finalStatus => display finalStatus ;; ret None
     end).
Proof.
intros Hpolls Hdisplays w. unfold bind.
destruct (poll w) as [[status|e] w1] eqn:Hpoll; [|discriminate].
intros _. exists status, w1. split.
- assert (H : fst (pollTransactionStatus out p baseURL token reference w) = Ok status)
    by now rewrite <- Hpolls, Hpoll.
  rewrite pollTransactionStatus_pollLoop, pollLoop_poller in H.
  exact (poller_Ok_settled _ _ _ _ _ _ _ _ _ H).
- rewrite <- Hdisplays. destruct (display status w1) as [[] w2]. reflexivity.
Qed.

Lemma ends_polled60 baseURL token reference :
  endsWithFinalStatus V60
    (r <- Main60.pollTransactionStatus out baseURL token reference ;;
     match r with
     | Err e => ret (Some ("failed to get transaction status: " ++ e))
     | Ok finalStatus => Main60.displayFinalStatus finalStatus ;; ret None
     end).
Proof.
apply (ends_polled V60 baseURL token reference
         (fun e => "failed to get transaction status: " ++ e)
         (Main60.pollTransactionStatus out baseURL token reference)
         Main60.displayFinalStatus);
  intros; [cbn [pollTransactionStatus]|cbn [displayFinalStatus]]; reflexivity.
Qed.

Lemma ends_polled40 baseURL token reference :
  endsWithFinalStatus V40
    (r <- Main40.pollTransactionStatus out baseURL token reference ;;
     match r with
     | Err e => ret (Some e)
     | Ok finalStatus => Main40.displayFinalStatus finalStatus ;; ret None
     end).
Proof.
apply (ends_polled V40 baseURL token reference (fun e => e)
         (Main40.pollTransactionStatus out baseURL token reference)
         Main40.displayFinalStatus);
  intros; [cbn [pollTransactionStatus]|cbn [displayFinalStatus]]; reflexivity.
Qed.

Ltac ends_step :=
  match goal with
  | |- endsWithFinalStatus _ (ret (Some _)) => apply ends_failed
  | |- endsWithFinalStatus _ (bind (Main60.pollTransactionStatus _ _ _ _) _) =>
      apply ends_polled60
  | |- endsWithFinalStatus _ (bind (Main40.pollTransactionStatus _ _ _ _) _) =>
      apply ends_polled40
  | |- endsWithFinalStatus _ (bind _ _) => apply ends_bind; intros ?
  | |- endsWithFinalStatus _ (match ?x with _ => _ end) => destruct x
  | |- endsWithFinalStatus _ (let (_, _) := ?x in _) => destruct x
  | |- endsWithFinalStatus _ (if ?b then _ else _) => destruct b
  | |- endsWithFinalStatus _ (Main60.run_input _ _) => unfold Main60.run_input
  | |- endsWithFinalStatus _ (Main60.run_amount _ _ _) => unfold Main60.run_amount
  | |- endsWithFinalStatus _ (Main60.run_description _ _ _ _) =>
      unfold Main60.run_description
  | |- endsWithFinalStatus _ (Main60.run_payment _ _ _ _ _) =>
      unfold Main60.run_payment; cbv zeta
  | |- endsWithFinalStatus _ (Main40.run_input _ _) => unfold Main40.run_input
  | |- endsWithFinalStatus _ (Main40.run_amount _ _ _) => unfold Main40.run_amount
  | |- endsWithFinalStatus _ (Main40.run_description _ _ _ _) =>
      unfold Main40.run_description
  | |- endsWithFinalStatus _ (Main40.run_payment _ _ _ _ _) =>
      unfold Main40.run_payment; cbv zeta
  end.

Lemma ends_run p : endsWithFinalStatus p (run out p).
Proof.
destruct p; cbn [run]; unfold Main60.run, Main40.run; repeat ends_step.
Qed.

End Ending.

(** X13.  The exit status of the process tells whether a final status was
    shown.  [main] exits with 0 exactly when [run] returns no error, and
    then the run has ended with the display of a transaction record whose
    status its program takes for final, SUCCESSFUL or FAILED alike: a
    failed payment exits with 0 too.  Otherwise [main] prints the line of
    the error last and exits with 1. *)
Theorem exit_status_tells_of_a_final_status {lib : GoLibrary} (out : Outside)
    (p : Program) (w : World) :
  (fst (main out p w) = 0 /\
   fst (run out p w) = None /\
   snd (main out p w) = snd (run out p w) /\
   exists status w',
     settled p status = true /\
     snd (run out p w) = snd (displayFinalStatus p status w')) \/
  (fst (main out p w) = 1 /\
   exists e,
     fst (run out p w) = Some e /\
     snd (main out p w)
     = advance (snd (run out p w)) 0 [EvStdout ("❌ Error: " ++ e ++ LF)]).
Proof.
pose proof (ends_run out p w) as Hends.
assert (Hmain : main out p w
                = (err <- run out p ;;
                   match err with
                   | Some e => fmt_Println ("❌ Error: " ++ e) ;; ret 1
                   | None => ret 0
                   end) w) by now destruct p.
rewrite Hmain. unfold bind.
destruct (run out p w) as [[e|] w1]; cbn [fst snd] in *.
- right. rewrite emits_println. split; [reflexivity|]. exists e. now split.
- left. repeat split. now apply Hends.
Qed.
(** ** The requests of a run *)

Lemma adds_advance {A : Type} (m : IO A) (post : A -> list Event -> Prop) :
  (forall w, exists events,
     snd (m w) = advance w (List.length (sent events)) events /\
     post (fst (m w)) events) ->
  adds m post.
Proof.
intros H w. destruct (H w) as (events & Hworld & Hpost).
exists events. rewrite Hworld. now repeat split.
Qed.

Lemma prefix_space c s : c <> " "%char -> String.prefix " " (String c s) = false.
Proof.
intros Hc. cbn [String.prefix]. destruct (ascii_dec " " c) as [H|H]; [|reflexivity].
now elim Hc.
Qed.

(** No space is left where [ReplaceAll] has taken the spaces out. *)
Lemma replaceFrom_no_space s : Contains (strings.replaceFrom 0 s " " "") " " = false.
Proof.
induction s as [|c s IH]; [reflexivity|].
cbn [strings.replaceFrom String.length Nat.pred]. cbn [String.prefix].
destruct (ascii_dec " " c) as [Hc|Hc].
- assert (Hempty : String.prefix "" s = true) by now destruct s.
  rewrite Hempty. exact IH.
- cbn [Contains]. rewrite IH, (prefix_space c _ (not_eq_sym Hc)). reflexivity.
Qed.

Lemma no_space_237 s : Contains s " " = false -> Contains ("237" ++ s) " " = false.
Proof.
intros H. cbn [append Contains]. rewrite H.
rewrite !prefix_space by discriminate. reflexivity.
Qed.

Section Requests.
Context {lib : GoLibrary} (out : Outside).

Lemma adds_getAuthToken60 baseURL username password :
  adds (Main60.getAuthToken out baseURL username password)
    (fun r events =>
       (events = [] /\ exists e, r = Err e) \/
       events = [EvRequest
                   (tokenRequest baseURL
                      (fst (json_Marshal
                              (Main60.TokenRequest_fields
                                 (TokenRequest.mk username password)))))]).
Proof.
unfold Main60.getAuthToken, http_NewRequest.
destruct (json_Marshal _) as [jsonData [e|]]; [apply adds_ret; left; eauto|].
destruct (http_NewRequest_error "POST" (baseURL ++ "/token/"));
  [apply adds_ret; left; eauto|].
apply adds_bind, adds_client_Do. intros resp. cbv beta.
adds_auto; right; reflexivity.
Qed.

Lemma adds_getAuthToken40 baseURL username password :
  adds (Main40.getAuthToken out baseURL username password)
    (fun r events =>
       (events = [] /\ exists e, r = Err e) \/
       events = [EvRequest
                   (tokenRequest baseURL
                      (fst (json_Marshal
                              (Main40.TokenRequest_fields
                                 (TokenRequest.mk username password)))))]).
Proof.
unfold Main40.getAuthToken, http_NewRequest.
destruct (json_Marshal _) as [reqBody err].
destruct (http_NewRequest_error "POST" (baseURL ++ "/token/"));
  [apply adds_ret; left; eauto|].
apply adds_bind, adds_client_Do. intros resp. cbv beta.
adds_auto; right; reflexivity.
Qed.

Lemma adds_collectPayment60 baseURL token collect :
  adds (Main60.collectPayment out baseURL token collect)
    (fun r events =>
       (events = [] /\ exists e, r = Err e) \/
       events = [EvRequest
                   (collectRequest baseURL token
                      (fst (json_Marshal (Main60.CollectRequest.fields collect))))]).
Proof.
unfold Main60.collectPayment, http_NewRequest.
destruct (json_Marshal _) as [jsonData [e|]]; [apply adds_ret; left; eauto|].
destruct (http_NewRequest_error "POST" (baseURL ++ "/collect/"));
  [apply adds_ret; left; eauto|].
apply adds_bind, adds_client_Do. intros resp. cbv beta.
adds_auto; right; reflexivity.
Qed.

Lemma adds_collectPayment40 baseURL token collect :
  adds (Main40.collectPayment out baseURL token collect)
    (fun r events =>
       (events = [] /\ exists e, r = Err e) \/
       events = [EvRequest
                   (collectRequest baseURL token
                      (fst (json_Marshal (Main40.CollectRequest.fields collect))))]).
Proof.
unfold Main40.collectPayment, http_NewRequest.
destruct (json_Marshal _) as [reqBody err].
destruct (http_NewRequest_error "POST" (baseURL ++ "/collect/"));
  [apply adds_ret; left; eauto|].
apply adds_bind, adds_client_Do. intros resp. cbv beta.
adds_auto; right; reflexivity.
Qed.

Lemma adds_pollTransactionStatus p baseURL token reference :
  adds (pollTransactionStatus out p baseURL token reference)
    (fun _ events =>
       exists k, (k <= Z.to_nat (maxAttempts p))%nat /\
                 sent events = repeat (statusRequest baseURL token reference) k).
Proof.
apply adds_advance. intros w.
destruct (pollTransactionStatus_bounded out p baseURL token reference w)
  as (events & full & Hworld & Hfull & _ & Hsent).
exists events. split; [exact Hworld|].
destruct Hsent as [H|[Hlt H]]; [exists full|exists (S full)]; split; (lia || exact H).
Qed.

Lemma adds_displayFinalStatus60 status :
  adds (Main60.displayFinalStatus status) (fun _ events => sent events = []).
Proof. unfold Main60.displayFinalStatus; cbv zeta; adds_auto; reflexivity. Qed.

Lemma adds_displayFinalStatus40 status :
  adds (Main40.displayFinalStatus status) (fun _ events => sent events = []).
Proof. unfold Main40.displayFinalStatus; cbv zeta; adds_auto; reflexivity. Qed.

Lemma adds_pollTransactionStatus60 baseURL token reference :
  adds (Main60.pollTransactionStatus out baseURL token reference)
    (fun _ events =>
       exists k, (k <= Z.to_nat (maxAttempts V60))%nat /\
                 sent events = repeat (statusRequest baseURL token reference) k).
Proof.
pose proof (adds_pollTransactionStatus V60 baseURL token reference) as H.
cbn [pollTransactionStatus] in H. exact H.
Qed.

Lemma adds_pollTransactionStatus40 baseURL token reference :
  adds (Main40.pollTransactionStatus out baseURL token reference)
    (fun _ events =>
       exists k, (k <= Z.to_nat (maxAttempts V40))%nat /\
                 sent events = repeat (statusRequest baseURL token reference) k).
Proof.
pose proof (adds_pollTransactionStatus V40 baseURL token reference) as H.
cbn [pollTransactionStatus] in H. exact H.
Qed.

End Requests.
Section RunRequests.
Context {lib : GoLibrary} (out : Outside).

Ltac sent_norm := repeat (rewrite sent_app || cbn [sent app]).

Lemma adds_run_payment60 token phoneNumber amountStr description :
  adds (Main60.run_payment out token phoneNumber amountStr description)
    (fun _ events =>
       sent events = [] \/
       exists reference k,
         (k <= Z.to_nat (maxAttempts V60))%nat /\
         sent events
         = collectRequest (Main60.apiBaseURL out) token
             (collectPayload60 out phoneNumber amountStr description)
           :: repeat (statusRequest (Main60.apiBaseURL out) token reference) k).
Proof.
unfold Main60.run_payment. cbv zeta.
apply adds_bind, adds_println.
apply adds_bind. eapply adds_weaken; [apply adds_collectPayment60|]. cbv beta.
intros [reference|e] e1 Hcollect.
- destruct Hcollect as [[_ [e He]]|He1]; [discriminate|]. subst e1.
  apply adds_bind, adds_print. apply adds_bind, adds_print. apply adds_bind, adds_print.
  apply adds_bind, adds_println. apply adds_bind, adds_println.
  apply adds_bind, adds_println.
  apply adds_bind. eapply adds_weaken; [apply adds_pollTransactionStatus60|].
  cbv beta. intros r e2 (k & Hk & Hsent).
  destruct r as [finalStatus|e].
  + apply adds_bind. eapply adds_weaken; [apply adds_displayFinalStatus60|].
    cbv beta. intros [] e3 He3. apply adds_ret.
    right. exists reference, k. split; [exact Hk|].
    sent_norm. rewrite Hsent, He3, !app_nil_r. reflexivity.
  + apply adds_ret. right. exists reference, k. split; [exact Hk|].
    sent_norm. rewrite Hsent, !app_nil_r. reflexivity.
- apply adds_ret. destruct Hcollect as [[He1 _]|He1]; subst e1; cbn [app sent].
  + now left.
  + right. exists "", 0%nat. split; [lia|reflexivity].
Qed.

Lemma adds_run_payment40 token phone amount description :
  adds (Main40.run_payment out token phone amount description)
    (fun _ events =>
       sent events = [] \/
       exists reference k,
         (k <= Z.to_nat (maxAttempts V40))%nat /\
         sent events
         = collectRequest (Main40.apiBaseURL out) token
             (collectPayload40 out phone amount description)
           :: repeat (statusRequest (Main40.apiBaseURL out) token reference) k).
Proof.
unfold Main40.run_payment. cbv zeta.
apply adds_bind, adds_println.
apply adds_bind. eapply adds_weaken; [apply adds_collectPayment40|]. cbv beta.
intros [reference|e] e1 Hcollect.
- destruct Hcollect as [[_ [e He]]|He1]; [discriminate|]. subst e1.
  apply adds_bind, adds_print. apply adds_bind, adds_println.
  apply adds_bind. eapply adds_weaken; [apply adds_pollTransactionStatus40|].
  cbv beta. intros r e2 (k & Hk & Hsent).
  destruct r as [finalStatus|e].
  + apply adds_bind. eapply adds_weaken; [apply adds_displayFinalStatus40|].
    cbv beta. intros [] e3 He3. apply adds_ret.
    right. exists reference, k. split; [exact Hk|].
    sent_norm. rewrite Hsent, He3, !app_nil_r. reflexivity.
  + apply adds_ret. right. exists reference, k. split; [exact Hk|].
    sent_norm. rewrite Hsent, !app_nil_r. reflexivity.
- apply adds_ret. destruct Hcollect as [[He1 _]|He1]; subst e1; cbn [app sent].
  + now left.
  + right. exists "", 0%nat. split; [lia|reflexivity].
Qed.

(** The amount that passed the validation of [run]. *)
Lemma amount_checked amountStr amount err :
  strconv.Atoi amountStr = (amount, err) ->
  negb (isNil err) || (amount <=? 0) = false ->
  strconv.Atoi amountStr = (amount, None) /\ 0 < amount <= strconv.maxInt.
Proof.
intros Hatoi Hcheck. apply orb_false_iff in Hcheck. destruct Hcheck as [Herr Hpos].
destruct err as [e|]; [discriminate|]. apply Z.leb_gt in Hpos.
split; [exact Hatoi|]. pose proof (Atoi_None_range _ _ Hatoi). lia.
Qed.

Lemma phone_checked phone :
  negb (strings.HasPrefix phone "237") || negb (len phone =? 12) = false ->
  validPhone phone.
Proof.
intros Hcheck. apply orb_false_iff in Hcheck. destruct Hcheck as [Hprefix Hlen].
apply negb_false_iff in Hprefix, Hlen. split; [exact Hprefix|now apply Z.eqb_eq].
Qed.

Lemma adds_run_amount60 token phoneNumber :
  validPhone phoneNumber ->
  adds (Main60.run_amount out token phoneNumber)
    (fun _ events => afterToken out V60 (sent events)).
Proof.
intros Hphone. unfold Main60.run_amount.
apply adds_bind. eapply adds_weaken; [apply adds_promptUser60|]. cbv beta.
intros [amountStr|e] e1 (He1 & _ & _); [|apply adds_ret; left; sent_norm; now rewrite He1].
destruct (strconv.Atoi amountStr) as [amount err] eqn:Hatoi.
destruct (negb (isNil err) || (amount <=? 0)) eqn:Hcheck;
  [apply adds_ret; left; sent_norm; now rewrite He1|].
destruct (amount_checked _ _ _ Hatoi Hcheck) as [Hamount Hrange].
unfold Main60.run_description.
apply adds_bind. eapply adds_weaken; [apply adds_promptUser60|]. cbv beta.
intros [description|e] e2 (He2 & _ & _);
  [|apply adds_ret; left; sent_norm; now rewrite He1, He2].
eapply adds_weaken; [apply adds_run_payment60|]. cbv beta.
intros r e3 [He3|(reference & k & Hk & He3)]; sent_norm; rewrite He1, He2, He3.
- now left.
- right. exists token, (collectPayload60 out phoneNumber amountStr description), reference, k.
  split; [|split; [exact Hk|reflexivity]].
  exists phoneNumber, amountStr, description, amount. auto.
Qed.

Lemma adds_run_input60 token :
  adds (Main60.run_input out token) (fun _ events => afterToken out V60 (sent events)).
Proof.
unfold Main60.run_input.
apply adds_bind. eapply adds_weaken; [apply adds_promptUser60|]. cbv beta.
intros [phoneNumber|e] e1 (He1 & _ & _); [|apply adds_ret; left; sent_norm; now rewrite He1].
destruct (negb (strings.HasPrefix phoneNumber "237") || negb (len phoneNumber =? 12))
  eqn:Hcheck; [apply adds_ret; left; sent_norm; now rewrite He1|].
eapply adds_weaken; [apply (adds_run_amount60 token phoneNumber (phone_checked _ Hcheck))|].
cbv beta. intros r e2 He2. sent_norm. now rewrite He1.
Qed.

Lemma adds_promptPhone :
  adds Main40.promptPhone
    (fun r events =>
       sent events = [] /\
       forall phone, r = Ok phone -> validPhone phone /\ Contains phone " " = false).
Proof.
unfold Main40.promptPhone.
apply adds_bind. eapply adds_weaken; [apply adds_promptUser40|]. cbv beta.
intros [answer|e] e1 (He1 & _ & _);
  [|apply adds_ret; split; [sent_norm; now rewrite He1|discriminate]].
cbv zeta.
set (phone := if (len (strings.ReplaceAll (strings.TrimSpace answer) " " "") =? 9) &&
                 match String.get 0 (strings.ReplaceAll (strings.TrimSpace answer) " " "") with
                 | Some c => Ascii.eqb c "6"
                 | None => false
                 end
              then "237" ++ strings.ReplaceAll (strings.TrimSpace answer) " " ""
              else strings.ReplaceAll (strings.TrimSpace answer) " " "").
assert (Hspace : Contains phone " " = false).
{ subst phone.
  pose proof (replaceFrom_no_space (strings.TrimSpace answer)) as H.
  change (strings.ReplaceAll (strings.TrimSpace answer) " " "")
    with (strings.replaceFrom 0 (strings.TrimSpace answer) " " "").
  destruct (_ && _); [now apply no_space_237|exact H]. }
destruct (negb (strings.HasPrefix phone "237") || negb (len phone =? 12)) eqn:Hcheck;
  apply adds_ret; (split; [sent_norm; now rewrite He1|]); intros accepted Haccepted;
  [discriminate|].
inversion Haccepted; subst accepted. split; [now apply phone_checked|exact Hspace].
Qed.

Lemma adds_promptAmount :
  adds Main40.promptAmount
    (fun r events =>
       sent events = [] /\ forall amount, r = Ok amount -> 0 < amount <= strconv.maxInt).
Proof.
unfold Main40.promptAmount.
apply adds_bind. eapply adds_weaken; [apply adds_promptUser40|]. cbv beta.
intros [amtStr|e] e1 (He1 & _ & _);
  [|apply adds_ret; split; [sent_norm; now rewrite He1|discriminate]].
destruct (strconv.Atoi amtStr) as [amount err] eqn:Hatoi.
destruct (negb (isNil err) || (amount <=? 0)) eqn:Hcheck;
  apply adds_ret; (split; [sent_norm; now rewrite He1|]); intros accepted Haccepted;
  [discriminate|].
inversion Haccepted; subst accepted. now destruct (amount_checked _ _ _ Hatoi Hcheck).
Qed.

Lemma adds_run_input40 token :
  adds (Main40.run_input out token) (fun _ events => afterToken out V40 (sent events)).
Proof.
unfold Main40.run_input.
apply adds_bind. eapply adds_weaken; [apply adds_promptPhone|]. cbv beta.
intros [phone|e] e1 (He1 & Hphone); [|apply adds_ret; left; sent_norm; now rewrite He1].
destruct (Hphone phone eq_refl) as [Hvalid Hspace].
unfold Main40.run_amount.
apply adds_bind. eapply adds_weaken; [apply adds_promptAmount|]. cbv beta.
intros [amount|e] e2 (He2 & Hamount);
  [|apply adds_ret; left; sent_norm; now rewrite He1, He2].
pose proof (Hamount amount eq_refl) as Hrange.
unfold Main40.run_description.
apply adds_bind. eapply adds_weaken; [apply adds_promptUser40|]. cbv beta.
intros [description|e] e3 (He3 & _ & Hdescription);
  [|apply adds_ret; left; sent_norm; now rewrite He1, He2, He3].
destruct (Hdescription description eq_refl) as [_ Hnonempty].
eapply adds_weaken; [apply adds_run_payment40|]. cbv beta.
intros r e4 [He4|(reference & k & Hk & He4)]; sent_norm; rewrite He1, He2, He3, He4.
- now left.
- right. exists token, (collectPayload40 out phone amount description), reference, k.
  split; [|split; [exact Hk|reflexivity]].
  exists phone, amount, description. auto.
Qed.

(** The requests of a whole run: none; or the token request alone; or the
    token request, the collection request and the status checks. *)
Lemma adds_run p :
  adds (run out p)
    (fun _ events =>
       sent events = [] \/
       exists rest,
         sent events = tokenRequest (baseURL out p) (tokenPayload out p) :: rest /\
         afterToken out p rest).
Proof.
destruct p; cbn [run]; unfold Main60.run, Main40.run;
  (destruct (dotenv out) as [[e|]|]; [apply adds_ret; now left| |]);
  (destruct (String.eqb (Getenv out "APP_USERNAME") "" ||
             String.eqb (Getenv out "APP_PASSWORD") ""); [apply adds_ret; now left|]);
  apply adds_bind, adds_println; apply adds_bind, adds_print;
  apply adds_bind, adds_println; apply adds_bind;
  (eapply adds_weaken; [first [apply adds_getAuthToken60|apply adds_getAuthToken40]|]);
  cbv beta; intros [token|e] e1 Htoken;
  try (apply adds_ret; destruct Htoken as [[He1 _]|He1]; subst e1; cbn [app sent];
       [now left|right; eexists; split; [reflexivity|now left]]);
  (destruct Htoken as [[_ [e He]]|He1]; [discriminate|]); subst e1;
  apply adds_bind, adds_println;
  (eapply adds_weaken; [first [apply adds_run_input60|apply adds_run_input40]|]);
  cbv beta; intros r e2 He2; right; eexists; (split; [|exact He2]); reflexivity.
Qed.

End RunRequests.
(** X14.  The requests of a run go out in one order, whatever the user
    types and the gateway answers: first the token request, to the base URL
    selected and with the credentials of the environment; then the
    collection request; then status checks, at most as many as there are
    attempts, all for one reference.  The collection request and the status
    checks carry one and the same token.  A run may end after any of
    them, so it makes at most two round trips and its attempts, and it
    counts one round trip for each request sent. *)
Theorem run_sends_its_requests_in_order {lib : GoLibrary} (out : Outside) (p : Program)
    (w : World) :
  trace (snd (run out p w)) = (trace w ++ added w (snd (run out p w)))%list /\
  requests (snd (run out p w))
  = (requests w + List.length (sent (added w (snd (run out p w)))))%nat /\
  (sent (added w (snd (run out p w))) = [] \/
   sent (added w (snd (run out p w)))
   = [tokenRequest (baseURL out p) (tokenPayload out p)] \/
   exists token payload reference k,
     (k <= Z.to_nat (maxAttempts p))%nat /\
     sent (added w (snd (run out p w)))
     = tokenRequest (baseURL out p) (tokenPayload out p)
       :: collectRequest (baseURL out p) token payload
       :: repeat (statusRequest (baseURL out p) token reference) k) /\
  (List.length (sent (added w (snd (run out p w)))) <= 2 + Z.to_nat (maxAttempts p))%nat.
Proof.
destruct (adds_run out p w) as (events & Htrace & Hrequests & Hsent).
rewrite (added_app _ _ _ Htrace).
split; [exact Htrace|]. split; [exact Hrequests|].
destruct Hsent as [Hsent|(rest & Hsent & [Hrest|(token & payload & reference & k & _ & Hk & Hrest)])];
  rewrite Hsent; try subst rest.
- split; [now left|cbn [List.length]; lia].
- split; [right; now left|cbn [List.length]; lia].
- split.
  + right; right. now exists token, payload, reference, k.
  + cbn [List.length]. rewrite repeat_length. lia.
Qed.

(** X15.  What a run sends as its second request is the collection
    request, and its body is built from input that has passed the
    validation: a phone number of 12 bytes that begins with 237 (in the
    second program with no space in it), an amount that [Atoi] reads as a
    positive [int] (sent as the text typed by the first program and as the
    number by the second), the currency XAF, and in the second program a
    description that is not empty. *)
Theorem collect_request_carries_validated_input {lib : GoLibrary} (out : Outside)
    (p : Program) (w : World) (req : Request) :
  nth_error (sent (added w (snd (run out p w)))) 1 = Some req ->
  exists token payload,
    req = collectRequest (baseURL out p) token payload /\
    validatedPayload out p payload.
Proof.
destruct (adds_run out p w) as (events & Htrace & _ & Hsent).
rewrite (added_app _ _ _ Htrace).
destruct Hsent as [Hsent|(rest & Hsent & [Hrest|(token & payload & reference & k & Hvalid & _ & Hrest)])];
  rewrite Hsent; try subst rest; cbn [nth_error]; intros Hreq; try discriminate.
inversion Hreq. now exists token, payload.
Qed.

Lemma collect_request_carries_validated_input_witness :
  exists token payload,
    collectRequest Scenario.demoURL "abc"
      (collectPayload40 Scenario.endToEnd "237670123456" 1000 "groceries")
    = collectRequest (baseURL Scenario.endToEnd V40) token payload /\
    validatedPayload Scenario.endToEnd V40 payload.
Proof.
apply (collect_request_carries_validated_input Scenario.endToEnd V40
         (Scenario.typed ["6 70 12 34 56"; "1000"; "groceries"])).
vm_compute; reflexivity.
Defined.
(** ** Authentication comes first *)

Section Authentication.
Context {lib : GoLibrary} (out : Outside).

(** Before the user's input is read, [run] fails, or it has got a token
    from a response with status 200. *)
Lemma run60_asks_with_a_token w :
  (exists e w', Main60.run out w = (Some e, w') /\ stdin w' = stdin w) \/
  (exists body tokenResp w',
     roundTrip out (requests w) = Response 200 body None /\
     json_Unmarshal_TokenResponse body = (tokenResp, None) /\
     Main60.run out w = Main60.run_input out (TokenResponse.Token tokenResp) w' /\
     stdin w' = stdin w).
Proof.
unfold Main60.run.
destruct (dotenv out) as [[e|]|]; [left; now exists ("failed to load .env file: " ++ e), w| |];
  (destruct (String.eqb (Getenv out "APP_USERNAME") "" ||
             String.eqb (Getenv out "APP_PASSWORD") "");
   [left; eexists; exists w; split; reflexivity|]);
  unfold bind, fmt_Println, fmt_Print, emit; cbv beta iota;
  unfold Main60.getAuthToken, http_NewRequest;
  destruct (json_Marshal _) as [jsonData [e|]];
  try (left; eexists; eexists; split; reflexivity);
  destruct (http_NewRequest_error _ _);
  try (left; eexists; eexists; split; reflexivity);
  unfold bind, client_Do; cbv beta iota; cbn [requests];
  destruct (roundTrip out (requests w)) as [e|code body [e|]] eqn:Hanswer;
  try (left; eexists; eexists; split; reflexivity);
  (destruct (negb (code =? StatusOK)) eqn:Hcode;
   [destruct (json_Unmarshal_ErrorResponse body);
    left; eexists; eexists; split; reflexivity|]);
  apply negb_false_iff, Z.eqb_eq in Hcode; subst code;
  destruct (json_Unmarshal_TokenResponse body) as [tokenResp [e|]] eqn:Hdecode;
  try (left; eexists; eexists; split; reflexivity);
  right; exists body, tokenResp; eexists;
  (split; [reflexivity|split; [exact Hdecode|split; reflexivity]]).
Qed.

Lemma run40_asks_with_a_token w :
  (exists e w', Main40.run out w = (Some e, w') /\ stdin w' = stdin w) \/
  (exists body readErr tokenResp w',
     roundTrip out (requests w) = Response 200 body readErr /\
     json_Unmarshal_TokenResponse body = (tokenResp, None) /\
     Main40.run out w = Main40.run_input out (TokenResponse.Token tokenResp) w' /\
     stdin w' = stdin w).
Proof.
unfold Main40.run.
destruct (dotenv out) as [[e|]|]; [left; now exists ("failed to load .env: " ++ e), w| |];
  (destruct (String.eqb (Getenv out "APP_USERNAME") "" ||
             String.eqb (Getenv out "APP_PASSWORD") "");
   [left; eexists; exists w; split; reflexivity|]);
  unfold bind, fmt_Println, fmt_Print, emit; cbv beta iota;
  unfold Main40.getAuthToken, http_NewRequest;
  destruct (json_Marshal _) as [reqBody ?];
  destruct (http_NewRequest_error _ _);
  try (left; eexists; eexists; split; reflexivity);
  unfold bind, client_Do; cbv beta iota; cbn [requests];
  destruct (roundTrip out (requests w)) as [e|code body readErr] eqn:Hanswer;
  try (left; eexists; eexists; split; reflexivity);
  (destruct (negb (code =? 200)) eqn:Hcode; [left; eexists; eexists; split; reflexivity|]);
  apply negb_false_iff, Z.eqb_eq in Hcode; subst code;
  destruct (json_Unmarshal_TokenResponse body) as [tokenResp [e|]] eqn:Hdecode;
  try (left; eexists; eexists; split; reflexivity);
  right; exists body, readErr, tokenResp; eexists;
  (split; [reflexivity|split; [exact Hdecode|split; reflexivity]]).
Qed.

End Authentication.

(** X16.  The user is asked nothing before the program has a token.  When
    a run has read anything from the input, its first round trip was
    answered with status 200 and a body that decoded without error into
    the token response (for the first program the body was also read
    without error), and the questions were put with the token of that
    response.  A run that does not get that far ends with an error and
    leaves the input unread. *)
Theorem input_is_read_only_with_a_token {lib : GoLibrary} (out : Outside) (p : Program)
    (w : World) :
  (stdin (snd (run out p w)) <> stdin w ->
   exists body readErr tokenResp,
     roundTrip out (requests w) = Response 200 body readErr /\
     (p = V60 -> readErr = None) /\
     json_Unmarshal_TokenResponse body = (tokenResp, None)) /\
  ((forall body readErr, roundTrip out (requests w) <> Response 200 body readErr) ->
   stdin (snd (run out p w)) = stdin w /\ fst (run out p w) <> None).
Proof.
assert (Hcases :
  (exists e w', run out p w = (Some e, w') /\ stdin w' = stdin w) \/
  (exists body readErr tokenResp,
     roundTrip out (requests w) = Response 200 body readErr /\
     (p = V60 -> readErr = None) /\
     json_Unmarshal_TokenResponse body = (tokenResp, None))).
{ destruct p; cbn [run].
  - destruct (run60_asks_with_a_token out w)
      as [He|(body & tokenResp & w' & Hanswer & Hdecode & _)]; [now left|].
    right. now exists body, None, tokenResp.
  - destruct (run40_asks_with_a_token out w)
      as [He|(body & readErr & tokenResp & w' & Hanswer & Hdecode & _)]; [now left|].
    right. exists body, readErr, tokenResp. repeat split; [exact Hanswer|discriminate|exact Hdecode]. }
split.
- intros Hread. destruct Hcases as [(e & w' & Hrun & Hstdin)|H]; [|exact H].
  rewrite Hrun in Hread. now elim Hread.
- intros Hrefused.
  destruct Hcases as [(e & w' & Hrun & Hstdin)|(body & readErr & _ & Hanswer & _)].
  + rewrite Hrun. split; [exact Hstdin|discriminate].
  + now elim (Hrefused body readErr).
Qed.

Lemma input_is_read_only_with_a_token_witness :
  (exists body readErr tokenResp,
     roundTrip Scenario.endToEnd
       (requests (Scenario.typed ["237670123456"; "1000"; "groceries"]))
     = Response 200 body readErr /\
     (V60 = V60 -> readErr = None) /\
     json_Unmarshal_TokenResponse body = (tokenResp, None)) /\
  stdin (snd (run Scenario.broken V40 (Scenario.typed ["237670123456"])))
  = stdin (Scenario.typed ["237670123456"]).
Proof.
split.
- apply (input_is_read_only_with_a_token Scenario.endToEnd V60
           (Scenario.typed ["237670123456"; "1000"; "groceries"])).
  vm_compute; discriminate.
- apply (input_is_read_only_with_a_token Scenario.broken V40
           (Scenario.typed ["237670123456"])).
  intros body readErr; vm_compute; discriminate.
Defined.
(** ** The step that failed *)

Lemma bind_eq {A B : Type} (m : IO A) (k : A -> IO B) (w w1 : World) (a : A) :
  m w = (a, w1) -> bind m k w = k a w1.
Proof. intros H. unfold bind. now rewrite H. Qed.

Lemma println_eq {B : Type} s (k : unit -> IO B) w :
  bind (fmt_Println s) k w = k tt (advance w 0 [EvStdout (s ++ LF)]).
Proof. apply bind_eq, emits_println. Qed.

Lemma print_eq {B : Type} s (k : unit -> IO B) w :
  bind (fmt_Print s) k w = k tt (advance w 0 [EvStdout s]).
Proof. apply bind_eq, emits_print. Qed.

Section Steps.
Context {lib : GoLibrary} (out : Outside).

Lemma run60_authenticates w :
  dotenv out = None \/ dotenv out = Some None ->
  Getenv out "APP_USERNAME" <> "" -> Getenv out "APP_PASSWORD" <> "" ->
  Main60.run out w
  = (r <- Main60.getAuthToken out (Main60.apiBaseURL out)
            (Getenv out "APP_USERNAME") (Getenv out "APP_PASSWORD") ;;
     match r with
     | Err e => ret (Some ("authentication failed: " ++ e))
     | Ok token => fmt_Println "✓ Authentication successful!" ;; Main60.run_input out token
     end) (advance w 0 (banner V60 (Main60.environment out))).
Proof.
intros Hloaded Huser Hpass. unfold Main60.run. rewrite (credentials_set out Huser Hpass).
destruct Hloaded as [H|H]; rewrite H;
  rewrite println_eq, print_eq, println_eq, !advance_advance; reflexivity.
Qed.

Lemma run40_authenticates w :
  dotenv out = None \/ dotenv out = Some None ->
  Getenv out "APP_USERNAME" <> "" -> Getenv out "APP_PASSWORD" <> "" ->
  Main40.run out w
  = (r <- Main40.getAuthToken out (Main40.apiBaseURL out)
            (Getenv out "APP_USERNAME") (Getenv out "APP_PASSWORD") ;;
     match r with
     | Err e => ret (Some e)
     | Ok token => fmt_Println "✓ Authentication successful" ;; Main40.run_input out token
     end) (advance w 0 (banner V40 (Main40.env out))).
Proof.
intros Hloaded Huser Hpass. unfold Main40.run. rewrite (credentials_set out Huser Hpass).
destruct Hloaded as [H|H]; rewrite H;
  rewrite println_eq, print_eq, println_eq, !advance_advance; reflexivity.
Qed.

End Steps.

(** X17.  The error of a run tells the step that failed only in the first
    program.  When the authentication, the collection or the polling
    returns an error, the first program returns it behind "authentication
    failed: ", "failed to initiate payment: " or "failed to get transaction
    status: ", and the second program returns it as it is.  In both the
    run ends there: after a failed authentication nothing more is printed,
    after a failed collection there is no polling, and after a failed
    polling no status is displayed. *)
Theorem run_returns_the_error_of_the_failed_step {lib : GoLibrary} (out : Outside)
    (w w1 : World) (e : error) :
  (dotenv out = None \/ dotenv out = Some None ->
   Getenv out "APP_USERNAME" <> "" -> Getenv out "APP_PASSWORD" <> "" ->
   (Main60.getAuthToken out (Main60.apiBaseURL out)
      (Getenv out "APP_USERNAME") (Getenv out "APP_PASSWORD")
      (advance w 0 (banner V60 (Main60.environment out))) = (Err e, w1) ->
    Main60.run out w = (Some ("authentication failed: " ++ e), w1)) /\
   (Main40.getAuthToken out (Main40.apiBaseURL out)
      (Getenv out "APP_USERNAME") (Getenv out "APP_PASSWORD")
      (advance w 0 (banner V40 (Main40.env out))) = (Err e, w1) ->
    Main40.run out w = (Some e, w1))) /\
  (forall token phoneNumber amountStr description,
     Main60.collectPayment out (Main60.apiBaseURL out) token
       (Main60.CollectRequest.mk amountStr "XAF" phoneNumber description
          ("TXN-" ++ strconv.Itoa (unixNow out)))
       (advance w 0 [EvStdout (LF ++ " Initiating payment collection..." ++ LF)])
     = (Err e, w1) ->
     Main60.run_payment out token phoneNumber amountStr description w
     = (Some ("failed to initiate payment: " ++ e), w1)) /\
  (forall token phone amount description,
     Main40.collectPayment out (Main40.apiBaseURL out) token
       (Main40.CollectRequest.mk amount "XAF" phone description
          ("TXN-" ++ strconv.Itoa (unixNow out)))
       (advance w 0 [EvStdout (LF ++ "📲 Initiating payment..." ++ LF)])
     = (Err e, w1) ->
     Main40.run_payment out token phone amount description w = (Some e, w1)) /\
  (forall token phoneNumber amountStr description reference w2,
     Main60.collectPayment out (Main60.apiBaseURL out) token
       (Main60.CollectRequest.mk amountStr "XAF" phoneNumber description
          ("TXN-" ++ strconv.Itoa (unixNow out)))
       (advance w 0 [EvStdout (LF ++ " Initiating payment collection..." ++ LF)])
     = (Ok reference, w2) ->
     Main60.pollTransactionStatus out (Main60.apiBaseURL out) token reference
       (advance w2 0
          [EvStdout (LF ++ "✓ Payment collection initiated successfully!");
           EvStdout (LF ++ "Transaction Reference: " ++ reference ++ LF);
           EvStdout ("External Reference: " ++ "TXN-" ++ strconv.Itoa (unixNow out) ++ LF);
           EvStdout (LF ++ " Please check your phone for USSD prompt..." ++ LF);
           EvStdout (" Enter your mobile money PIN to complete the payment..." ++ LF);
           EvStdout (LF ++ "Waiting for transaction completion..." ++ LF)])
     = (Err e, w1) ->
     Main60.run_payment out token phoneNumber amountStr description w
     = (Some ("failed to get transaction status: " ++ e), w1)) /\
  (forall token phone amount description reference w2,
     Main40.collectPayment out (Main40.apiBaseURL out) token
       (Main40.CollectRequest.mk amount "XAF" phone description
          ("TXN-" ++ strconv.Itoa (unixNow out)))
       (advance w 0 [EvStdout (LF ++ "📲 Initiating payment..." ++ LF)])
     = (Ok reference, w2) ->
     Main40.pollTransactionStatus out (Main40.apiBaseURL out) token reference
       (advance w2 0
          [EvStdout (LF ++ "✓ Payment initiated" ++ LF ++ "Reference: " ++ reference ++ LF);
           EvStdout ("Please check your phone for USSD popup..." ++ LF)])
     = (Err e, w1) ->
     Main40.run_payment out token phone amount description w = (Some e, w1)).
Proof.
split; [|split; [|split; [|split]]].
- intros Hloaded Huser Hpass. split; intros Hauth.
  + rewrite (run60_authenticates out w Hloaded Huser Hpass).
    now rewrite (bind_eq _ _ _ _ _ Hauth).
  + rewrite (run40_authenticates out w Hloaded Huser Hpass).
    now rewrite (bind_eq _ _ _ _ _ Hauth).
- intros token phoneNumber amountStr description Hcollect.
  unfold Main60.run_payment. cbv zeta.
  now rewrite println_eq, (bind_eq _ _ _ _ _ Hcollect).
- intros token phone amount description Hcollect.
  unfold Main40.run_payment. cbv zeta.
  now rewrite println_eq, (bind_eq _ _ _ _ _ Hcollect).
- intros token phoneNumber amountStr description reference w2 Hcollect Hpoll.
  unfold Main60.run_payment. cbv zeta.
  rewrite println_eq, (bind_eq _ _ _ _ _ Hcollect).
  rewrite !print_eq, !println_eq, !advance_advance.
  cbn [Nat.add app]. now rewrite (bind_eq _ _ _ _ _ Hpoll).
- intros token phone amount description reference w2 Hcollect Hpoll.
  unfold Main40.run_payment. cbv zeta.
  rewrite println_eq, (bind_eq _ _ _ _ _ Hcollect).
  rewrite !print_eq, !println_eq, !advance_advance.
  cbn [Nat.add app]. now rewrite (bind_eq _ _ _ _ _ Hpoll).
Qed.

Lemma run_returns_the_error_of_the_failed_step_witness :
  Main60.run_payment Scenario.pendingForEver "abc" "237670123456" "1000" "groceries"
    (mkWorld [] 1 [])
  = (Some "failed to get transaction status: transaction status check timed out after 60 attempts",
     snd (Main60.run_payment Scenario.pendingForEver "abc" "237670123456" "1000" "groceries"
            (mkWorld [] 1 []))).
Proof.
destruct (run_returns_the_error_of_the_failed_step Scenario.pendingForEver
            (mkWorld [] 1 [])
            (snd (Main60.run_payment Scenario.pendingForEver "abc" "237670123456" "1000"
                    "groceries" (mkWorld [] 1 [])))
            "transaction status check timed out after 60 attempts")
  as (_ & _ & _ & Hpoll & _).
apply (Hpoll "abc" "237670123456" "1000" "groceries" "r1"
         (advance (mkWorld [] 1 []) 1
            [EvStdout (LF ++ " Initiating payment collection..." ++ LF);
             EvRequest
               (collectRequest Scenario.demoURL "abc"
                  (collectPayload60 Scenario.pendingForEver "237670123456" "1000"
                     "groceries"))])).
- vm_compute; reflexivity.
- vm_compute; reflexivity.
Defined.
